(** * Netflix titles: the cleaning script and the dashboard's export

    A shallow embedding of [Data cleaning.py] (the "Dataset Normalizer")
    and of the data path of [netflix_dashboard.py] ([load_data], the
    sidebar mask and the CSV download), with the properties the
    specification states about them; then further properties of both
    scripts, the dashboard's sidebar choices, counts and data table
    included.

    A table is held the way the scripts hold it after [pd.read_csv]: a
    header, the row labels, and per row one cell per column.  Library
    calls (pandas, Python's [str], [re]) are modelled cell by cell from
    their documented behaviour (pandas 2.x); the places where a column's
    dtype would matter are noted at the definitions concerned. *)

From Stdlib Require Import ZArith Lia Ascii String.
From stdpp Require Import base decidable option list strings pretty.
From stdpp Require Import sorting.

Set Default Proof Using "Type".

(* ===================================================================== *)
(** * Characters and strings (Python [str]) *)
(* ===================================================================== *)

Module PyStr.

(** Text is a Python [str] held as its UTF-8 bytes. *)
Definition code (a : ascii) : N := N_of_ascii a.

(** A character of the ASCII range (one byte). *)
Definition is_ascii_char (a : ascii) : bool := (code a <? 128)%N.

(** [s.isascii()] *)
Fixpoint is_ascii (s : string) : bool :=
  match s with
  | EmptyString => true
  | String a s' => is_ascii_char a && is_ascii s'
  end.

(** The white space of [str.isspace], of [str.strip] and of the regex
    class [\s] (Python 3, [str] patterns).  In one byte: TAB..CR, FS..US
    and the space. *)
Definition is_space (a : ascii) : bool :=
  let n := code a in
  ((9 <=? n) && (n <=? 13) || (28 <=? n) && (n <=? 31) || (n =? 32))%N.

(** In two bytes: U+0085 and U+00A0. *)
Definition is_space2 (a b : ascii) : bool :=
  ((code a =? 194) && ((code b =? 133) || (code b =? 160)))%N.

(** In three bytes: U+1680, U+2000..U+200A, U+2028, U+2029, U+202F,
    U+205F and U+3000. *)
Definition is_space3 (a b c : ascii) : bool :=
  let x := code a in
  let y := code b in
  let z := code c in
  ((x =? 225) && (y =? 154) && (z =? 128)
   || (x =? 226) && (y =? 128) &&
      ((128 <=? z) && (z <=? 138) || (z =? 168) || (z =? 169) || (z =? 175))
   || (x =? 226) && (y =? 129) && (z =? 159)
   || (x =? 227) && (y =? 128) && (z =? 128))%N.

(** What follows the white-space character [s] begins with, if it begins
    with one. *)
Definition after_space (s : string) : option string :=
  match s with
  | String a s1 =>
      if is_space a then Some s1 else
      match s1 with
      | String b s2 =>
          if is_space2 a b then Some s2 else
          match s2 with
          | String c s3 => if is_space3 a b c then Some s3 else None
          | EmptyString => None
          end
      | EmptyString => None
      end
  | EmptyString => None
  end.

Definition is_upper (a : ascii) : bool :=
  let n := code a in ((65 <=? n) && (n <=? 90))%N.

Definition is_lower (a : ascii) : bool :=
  let n := code a in ((97 <=? n) && (n <=? 122))%N.

Definition is_cased (a : ascii) : bool := is_upper a || is_lower a.

Definition is_digit (a : ascii) : bool :=
  let n := code a in ((48 <=? n) && (n <=? 57))%N.

Definition upper (a : ascii) : ascii :=
  if is_lower a then ascii_of_N (code a - 32) else a.

Definition lower (a : ascii) : ascii :=
  if is_upper a then ascii_of_N (code a + 32) else a.

(** [re.search(r'^\s*$', s) is not None]: every character is white space
    (the empty string included). *)
Fixpoint blank (s : string) : bool :=
  match s with
  | EmptyString => true
  | String a s1 =>
      if is_space a then blank s1 else
      match s1 with
      | String b s2 =>
          if is_space2 a b then blank s2 else
          match s2 with
          | String c s3 => is_space3 a b c && blank s3
          | EmptyString => false
          end
      | EmptyString => false
      end
  end.

(** [s.lstrip()] *)
Fixpoint lstrip (s : string) : string :=
  match s with
  | EmptyString => EmptyString
  | String a s1 =>
      if is_space a then lstrip s1 else
      match s1 with
      | String b s2 =>
          if is_space2 a b then lstrip s2 else
          match s2 with
          | String c s3 => if is_space3 a b c then lstrip s3 else s
          | EmptyString => s
          end
      | EmptyString => s
      end
  end.

(** [s.rstrip()]: [s] up to where only white space follows. *)
Fixpoint rstrip (s : string) : string :=
  match s with
  | EmptyString => EmptyString
  | String a s' => if blank s then EmptyString else String a (rstrip s')
  end.

(** [s.strip()] *)
Definition strip (s : string) : string := rstrip (lstrip s).

(** [s.title()], with the letters of the ASCII range: a letter that
    follows a letter is lowered, any other is raised; [prev] is CPython's
    [previous_is_cased].  A byte beyond the ASCII range is left as it is
    and counts as no letter, so that the casing of letters beyond ASCII
    is not reproduced. *)
Fixpoint title_from (prev : bool) (s : string) : string :=
  match s with
  | EmptyString => EmptyString
  | String a s' =>
      String (if prev then lower a else upper a) (title_from (is_cased a) s')
  end.

Definition title (s : string) : string := title_from false s.

(** The casing [title_from] gives a character. *)
Definition cased_as (prev : bool) (a : ascii) : ascii :=
  if prev then lower a else upper a.

(** [s.lower()] *)
Fixpoint lower_str (s : string) : string :=
  match s with
  | EmptyString => EmptyString
  | String a s' => String (lower a) (lower_str s')
  end.

Fixpoint starts_with (p s : string) : bool :=
  match p, s with
  | EmptyString, _ => true
  | String a p', String b s' => bool_decide (a = b) && starts_with p' s'
  | String _ _, EmptyString => false
  end.

(** [p in s] for two strings. *)
Fixpoint contains (p s : string) : bool :=
  starts_with p s ||
  match s with
  | EmptyString => false
  | String _ s' => contains p s'
  end.

End PyStr.

(* ===================================================================== *)
(** * Numbers ([int64], [float64]) and their text forms *)
(* ===================================================================== *)

Module Num.

(** A finite [float64] is held as the decimal fraction [m / 10^k] it was
    written as, with [k = 0] or [m] not a multiple of ten; binary rounding
    and the sign of zero are not represented, and neither is the range of
    [float64]: a literal beyond it, which pandas does not convert, is
    held as the decimal it names.  NaN is the cell [NaN] below, never a
    [float64]. *)
Inductive float64 :=
| Finite (m : Z) (k : nat)
| PosInf
| NegInf.

Fixpoint reduce (k : nat) (m : Z) : float64 :=
  match k with
  | O => Finite m 0
  | S k' => if (m mod 10 =? 0)%Z then reduce k' (m / 10)%Z else Finite m k
  end.

(** [m * 10^e] *)
Definition scaled (m e : Z) : float64 :=
  if (0 <=? e)%Z then Finite (m * 10 ^ e)%Z 0 else reduce (Z.to_nat (- e)) m.

(** C's [isspace] as pandas' tokenizer uses it: the space and TAB..CR. *)
Definition isspace_ascii (a : ascii) : bool :=
  let n := PyStr.code a in ((n =? 32) || (9 <=? n) && (n <=? 13))%N.

Fixpoint skip_spaces (s : string) : string :=
  match s with
  | String a s' => if isspace_ascii a then skip_spaces s' else s
  | EmptyString => EmptyString
  end.

Definition digit_value (a : ascii) : Z := Z.of_N (PyStr.code a - 48).

(** The longest run of digits at the head of [s]: its value read after
    [acc], how many there are, and what follows. *)
Fixpoint digits_from (acc : Z) (n : nat) (s : string) : Z * nat * string :=
  match s with
  | String a s' =>
      if PyStr.is_digit a
      then digits_from (acc * 10 + digit_value a)%Z (S n) s'
      else (acc, n, s)
  | EmptyString => (acc, n, s)
  end.

Definition sign_of (s : string) : bool * string :=
  match s with
  | String "-" s' => (true, s')
  | String "+" s' => (false, s')
  | _ => (false, s)
  end.

Inductive number :=
| NInt (z : Z)
| NFloat (f : float64).

(** The exponent part of a literal: [e] or [E], an optional sign and at
    least one digit.  [None]: the text at hand is not an exponent. *)
Definition exponent_of (s : string) : option (Z * string) :=
  match s with
  | String a s' =>
      if bool_decide (a = "e"%char) || bool_decide (a = "E"%char) then
        let '(neg, s1) := sign_of s' in
        let '(n, cnt, s2) := digits_from 0 0 s1 in
        if bool_decide (cnt = O) then None
        else Some (if neg then (- n)%Z else n, s2)
      else None
  | EmptyString => None
  end.

(** pandas' [xstrtod] on a whole field: blanks, sign, digits, an optional
    fraction, an optional exponent, blanks, end of text. *)
Definition parse_decimal (s : string) : option number :=
  let '(neg, s1) := sign_of (skip_spaces s) in
  let '(ip, ni, s2) := digits_from 0 0 s1 in
  let '(m, nf, dot, s3) :=
    match s2 with
    | String "." s' => let '(m, nf, s3) := digits_from ip 0 s' in (m, nf, true, s3)
    | _ => (ip, O, false, s2)
    end in
  if bool_decide (ni + nf = 0)%nat then None
  else
    let m := if neg then (- m)%Z else m in
    match exponent_of s3 with
    | Some (e, s4) =>
        if bool_decide (skip_spaces s4 = EmptyString)
        then Some (NFloat (scaled m (e - Z.of_nat nf)))
        else None
    | None =>
        if bool_decide (skip_spaces s3 = EmptyString)
        then Some (if dot then NFloat (scaled m (- Z.of_nat nf)) else NInt m)
        else None
    end.

(** The spellings of infinity [floatify] accepts when [xstrtod] fails. *)
Definition parse_inf (s : string) : option number :=
  let '(neg, body) := sign_of s in
  let w := PyStr.lower_str body in
  if bool_decide (w = "inf"%string) || bool_decide (w = "infinity"%string)
  then Some (NFloat (if neg then NegInf else PosInf))
  else None.

(** What [pd.to_numeric] makes of one string; [None] is a failed
    conversion (the text [nan] included, which converts to NaN). *)
Definition parse_number (s : string) : option number :=
  match parse_decimal s with
  | Some n => Some n
  | None => parse_inf s
  end.

Fixpoint zeros (n : nat) : string :=
  match n with
  | O => EmptyString
  | S n' => String "0" (zeros n')
  end.

(** [s] padded with zeros on the left to [w] characters. *)
Definition pad0 (w : nat) (s : string) : string :=
  (zeros (w - String.length s) +:+ s)%string.

(** [str(z)] *)
Definition int_repr (z : Z) : string := pretty z.

(** [str(f)] in positional notation (Python turns to exponent notation
    below 1e-4 and from 1e16 on; that form is not reproduced). *)
Definition float_repr (f : float64) : string :=
  match f with
  | PosInf => "inf"
  | NegInf => "-inf"
  | Finite m O => (int_repr m +:+ ".0")%string
  | Finite m k =>
      let p := (10 ^ Z.of_nat k)%Z in
      ((if (m <? 0)%Z then "-" else "") +:+ int_repr (Z.abs m / p) +:+ "." +:+
       pad0 k (int_repr (Z.abs m mod p)))%string
  end.

(** [lo <= f] and [f <= hi] for an integer bound. *)
Definition float_geb (f : float64) (lo : Z) : bool :=
  match f with
  | Finite m k => (lo * 10 ^ Z.of_nat k <=? m)%Z
  | PosInf => true
  | NegInf => false
  end.

Definition float_leb (f : float64) (hi : Z) : bool :=
  match f with
  | Finite m k => (m <=? hi * 10 ^ Z.of_nat k)%Z
  | PosInf => false
  | NegInf => true
  end.

(** The integer a float is cut to when it is read as a count of
    nanoseconds (towards zero); none for an infinity. *)
Definition float_trunc (f : float64) : option Z :=
  match f with
  | Finite m k => Some (m ÷ 10 ^ Z.of_nat k)%Z
  | _ => None
  end.

End Num.

(* ===================================================================== *)
(** * Timestamps ([datetime64[ns]]) *)
(* ===================================================================== *)

Module Tstamp.

Local Open Scope Z_scope.

(** A timestamp is a count of nanoseconds since 1970-01-01T00:00:00, as
    pandas stores it; [NaT] is the cell [NaN]. *)
Definition ns_per_day : Z := 86400 * 1000000000.

Definition min_ns : Z := - 9223372036854775807.
Definition max_ns : Z := 9223372036854775807.

Definition in_bounds (ns : Z) : bool := (min_ns <=? ns) && (ns <=? max_ns).

(** Within a 400-year era that begins on a first of March: the day on
    which its year [yoe] begins, and the year a day [doe] falls in. *)
Definition era_start (yoe : Z) : Z := yoe * 365 + yoe / 4 - yoe / 100.

Definition yoe_of (doe : Z) : Z :=
  (doe - doe / 1460 + doe / 36524 - doe / 146096) / 365.

(** Days since the epoch of a proleptic Gregorian date. *)
Definition days_from_civil (y m d : Z) : Z :=
  let y' := if m <=? 2 then y - 1 else y in
  let era := y' / 400 in
  let yoe := y' - era * 400 in
  let mp := if 2 <? m then m - 3 else m + 9 in
  let doy := (153 * mp + 2) / 5 + d - 1 in
  let doe := era_start yoe + doy in
  era * 146097 + doe - 719468.

(** The date (year, month, day) of a day count. *)
Definition civil_from_days (z : Z) : Z * Z * Z :=
  let z := z + 719468 in
  let era := z / 146097 in
  let doe := z - era * 146097 in
  let yoe := yoe_of doe in
  let doy := doe - era_start yoe in
  let mp := (5 * doy + 2) / 153 in
  let d := doy - (153 * mp + 2) / 5 + 1 in
  let m := if mp <? 10 then mp + 3 else mp - 9 in
  let y := yoe + era * 400 in
  (if m <=? 2 then y + 1 else y, m, d).

(** [Timestamp.year], what [Series.dt.year] reads per element. *)
Definition year_of (ns : Z) : Z :=
  let '(y, _, _) := civil_from_days (ns / ns_per_day) in y.

Definition is_leap (y : Z) : bool :=
  (y mod 4 =? 0) && (negb (y mod 100 =? 0) || (y mod 400 =? 0)).

Definition days_in_month (y m : Z) : Z :=
  if m =? 2 then (if is_leap y then 29 else 28)
  else if (m =? 4) || (m =? 6) || (m =? 9) || (m =? 11) then 30
  else 31.

(** The timestamp of a date and a time of day, when they name a real
    instant inside the range of [datetime64[ns]]. *)
Definition make (y m d hh mm ss : Z) : option Z :=
  if (1 <=? m) && (m <=? 12) && (1 <=? d) && (d <=? days_in_month y m)
     && (hh <=? 23) && (mm <=? 59) && (ss <=? 59)
  then
    let ns := days_from_civil y m d * ns_per_day
              + ((hh * 60 + mm) * 60 + ss) * 1000000000 in
    if in_bounds ns then Some ns else None
  else None.

(** Exactly [n] digits at the head of [s]. *)
Fixpoint fixed_digits (n : nat) (acc : Z) (s : string) : option (Z * string) :=
  match n with
  | O => Some (acc, s)
  | S n' =>
      match s with
      | String a s' =>
          if PyStr.is_digit a
          then fixed_digits n' (acc * 10 + Num.digit_value a) s'
          else None
      | EmptyString => None
      end
  end.

(** The character [c] at the head of [s]. *)
Definition expect (c : ascii) (s : string) : option string :=
  match s with
  | String a s' => if bool_decide (a = c) then Some s' else None
  | EmptyString => None
  end.

(** [HH:MM:SS] up to the end of the text. *)
Definition parse_clock (s : string) : option (Z * Z * Z) :=
  '(hh, s) ← fixed_digits 2 0 s;
  s ← expect ":" s;
  '(mm, s) ← fixed_digits 2 0 s;
  s ← expect ":" s;
  '(ss, s) ← fixed_digits 2 0 s;
  if bool_decide (s = EmptyString) then Some (hh, mm, ss) else None.

(** ISO 8601: [YYYY-MM-DD], alone or followed by a blank or [T] and
    [HH:MM:SS]. *)
Definition parse_iso (s : string) : option Z :=
  '(y, s) ← fixed_digits 4 0 s;
  s ← expect "-" s;
  '(m, s) ← fixed_digits 2 0 s;
  s ← expect "-" s;
  '(d, s) ← fixed_digits 2 0 s;
  match s with
  | EmptyString => make y m d 0 0 0
  | String a s' =>
      if bool_decide (a = " "%char) || bool_decide (a = "T"%char) then
        '(hh, mm, ss) ← parse_clock s';
        make y m d hh mm ss
      else None
  end.

Definition month_names : list string :=
  ["january"; "february"; "march"; "april"; "may"; "june"; "july";
   "august"; "september"; "october"; "november"; "december"]%string.

(** The month whose English name starts [s] (any case), and the rest. *)
Fixpoint month_prefix (names : list string) (m : Z) (s : string)
  : option (Z * string) :=
  match names with
  | [] => None
  | name :: names' =>
      let n := String.length name in
      if bool_decide (PyStr.lower_str (String.substring 0 n s) = name)
      then Some (m, String.substring n (String.length s - n) s)
      else month_prefix names' (m + 1) s
  end.

(** The catalogue's own layout, [Month D, YYYY]. *)
Definition parse_long (s : string) : option Z :=
  '(m, s) ← month_prefix month_names 1 s;
  s ← expect " " s;
  '(d, n, s) ← Some (Num.digits_from 0 0 s);
  if bool_decide (n = 1%nat) || bool_decide (n = 2%nat) then
    s ← expect "," s;
    s ← expect " " s;
    '(y, s) ← fixed_digits 4 0 s;
    if bool_decide (s = EmptyString) then make y m d 0 0 0 else None
  else None.

(** What [pd.to_datetime] makes of one string, element by element, for
    the two layouts above; every other text is taken as unparseable.
    (The library's wider fallback parser, and its guessing of one layout
    per column from the first value, are not reproduced.) *)
Definition parse_datetime (s : string) : option Z :=
  match parse_iso s with
  | Some ns => Some ns
  | None => parse_long s
  end.

(** [str(Timestamp)]: date, time, and the fraction of a second when
    there is one (six digits, nine when there are odd nanoseconds). *)
Definition timestamp_repr (ns : Z) : string :=
  let '(y, m, d) := civil_from_days (ns / ns_per_day) in
  let tod := ns mod ns_per_day in
  let sec := tod / 1000000000 in
  let frac := tod mod 1000000000 in
  let two z := Num.pad0 2 (Num.int_repr z) in
  (Num.pad0 4 (Num.int_repr y) +:+ "-" +:+ two m +:+ "-" +:+ two d +:+ " " +:+
   two (sec / 3600)%Z +:+ ":" +:+ two (sec / 60 mod 60)%Z +:+ ":" +:+
   two (sec mod 60)%Z +:+
   (if (frac =? 0)%Z then ""
    else if (frac mod 1000 =? 0)%Z
         then "." +:+ Num.pad0 6 (Num.int_repr (frac / 1000)%Z)
         else "." +:+ Num.pad0 9 (Num.int_repr frac)))%string.

End Tstamp.

(* ===================================================================== *)
(** * Cells, series and frames (pandas) *)
(* ===================================================================== *)

(** One cell of a table.  [NaN] is pandas' missing value in all its guises
    ([np.nan], [NaT]); an empty field of the CSV file is read as [NaN]. *)
Inductive cell :=
| NaN
| Str (s : string)
| Int (z : Z)
| Float (f : Num.float64)
| Timestamp (ns : Z).

#[global] Instance float64_eq_dec : EqDecision Num.float64.
Proof. solve_decision. Defined.

#[global] Instance cell_eq_dec : EqDecision cell.
Proof. solve_decision. Defined.

(** The exceptions the scripts can meet on a table that was read. *)
Inductive error :=
| KeyError (col : string)
| AttributeError
| TypeError.

Inductive result (A : Type) :=
| Ok (a : A)
| Raise (e : error).

Arguments Ok {A} a.
Arguments Raise {A} e.

#[global] Instance result_ret : MRet result := λ A a, Ok a.

#[global] Instance result_bind : MBind result := λ A B f m,
  match m with
  | Ok a => f a
  | Raise e => Raise e
  end.

(** A series is the list of a column's cells, top to bottom. *)
Abbreviation Series := (list cell).

(** A frame: the row labels, the header, and the rows.  In a frame that
    was read from a file there is one label per row and one cell per
    column in every row; a cell beyond a row's end reads as missing. *)
Record DataFrame := {
  index : list nat;
  columns : list string;
  rows : list (list cell)
}.

(** What a written CSV file holds: the header line and the records. *)
Record csv_file := {
  header : list string;
  records : list (list cell)
}.

Module Pd.

Definition isna (c : cell) : bool :=
  match c with NaN => true | _ => false end.

Definition notna (c : cell) : bool := negb (isna c).

(** Position of the column named [c] (the first, should a name repeat). *)
Definition col_index (c : string) (cols : list string) : option nat :=
  fst <$> list_find (λ x, x = c) cols.

Definition get_loc (df : DataFrame) (c : string) : result nat :=
  match col_index c (columns df) with
  | Some i => Ok i
  | None => Raise (KeyError c)
  end.

Definition cell_at (i : nat) (r : list cell) : cell := default NaN (r !! i).

(** [df[c]] *)
Definition getitem (df : DataFrame) (c : string) : result Series :=
  i ← get_loc df c;
  Ok (cell_at i <$> rows df).

(** [df[c] = s]: in place for a column there is, a new last column
    otherwise. *)
Definition setitem (df : DataFrame) (c : string) (s : Series) : DataFrame :=
  match col_index c (columns df) with
  | Some i =>
      {| index := index df; columns := columns df;
         rows := zip_with (λ r v, <[i:=v]> r) (rows df) s |}
  | None =>
      {| index := index df; columns := columns df ++ [c];
         rows := zip_with (λ r v, r ++ [v]) (rows df) s |}
  end.

(** The entries of [l] whose mask bit is set. *)
Fixpoint filter_mask {A} (mask : list bool) (l : list A) : list A :=
  match mask, l with
  | b :: mask', x :: l' =>
      if b then x :: filter_mask mask' l' else filter_mask mask' l'
  | _, _ => []
  end.

(** [df[mask]] *)
Definition select (df : DataFrame) (mask : list bool) : DataFrame :=
  {| index := filter_mask mask (index df); columns := columns df;
     rows := filter_mask mask (rows df) |}.

(** [df.duplicated()]: a row is marked when an equal row stands above it. *)
Fixpoint duplicated_from (seen l : list (list cell)) : list bool :=
  match l with
  | [] => []
  | r :: l' => bool_decide (r ∈ seen) :: duplicated_from (r :: seen) l'
  end.

Definition duplicated (df : DataFrame) : list bool :=
  duplicated_from [] (rows df).

(** [df.drop_duplicates()] *)
Definition drop_duplicates (df : DataFrame) : DataFrame :=
  select df (negb <$> duplicated df).

(** [df.dropna(subset=...)]: every named column must exist; a row stays
    when none of its cells in those columns is missing. *)
Definition dropna (subset : list string) (df : DataFrame) : result DataFrame :=
  locs ← mapM (get_loc df) subset;
  Ok (select df ((λ r, forallb (λ i, notna (cell_at i r)) locs) <$> rows df)).

(** [Series.astype(str)], element by element. *)
Definition astype_str_cell (c : cell) : cell :=
  match c with
  | NaN => Str "nan"
  | Str s => Str s
  | Int z => Str (Num.int_repr z)
  | Float f => Str (Num.float_repr f)
  | Timestamp ns => Str (Tstamp.timestamp_repr ns)
  end.

Definition astype_str (s : Series) : Series := astype_str_cell <$> s.

(** [.replace(r'^\s*$', np.nan, regex=True)] on one cell: only text is
    matched. *)
Definition replace_blank_cell (c : cell) : cell :=
  match c with
  | Str s => if PyStr.blank s then NaN else Str s
  | _ => c
  end.

Definition replace_blank (s : Series) : Series := replace_blank_cell <$> s.

(** [df.replace(r'^\s*$', np.nan, regex=True)] *)
Definition replace_blank_frame (df : DataFrame) : DataFrame :=
  {| index := index df; columns := columns df;
     rows := replace_blank <$> rows df |}.

(** [Series.apply(f)] *)
Definition apply (f : cell → cell) (s : Series) : Series := f <$> s.

(** [pd.to_numeric(..., errors='coerce')], element by element.  (pandas
    gives the whole column one dtype, so that an integer next to a
    fraction or a gap is held as a float of the same value.) *)
Definition to_numeric_cell (c : cell) : cell :=
  match c with
  | NaN => NaN
  | Str s =>
      match Num.parse_number s with
      | Some (Num.NInt z) => Int z
      | Some (Num.NFloat f) => Float f
      | None => NaN
      end
  | Int z => Int z
  | Float f => Float f
  | Timestamp ns => Int ns
  end.

Definition to_numeric (s : Series) : Series := to_numeric_cell <$> s.

Definition timestamp_of (ns : Z) : cell :=
  if Tstamp.in_bounds ns then Timestamp ns else NaN.

(** [pd.to_datetime(..., errors='coerce')], element by element; a number
    is a count of nanoseconds since the epoch. *)
Definition to_datetime_cell (c : cell) : cell :=
  match c with
  | NaN => NaN
  | Str s => from_option Timestamp NaN (Tstamp.parse_datetime s)
  | Int z => timestamp_of z
  | Float f => from_option timestamp_of NaN (Num.float_trunc f)
  | Timestamp ns => Timestamp ns
  end.

Definition to_datetime (s : Series) : Series := to_datetime_cell <$> s.

Definition is_datetimelike (c : cell) : bool :=
  match c with
  | NaN | Timestamp _ => true
  | _ => false
  end.

Definition year_cell (c : cell) : cell :=
  match c with
  | Timestamp ns => Int (Tstamp.year_of ns)
  | _ => NaN
  end.

(** [Series.dt.year]; the accessor refuses a column that does not hold
    timestamps. *)
Definition dt_year (s : Series) : result Series :=
  if forallb is_datetimelike s then Ok (year_cell <$> s)
  else Raise AttributeError.

(** [df.to_csv(..., index=...)]: the header and one record per row; with
    [index=True] the row label leads each record under an empty name. *)
Definition to_csv (df : DataFrame) (with_index : bool) : csv_file :=
  if with_index
  then {| header := EmptyString :: columns df;
          records := zip_with (λ l r, Int (Z.of_nat l) :: r) (index df) (rows df) |}
  else {| header := columns df; records := rows df |}.

End Pd.

(* ===================================================================== *)
(** * The cleaning script *)
(* ===================================================================== *)

Module Cleaning.

Import Pd.

Definition cat_cols : list string :=
  ["type"; "rating"; "country"; "director"; "cast"; "listed_in"]%string.

(** [lambda x: x.strip().title() if isinstance(x, str) else x] *)
Definition strip_title (x : cell) : cell :=
  match x with
  | Str s => Str (PyStr.title (PyStr.strip s))
  | _ => x
  end.

(** The body of the loop over [cat_cols]. *)
Definition clean_col (df : DataFrame) (col : string) : result DataFrame :=
  if bool_decide (col ∈ columns df) then
    s ← getitem df col;
    let df := setitem df col (replace_blank (astype_str s)) in
    s ← getitem df col;
    Ok (setitem df col (apply strip_title s))
  else Ok df.

Fixpoint clean_cols (cols : list string) (df : DataFrame) : result DataFrame :=
  match cols with
  | [] => Ok df
  | col :: cols' => df ← clean_col df col; clean_cols cols' df
  end.

(** Lines 9 to 29 of the script, on the frame [pd.read_csv] returned. *)
Definition normalize (df : DataFrame) : result DataFrame :=
  let df := drop_duplicates df in
  df ← dropna ["title"; "type"; "release_year"]%string df;
  df ← clean_cols cat_cols df;
  s ← getitem df "release_year";
  let df := setitem df "release_year" (to_numeric s) in
  s ← getitem df "date_added";
  let df := setitem df "date_added" (to_datetime s) in
  s ← getitem df "date_added";
  y ← dt_year s;
  let df := setitem df "year_added" y in
  Ok (replace_blank_frame df).

(** The whole run: clean, then [df.to_csv(..., index=False)]. *)
Definition run (raw : DataFrame) : result csv_file :=
  df ← normalize raw;
  Ok (to_csv df false).

End Cleaning.

(* ===================================================================== *)
(** * The dashboard's data path *)
(* ===================================================================== *)

Module Dashboard.

Import Pd.

Definition is_text_or_nan (c : cell) : bool :=
  match c with
  | NaN | Str _ => true
  | _ => false
  end.

Definition is_text (c : cell) : bool :=
  match c with
  | Str _ => true
  | _ => false
  end.

(** [Series.str]: the accessor is given for a column of text (gaps
    allowed, or no rows at all) and raises for any other. *)
Definition str_accessor (s : Series) : result Series :=
  if forallb is_text_or_nan s && (existsb is_text s || bool_decide (s = []))
  then Ok s else Raise AttributeError.

Definition lower_cell (c : cell) : cell :=
  match c with
  | Str t => Str (PyStr.lower_str t)
  | _ => c
  end.

(** [Series.str.lower()] *)
Definition str_lower (s : Series) : result Series :=
  s ← str_accessor s;
  Ok (lower_cell <$> (s : Series)).

(** The first run of digits in [s], as [re.search(r"(\d+)", s)] finds
    it. *)
Fixpoint first_digits (s : string) : option Z :=
  match s with
  | EmptyString => None
  | String a s' =>
      if PyStr.is_digit a
      then Some (fst (fst (Num.digits_from 0 0 s)))
      else first_digits s'
  end.

(** [.str.extract(r"(\d+)").astype(float)] on one cell. *)
Definition extract_minutes (c : cell) : cell :=
  match c with
  | Str s =>
      match first_digits s with
      | Some n => Float (Num.Finite n 0)
      | None => NaN
      end
  | _ => NaN
  end.

(** [Series.fillna(v)] *)
Definition fillna (v : string) (s : Series) : Series :=
  (λ c, if isna c then Str v else c) <$> s.

(** [df.loc[df['type'].str.lower() == "movie", "duration"]
      .str.extract(r"(\d+)").astype(float)],
    as it lands in the frame once aligned on the row labels: the minutes
    on the rows selected, a gap on the others. *)
Definition duration_mins (df : DataFrame) : result Series :=
  ty ← getitem df "type";
  low ← str_lower ty;
  du ← getitem df "duration";
  du ← str_accessor du;
  Ok (zip_with (λ t d, if bool_decide (t = Str "movie") then extract_minutes d else NaN)
               low du).

(** The body of the [try] in [load_data], on the frame that was read. *)
Definition load_data_try (df : DataFrame) : result DataFrame :=
  s ← getitem df "date_added";
  let df := setitem df "date_added" (to_datetime s) in
  s ← getitem df "release_year";
  let df := setitem df "release_year" (to_numeric s) in
  df ← (if bool_decide ("year_added"%string ∉ columns df) then
          s ← getitem df "date_added";
          y ← dt_year s;
          Ok (setitem df "year_added" y)
        else
          s ← getitem df "year_added";
          Ok (setitem df "year_added" (to_numeric s)));
  df ← (if bool_decide ("duration"%string ∈ columns df) then
          m ← duration_mins df;
          Ok (setitem df "duration_mins" m)
        else Ok df);
  s ← getitem df "country";
  let df := setitem df "country" (fillna "Unknown" s) in
  s ← getitem df "rating";
  let df := setitem df "rating" (fillna "Not Rated" s) in
  s ← getitem df "listed_in";
  Ok (setitem df "listed_in" (fillna "Unknown Genre" s)).

(** [pd.DataFrame()] *)
Definition empty_frame : DataFrame :=
  {| index := []; columns := []; rows := [] |}.

(** [load_data]: any exception is reported and an empty frame returned. *)
Definition load_data (file : DataFrame) : DataFrame :=
  match load_data_try file with
  | Ok df => df
  | Raise _ => empty_frame
  end.

(** [df.empty] *)
Definition empty (df : DataFrame) : bool :=
  bool_decide (columns df = []) || bool_decide (rows df = []).

(** What the sidebar widgets hold. *)
Record selection := {
  selected_types : list cell;
  selected_countries : list string;
  year_range : Z * Z;
  selected_ratings : list cell
}.

(** [Series.isin(values)] *)
Definition isin (values : list cell) (s : Series) : list bool :=
  (λ c, bool_decide (c ∈ values)) <$> s.

(** [x or ""] for the cell kinds that stand for an empty value; no text
    for a cell on which [c in x] raises. *)
Definition text_or_empty (x : cell) : option string :=
  match x with
  | Str s => Some s
  | Int 0 => Some EmptyString
  | Float (Num.Finite 0 _) => Some EmptyString
  | _ => None
  end.

(** [lambda x: any(c in (x or "") for c in selected_countries)] *)
Definition country_hit (sel : list string) (x : cell) : result bool :=
  match sel with
  | [] => Ok false
  | _ =>
      match text_or_empty x with
      | Some s => Ok (existsb (λ c, PyStr.contains c s) sel)
      | None => Raise TypeError
      end
  end.

Definition geb_cell (c : cell) (lo : Z) : bool :=
  match c with
  | Int z => (lo <=? z)%Z
  | Float f => Num.float_geb f lo
  | _ => false
  end.

Definition leb_cell (c : cell) (hi : Z) : bool :=
  match c with
  | Int z => (z <=? hi)%Z
  | Float f => Num.float_leb f hi
  | _ => false
  end.

(** [mask &= m] *)
Definition mask_and (mask m : list bool) : list bool := zip_with andb mask m.

(** The filter mask built from the sidebar's selection. *)
Definition filter_mask_of (df : DataFrame) (sel : selection) : result (list bool) :=
  let mask := (λ _, true) <$> index df in
  mask ← (if bool_decide (selected_types sel ≠ []) then
            s ← getitem df "type"; Ok (mask_and mask (isin (selected_types sel) s))
          else Ok mask);
  mask ← (if bool_decide (selected_countries sel ≠ []) then
            s ← getitem df "country";
            hits ← mapM (country_hit (selected_countries sel)) s;
            Ok (mask_and mask hits)
          else Ok mask);
  s ← getitem df "release_year";
  let mask :=
    mask_and mask
      (zip_with andb ((λ c, geb_cell c (fst (year_range sel))) <$> s)
                     ((λ c, leb_cell c (snd (year_range sel))) <$> s)) in
  if bool_decide (selected_ratings sel ≠ []) then
    s ← getitem df "rating"; Ok (mask_and mask (isin (selected_ratings sel) s))
  else Ok mask.

(** The download the data-table expander offers: the filtered frame
    through [to_csv(index=False)], when it has a row. *)
Definition export (filtered : DataFrame) : option csv_file :=
  if bool_decide (rows filtered ≠ []) then Some (to_csv filtered false)
  else None.

(** One run of the script over the cleaned file and a selection, as far
    as its data goes (widgets and charts lie between these steps and are
    display only): the file as the run leaves it, and the download
    offered, if the run gets that far. *)
Definition run (file : DataFrame) (sel : selection) : DataFrame * option csv_file :=
  let df := load_data file in
  if empty df then (file, None)
  else
    match filter_mask_of df sel with
    | Ok mask => (file, export (select df mask))
    | Raise _ => (file, None)
    end.

End Dashboard.

(* ===================================================================== *)
(** * The script seen row by row *)
(* ===================================================================== *)

(** Vocabulary for the statements below.  Everything here is defined from
    the operations above: the frame after the two row-dropping lines, and
    what the remaining lines do to one row of it. *)
Module Rowwise.

Import Pd Cleaning.

(** The cell of row [r] under the column named [c]. *)
Definition cell_of (cols : list string) (c : string) (r : list cell) : cell :=
  match col_index c cols with
  | Some i => cell_at i r
  | None => NaN
  end.

(** The columns the script indexes without asking whether they exist. *)
Definition required : list string :=
  ["title"; "type"; "release_year"; "date_added"]%string.

Definition has_required (df : DataFrame) : bool :=
  forallb (λ c, bool_decide (c ∈ columns df)) required.

(** Every row holds one cell per column. *)
Definition rectangular (df : DataFrame) : bool :=
  forallb (λ r, bool_decide (length r = length (columns df))) (rows df).

(** The rows left after [drop_duplicates] and [dropna] (lines 9 and 12). *)
Definition survivors (df : DataFrame) : list (list cell) :=
  match dropna ["title"; "type"; "release_year"]%string (drop_duplicates df) with
  | Ok d => rows d
  | Raise _ => []
  end.

(** The row labels left after the same two lines. *)
Definition kept_index (df : DataFrame) : list nat :=
  match dropna ["title"; "type"; "release_year"]%string (drop_duplicates df) with
  | Ok d => index d
  | Raise _ => []
  end.

(** None of the three essential fields of [r] is missing. *)
Definition complete (cols : list string) (r : list cell) : bool :=
  notna (cell_of cols "title" r) && notna (cell_of cols "type" r)
  && notna (cell_of cols "release_year" r).

(** Lines 18 and 19 on one cell. *)
Definition clean_text (c : cell) : cell :=
  strip_title (replace_blank_cell (astype_str_cell c)).

(** [df[c] = f(df[c])] on one row. *)
Definition on_col (cols : list string) (c : string) (f : cell → cell)
    (r : list cell) : list cell :=
  match col_index c cols with
  | Some i => alter f i r
  | None => r
  end.

(** [df[c] = v] on one row. *)
Definition put_col (cols : list string) (c : string) (v : cell)
    (r : list cell) : list cell :=
  match col_index c cols with
  | Some i => <[i:=v]> r
  | None => r ++ [v]
  end.

(** Lines 15 to 29 on one row. *)
Definition clean_row (cols : list string) (r : list cell) : list cell :=
  let r := foldl (λ r c, on_col cols c clean_text r) r cat_cols in
  let r := on_col cols "release_year" to_numeric_cell r in
  let r := on_col cols "date_added" to_datetime_cell r in
  let r := put_col cols "year_added" (year_cell (cell_of cols "date_added" r)) r in
  replace_blank r.

(** The header the script leaves. *)
Definition out_columns (cols : list string) : list string :=
  if bool_decide ("year_added"%string ∈ cols) then cols
  else cols ++ ["year_added"%string].

(** The columns the script transforms or creates by name. *)
Definition touched : list string :=
  cat_cols ++ ["release_year"; "date_added"; "year_added"]%string.

Definition is_blank_text (c : cell) : bool :=
  match c with
  | Str s => PyStr.blank s
  | _ => false
  end.

(** The year the script derives for row [r]. *)
Definition year_of_row (cols : list string) (r : list cell) : cell :=
  year_cell (to_datetime_cell (cell_of cols "date_added" r)).

(** What the script leaves in place of the cell [x] that row [r] holds
    under the column named [c]. *)
Definition out_cell (cols : list string) (r : list cell) (c : string)
    (x : cell) : cell :=
  replace_blank_cell
    (if bool_decide (c ∈ cat_cols) then clean_text x
     else if bool_decide (c = "release_year"%string) then to_numeric_cell x
     else if bool_decide (c = "date_added"%string) then to_datetime_cell x
     else if bool_decide (c = "year_added"%string) then year_of_row cols r
     else x).

(** [g] applied to every row of a frame. *)
Definition map_rows (g : list cell → list cell) (df : DataFrame) : DataFrame :=
  {| index := index df; columns := columns df; rows := g <$> rows df |}.

(** [s] begins with a character of the ASCII range that is no white
    space. *)
Definition starts_plain (s : string) : bool :=
  match s with
  | String a _ => PyStr.is_ascii_char a && negb (PyStr.is_space a)
  | EmptyString => false
  end.

(** [s] does not begin with white space. *)
Definition starts_clean (s : string) : bool :=
  match PyStr.after_space s with
  | Some _ => false
  | None => true
  end.

End Rowwise.

(* ===================================================================== *)
(** * Sample tables *)
(* ===================================================================== *)

Module Samples.

Definition header4 : list string :=
  ["title"; "type"; "release_year"; "date_added"]%string.

(** One catalogue entry whose year is not a number. *)
Definition bad_year : DataFrame :=
  {| index := [0];
     columns := header4;
     rows := [[Str "Dark"; Str "TV Show"; Str "abc"; Str "2021-03-15"]] |}.

(** The same entry without a title. *)
Definition bad_year_untitled : DataFrame :=
  {| index := [0];
     columns := header4;
     rows := [[NaN; Str "TV Show"; Str "abc"; Str "2021-03-15"]] |}.

Definition header6 : list string :=
  ["title"; "type"; "director"; "release_year"; "date_added"; "description"]%string.

(** A small catalogue: an entry with a blank director and a blank
    description, and an entry whose year is not a number. *)
Definition catalogue : DataFrame :=
  {| index := [0; 1];
     columns := header6;
     rows := [[Str "Up"; Str "  movie "; Str "   "; Str "2009";
               Str "2021-03-15"; Str "  "];
              [Str "Dark"; Str "tv show"; NaN; Str "abc";
               Str "2021-09-25"; Str "A town's secret."]] |}.

(** A catalogue the script leaves as clean as it can. *)
Definition tidy : DataFrame :=
  {| index := [0; 1];
     columns := header6;
     rows := [[Str "Up"; Str "  movie "; Str "pete docter"; Int 2009;
               Str "2021-03-15"; Str "A house flies."];
              [Str "Dark"; Str "tv show"; NaN; Int 2017;
               Str "not a date"; Str "A town's secret."]] |}.

Definition header5 : list string :=
  ["title"; "type"; "release_year"; "date_added"; "listed_in"]%string.

(** Two entries: one with a padded genre, one whose genre is white space
    only. *)
Definition genres : DataFrame :=
  {| index := [0; 1];
     columns := header5;
     rows := [[Str "Up"; Str "Movie"; Int 2009; Str "2021-03-15";
               Str "  comedy  "];
              [Str "Dark"; Str "TV Show"; Int 2017; Str "2021-03-16";
               Str "   "]] |}.

Definition entry : list cell :=
  [Str "Up"; Str "Movie"; Int 2009; Str "2021-03-15"].

Definition untitled : list cell :=
  [NaN; Str "Movie"; Int 2010; Str "2021-03-16"].

(** Two identical entries and one without a title. *)
Definition twice_and_untitled : DataFrame :=
  {| index := [0; 1; 2]; columns := header4; rows := [entry; untitled; entry] |}.

(** A file as the cleaning script writes it and [pd.read_csv] reads it
    back. *)
Definition cleaned_file : DataFrame :=
  {| index := [0; 1];
     columns := ["title"; "type"; "release_year"; "date_added"; "rating";
                 "country"; "listed_in"; "duration"; "year_added"]%string;
     rows := [[Str "Up"; Str "Movie"; Int 2009; Str "2021-03-15"; Str "Pg";
               Str "United States"; Str "Comedies"; Str "96 min"; Int 2021];
              [Str "Dark"; Str "Tv Show"; Int 2017; Str "2021-03-16"; NaN;
               Str "Germany"; Str "Thrillers"; Str "3 Seasons"; Int 2021]] |}.

(** No filter chosen, and the whole range of years. *)
Definition everything : Dashboard.selection :=
  {| Dashboard.selected_types := [];
     Dashboard.selected_countries := [];
     Dashboard.year_range := (2009, 2017)%Z;
     Dashboard.selected_ratings := [] |}.

End Samples.


(* ===================================================================== *)
(** * Vocabulary of the statements *)
(* ===================================================================== *)

Module Props.

Import Pd Cleaning Rowwise.

(** Row [r] has a value under each of the columns [names] that the
    header [cols] has. *)
Definition no_gap_in (cols names : list string) (r : list cell) : bool :=
  forallb (λ c, negb (bool_decide (c ∈ cols)) || notna (cell_of cols c r)) names.

(** A frame with no two equal rows and no gap under title, release_year
    or a categorical column. *)
Definition settled (df : DataFrame) : bool :=
  bool_decide (NoDup (rows df)) &&
  forallb (no_gap_in (columns df) ("title" :: "release_year" :: cat_cols)%string)
          (rows df).

(** Every text that row [r] holds under a categorical column is of the
    ASCII range. *)
Definition ascii_text (cols : list string) (r : list cell) : bool :=
  forallb (λ c, match cell_of cols c r with
                | Str t => PyStr.is_ascii t
                | _ => true
                end) cat_cols.

Definition ascii_categories (df : DataFrame) : bool :=
  forallb (ascii_text (columns df)) (rows df).

(** The length of the year [yoe] of an era (it runs from March to
    February, so the leap day belongs to the year before the leap year). *)
Definition year_len (yoe : Z) : Z :=
  if Tstamp.is_leap (yoe + 1) then 366 else 365.

(** The first and the last day of the year [yoe] of an era are found to
    be in that year. *)
Definition year_ends_agree (yoe : Z) : bool :=
  (Tstamp.yoe_of (Tstamp.era_start yoe) =? yoe)%Z &&
  (Tstamp.yoe_of (Tstamp.era_start yoe + year_len yoe - 1) =? yoe)%Z.

(** The columns the specification expects in the raw file. *)
Definition expected : list string :=
  ["title"; "type"; "release_year"; "date_added"; "rating"; "country";
   "director"; "cast"; "listed_in"; "duration"]%string.

(** [cols] with a last column [c] when it has none of that name. *)
Definition with_column (c : string) (cols : list string) : list string :=
  if bool_decide (c ∈ cols) then cols else cols ++ [c].

(** The header of the frame [load_data] returns for a file with the
    header [cols]. *)
Definition loaded_columns (cols : list string) : list string :=
  let cols := with_column "year_added" cols in
  if bool_decide ("duration"%string ∈ cols)
  then with_column "duration_mins" cols
  else cols.

End Props.


(* ===================================================================== *)
(** * The dashboard seen row by row *)
(* ===================================================================== *)

(** Vocabulary for the statements about [load_data]: what its lines do to
    one row of the file. *)
Module Loaded.

Import Pd Dashboard Rowwise Props.

(** The columns [load_data] indexes whatever the file holds. *)
Definition needed : list string :=
  ["date_added"; "release_year"; "country"; "rating"; "listed_in"]%string.

(** [fillna(v)] on one cell. *)
Definition fillna_cell (v : string) (c : cell) : cell :=
  if isna c then Str v else c.

(** Line 62 on one row: the minutes of a movie, a gap for anything
    else. *)
Definition minutes_of (cols : list string) (r : list cell) : cell :=
  if bool_decide (lower_cell (cell_of cols "type" r) = Str "movie")
  then extract_minutes (cell_of cols "duration" r)
  else NaN.

(** Lines 51 to 58 on one row of a file with the header [cols]. *)
Definition typed_row (cols : list string) (r : list cell) : list cell :=
  let r := on_col cols "date_added" to_datetime_cell r in
  let r := on_col cols "release_year" to_numeric_cell r in
  if bool_decide ("year_added"%string ∉ cols)
  then put_col cols "year_added" (year_cell (cell_of cols "date_added" r)) r
  else on_col cols "year_added" to_numeric_cell r.

(** Lines 51 to 62 on one row. *)
Definition timed_row (cols : list string) (r : list cell) : list cell :=
  let r := typed_row cols r in
  let cols := with_column "year_added" cols in
  if bool_decide ("duration"%string ∈ cols)
  then put_col cols "duration_mins" (minutes_of cols r) r
  else r.

(** Lines 51 to 69 on one row. *)
Definition load_row (cols : list string) (r : list cell) : list cell :=
  let r := timed_row cols r in
  let cols := loaded_columns cols in
  let r := on_col cols "country" (fillna_cell "Unknown") r in
  let r := on_col cols "rating" (fillna_cell "Not Rated") r in
  on_col cols "listed_in" (fillna_cell "Unknown Genre") r.

(** What [load_data] leaves in place of the cell [x] that row [r] of the
    file holds under the column named [c]. *)
Definition loaded_cell (cols : list string) (r : list cell) (c : string)
    (x : cell) : cell :=
  if bool_decide (c = "date_added"%string) then to_datetime_cell x
  else if bool_decide (c = "release_year"%string) then to_numeric_cell x
  else if bool_decide (c = "year_added"%string) then to_numeric_cell x
  else if bool_decide (c = "duration_mins"%string) then
    if bool_decide ("duration"%string ∈ cols) then minutes_of cols r else x
  else if bool_decide (c = "country"%string) then fillna_cell "Unknown" x
  else if bool_decide (c = "rating"%string) then fillna_cell "Not Rated" x
  else if bool_decide (c = "listed_in"%string) then fillna_cell "Unknown Genre" x
  else x.

(** [s] does not begin with a digit. *)
Definition no_leading_digit (s : string) : bool :=
  match s with
  | String a _ => negb (PyStr.is_digit a)
  | EmptyString => true
  end.

(** [p] stands somewhere in [s]. *)
Definition inside (p s : string) : Prop :=
  ∃ pre post, s = pre +:+ p +:+ post.

End Loaded.

(** [load_data] in three steps, and what it asks of the file. *)
Module Stages.

Import Pd Dashboard Rowwise Props Loaded.

(** Lines 51 to 58 of [load_data]. *)
Definition first_lines (df : DataFrame) : result DataFrame :=
  s ← getitem df "date_added";
  let df := setitem df "date_added" (to_datetime s) in
  s ← getitem df "release_year";
  let df := setitem df "release_year" (to_numeric s) in
  if bool_decide ("year_added"%string ∉ columns df) then
    s ← getitem df "date_added";
    y ← dt_year s;
    Ok (setitem df "year_added" y)
  else
    s ← getitem df "year_added";
    Ok (setitem df "year_added" (to_numeric s)).

(** Lines 61 and 62. *)
Definition middle_lines (df : DataFrame) : result DataFrame :=
  if bool_decide ("duration"%string ∈ columns df) then
    m ← duration_mins df;
    Ok (setitem df "duration_mins" m)
  else Ok df.

(** Lines 65 to 69. *)
Definition last_lines (df : DataFrame) : result DataFrame :=
  s ← getitem df "country";
  let df := setitem df "country" (fillna "Unknown" s) in
  s ← getitem df "rating";
  let df := setitem df "rating" (fillna "Not Rated" s) in
  s ← getitem df "listed_in";
  Ok (setitem df "listed_in" (fillna "Unknown Genre" s)).

(** The column named [c] is there and [.str] is given for it. *)
Definition text_column (df : DataFrame) (c : string) : bool :=
  match getitem df c with
  | Ok s => match str_accessor s with Ok _ => true | Raise _ => false end
  | Raise _ => false
  end.

(** What [load_data] asks of the file. *)
Definition loadable (file : DataFrame) : bool :=
  forallb (λ c, bool_decide (c ∈ columns file)) needed &&
  (negb (bool_decide ("duration"%string ∈ columns file)) ||
   text_column file "type" && text_column file "duration").

End Stages.

(* ===================================================================== *)
(** * The dashboard's sidebar, filter and table *)
(* ===================================================================== *)

Module Sidebar.

Import Pd Dashboard Rowwise.

(** [s.split(', ')] *)
Fixpoint split_comma (s : string) : list string :=
  match s with
  | EmptyString => [EmptyString]
  | String a s' =>
      let plain :=
        match split_comma s' with
        | p :: ps => String a p :: ps
        | [] => [String a EmptyString]
        end in
      match s' with
      | String b s'' =>
          if bool_decide (a = ","%char) && bool_decide (b = " "%char)
          then EmptyString :: split_comma s''
          else plain
      | EmptyString => plain
      end
  end.

(** [Series.unique()], and the elements of a set display: each value
    once, in the order of first appearance. *)
Fixpoint unique_from {A} `{EqDecision A} (seen l : list A) : list A :=
  match l with
  | [] => []
  | x :: l' =>
      if bool_decide (x ∈ seen) then unique_from seen l'
      else x :: unique_from (x :: seen) l'
  end.

Definition unique {A} `{EqDecision A} (l : list A) : list A := unique_from [] l.

(** [s <= t] for two strings: by code point, left to right. *)
Fixpoint str_leb (s t : string) : bool :=
  match s, t with
  | EmptyString, _ => true
  | String _ _, EmptyString => false
  | String a s', String b t' =>
      (PyStr.code a <? PyStr.code b)%N ||
      ((PyStr.code a =? PyStr.code b)%N && str_leb s' t')
  end.

(** [f <= g] for two floats. *)
Definition float_le (f g : Num.float64) : bool :=
  match f, g with
  | Num.NegInf, _ => true
  | _, Num.PosInf => true
  | Num.PosInf, _ => false
  | _, Num.NegInf => false
  | Num.Finite m k, Num.Finite n j =>
      (m * 10 ^ Z.of_nat j <=? n * 10 ^ Z.of_nat k)%Z
  end.

(** The kinds of value that Python compares with one another. *)
Definition kind (c : cell) : nat :=
  match c with
  | Str _ => 0
  | Int _ | Float _ => 1
  | Timestamp _ => 2
  | NaN => 3
  end.

Definition as_float (c : cell) : Num.float64 :=
  match c with
  | Int z => Num.Finite z 0
  | Float f => f
  | _ => Num.NegInf
  end.

(** [a <= b] for two cells of one kind; cells of two kinds, which Python
    refuses to compare, are told apart by kind. *)
Definition cell_leb (a b : cell) : bool :=
  match a, b with
  | Str s, Str t => str_leb s t
  | Timestamp m, Timestamp n => (m <=? n)%Z
  | _, _ =>
      if bool_decide (kind a = kind b) then float_le (as_float a) (as_float b)
      else bool_decide (kind a < kind b)
  end.

(** [sorted(l)] for a list of present values: [TypeError] when two of
    them are of different kinds. *)
Definition sorted_cells (l : list cell) : result (list cell) :=
  match l with
  | [] => Ok []
  | x :: _ =>
      if forallb (λ c, bool_decide (kind c = kind x)) l
      then Ok (merge_sort (λ a b, Is_true (cell_leb a b)) l)
      else Raise TypeError
  end.

Definition sorted_strs (l : list string) : list string :=
  merge_sort (λ s t, Is_true (str_leb s t)) l.

(** [sorted(df[c].dropna().unique())] *)
Definition options_of (df : DataFrame) (c : string) : result (list cell) :=
  s ← getitem df c;
  sorted_cells (unique (filter (λ x, notna x) s)).

(** The choices under "Content Type" (line 98). *)
Definition all_types (df : DataFrame) : result (list cell) :=
  options_of df "type".

(** The choices under "Content Rating" (line 124). *)
Definition all_ratings (df : DataFrame) : result (list cell) :=
  options_of df "rating".

(** What [for c in clist] runs over for one cell of [s.str.split(', ')];
    a cell that is no text leaves a gap there, which cannot be iterated. *)
Definition split_cell (c : cell) : result (list string) :=
  match c with
  | Str t => Ok (split_comma t)
  | _ => Raise TypeError
  end.

(** [[c.strip() for clist in lists for c in clist]] over the lists that
    [.str.split(', ')] made of the cells [s]. *)
Definition split_all (s : Series) : result (list string) :=
  ls ← mapM split_cell s;
  Ok (PyStr.strip <$> mjoin ls).

(** [[c.strip() for clist in s.str.split(', ') for c in clist]] *)
Definition pieces (s : Series) : result (list string) :=
  s ← str_accessor s;
  split_all s.

(** The choices under "Country" (line 107); [dropna] keeps the column's
    dtype, so that [.str] is given or refused as for the whole column. *)
Definition country_list (df : DataFrame) : result (list string) :=
  s ← getitem df "country";
  s ← str_accessor s;
  ps ← split_all (filter (λ x, notna x) (s : Series));
  Ok (sorted_strs (unique (filter (λ c, c ≠ "Unknown"%string) ps))).

(** The number after "Genres:" in the sidebar (line 91). *)
Definition genres_count (df : DataFrame) : result nat :=
  s ← getitem df "listed_in";
  ps ← pieces s;
  Ok (length (unique ps)).

(** The number under "Countries" (lines 175 and 403). *)
Definition countries_count (filtered : DataFrame) : result nat :=
  s ← getitem filtered "country";
  ps ← pieces s;
  Ok (length (unique ps)).

(** [any(c in (x or "") for c in sel)] where it does not raise. *)
Definition country_matches (sel : list string) (x : cell) : bool :=
  match country_hit sel x with
  | Ok b => b
  | Raise _ => false
  end.

(** Lines 134 to 143 on one row: the row is in [df[mask]]. *)
Definition passes (cols : list string) (sel : selection) (r : list cell) : bool :=
  (bool_decide (selected_types sel = []) ||
   bool_decide (cell_of cols "type" r ∈ selected_types sel)) &&
  (bool_decide (selected_countries sel = []) ||
   country_matches (selected_countries sel) (cell_of cols "country" r)) &&
  (geb_cell (cell_of cols "release_year" r) (fst (year_range sel)) &&
   leb_cell (cell_of cols "release_year" r) (snd (year_range sel))) &&
  (bool_decide (selected_ratings sel = []) ||
   bool_decide (cell_of cols "rating" r ∈ selected_ratings sel)).

(** [(s == v).sum()] *)
Definition count_eq (v : cell) (s : Series) : nat :=
  length (filter (λ c, c = v) s).

(** [(filtered['type'] == 'TV Show').sum()] (line 393) *)
Definition tv_count (filtered : DataFrame) : result nat :=
  s ← getitem filtered "type";
  Ok (count_eq (Str "TV Show") s).

Definition display_columns : list string :=
  ["title"; "type"; "country"; "release_year"; "rating"; "listed_in";
   "duration"]%string.

(** [[col for col in display_columns if col in filtered.columns]] *)
Definition available_columns (filtered : DataFrame) : list string :=
  filter (λ c, c ∈ columns filtered) display_columns.

(** [df[cols]] for a list of names. *)
Definition getitems (df : DataFrame) (cols : list string) : result DataFrame :=
  locs ← mapM (get_loc df) cols;
  Ok {| index := index df; columns := cols;
        rows := (λ r, (λ i, cell_at i r) <$> locs) <$> rows df |}.

(** [df.head(n)] *)
Definition head (n : nat) (df : DataFrame) : DataFrame :=
  {| index := take n (index df); columns := columns df;
     rows := take n (rows df) |}.

(** The table under "Data Table (First 100 Rows)" (line 420). *)
Definition data_table (filtered : DataFrame) : result DataFrame :=
  t ← getitems filtered (available_columns filtered);
  Ok (head 100 t).

End Sidebar.

Module Slider.

Import Pd Dashboard Rowwise Sidebar.

(** The number a cell holds, if it holds one. *)
Definition number_of (c : cell) : option Num.float64 :=
  match c with
  | Int z => Some (Num.Finite z 0)
  | Float f => Some f
  | _ => None
  end.

(** [Series.min()] of a column of numbers and gaps (which is what
    [pd.to_numeric] leaves): the gaps are skipped, and the result is a
    gap when nothing else is there. *)
Definition series_min (s : Series) : cell :=
  foldr (λ c best,
           match number_of c, number_of best with
           | Some f, Some g => if float_le f g then c else best
           | Some _, None => c
           | None, _ => best
           end) NaN s.

(** [Series.max()], likewise. *)
Definition series_max (s : Series) : cell :=
  foldr (λ c best,
           match number_of c, number_of best with
           | Some f, Some g => if float_le g f then c else best
           | Some _, None => c
           | None, _ => best
           end) NaN s.

(** [int(x)] for the result of [min()] or [max()]: cut towards zero;
    nothing where [int] raises (on a missing value and on an infinity). *)
Definition int_of_cell (c : cell) : option Z :=
  match c with
  | Int z => Some z
  | Float f => Num.float_trunc f
  | _ => None
  end.

(** The two ends of the slider "Release Year Range", which are also its
    value on a first run; nothing when [int] raises, which ends the
    run. *)
Definition year_bounds (df : DataFrame) : result (option (Z * Z)) :=
  s ← getitem df "release_year";
  Ok (lo ← int_of_cell (series_min s);
      hi ← int_of_cell (series_max s);
      Some (lo, hi)).

(** What the widgets hold on a first run (lines 87 to 129): every type,
    no country, the whole range of years, no rating.  The sidebar computes
    its figures and choices in this order, and an exception in any of them
    ends the run.  (Streamlit's own checks of a widget's arguments, such
    as a slider whose two ends coincide, are not modelled.) *)
Definition first_selection (df : DataFrame) : result (option selection) :=
  _ ← genres_count df;
  types ← all_types df;
  _ ← country_list df;
  bounds ← year_bounds df;
  _ ← all_ratings df;
  Ok (b ← bounds;
      Some {| selected_types := types; selected_countries := [];
              year_range := b; selected_ratings := [] |}).

End Slider.


(* ===================================================================== *)
(** * Facts about characters and strings *)
(* ===================================================================== *)

Section ascii_facts.
Import PyStr.

Local Ltac by_cases a :=
  destruct a as [[] [] [] [] [] [] [] []]; vm_compute; reflexivity.

Lemma is_space_upper a : is_space (upper a) = is_space a.
Proof. by_cases a. Qed.

Lemma is_space_lower a : is_space (lower a) = is_space a.
Proof. by_cases a. Qed.

Lemma is_cased_upper a : is_cased (upper a) = is_cased a.
Proof. by_cases a. Qed.

Lemma is_cased_lower a : is_cased (lower a) = is_cased a.
Proof. by_cases a. Qed.

Lemma upper_upper a : upper (upper a) = upper a.
Proof. by_cases a. Qed.

Lemma lower_lower a : lower (lower a) = lower a.
Proof. by_cases a. Qed.

Lemma is_space_not_digit a : is_digit a = true → is_space a = false.
Proof. destruct a as [[] [] [] [] [] [] [] []]; vm_compute; congruence. Qed.

(** A byte beyond ASCII is no letter and no white space on its own, and
    casing leaves it alone; casing an ASCII byte gives an ASCII byte. *)
Lemma cased_as_high p a :
  is_ascii_char a = false →
  cased_as p a = a ∧ is_cased a = false ∧ is_space a = false.
Proof.
  destruct p, a as [[] [] [] [] [] [] [] []]; vm_compute; try done.
Qed.

Lemma cased_as_low p a :
  is_ascii_char a = true → is_ascii_char (cased_as p a) = true.
Proof.
  destruct p, a as [[] [] [] [] [] [] [] []]; vm_compute; try done.
Qed.

Lemma is_space_cased_as p a : is_space (cased_as p a) = is_space a.
Proof. destruct p; [apply is_space_lower|apply is_space_upper]. Qed.

Lemma is_space_uncased a : is_space a = true → is_cased a = false.
Proof. destruct a as [[] [] [] [] [] [] [] []]; vm_compute; congruence. Qed.

Lemma is_space2_high a b :
  is_space2 a b = true → is_ascii_char a = false ∧ is_ascii_char b = false.
Proof.
  unfold is_space2, is_ascii_char.
  rewrite !andb_true_iff, !orb_true_iff, !N.eqb_eq, !N.ltb_ge. lia.
Qed.

Lemma is_space3_high a b c :
  is_space3 a b c = true →
  is_ascii_char a = false ∧ is_ascii_char b = false ∧ is_ascii_char c = false.
Proof.
  unfold is_space3, is_ascii_char. cbn zeta.
  rewrite !orb_true_iff, !andb_true_iff, !orb_true_iff, !andb_true_iff,
    !N.eqb_eq, !N.leb_le, !N.ltb_ge. lia.
Qed.

Lemma is_space2_low_l a b : is_ascii_char a = true → is_space2 a b = false.
Proof.
  intros Ha. destruct (is_space2 a b) eqn:E; [|done].
  apply is_space2_high in E as [? _]. congruence.
Qed.

Lemma is_space2_low_r a b : is_ascii_char b = true → is_space2 a b = false.
Proof.
  intros Ha. destruct (is_space2 a b) eqn:E; [|done].
  apply is_space2_high in E as [_ ?]. congruence.
Qed.

Lemma is_space3_low a b c :
  is_ascii_char a = true ∨ is_ascii_char b = true ∨ is_ascii_char c = true →
  is_space3 a b c = false.
Proof.
  intros Ha. destruct (is_space3 a b c) eqn:E; [|done].
  apply is_space3_high in E as (? & ? & ?). destruct Ha as [?|[?|?]]; congruence.
Qed.

Lemma is_space2_cased_as p q a b :
  is_space2 (cased_as p a) (cased_as q b) = is_space2 a b.
Proof.
  destruct (is_ascii_char a) eqn:Ha.
  { rewrite !is_space2_low_l; auto using cased_as_low. }
  destruct (is_ascii_char b) eqn:Hb.
  { rewrite !is_space2_low_r; auto using cased_as_low. }
  by rewrite (proj1 (cased_as_high p a Ha)), (proj1 (cased_as_high q b Hb)).
Qed.

Lemma is_space3_cased_as p q r a b c :
  is_space3 (cased_as p a) (cased_as q b) (cased_as r c) = is_space3 a b c.
Proof.
  destruct (is_ascii_char a) eqn:Ha.
  { rewrite !is_space3_low; auto using cased_as_low. }
  destruct (is_ascii_char b) eqn:Hb.
  { rewrite !is_space3_low; auto using cased_as_low. }
  destruct (is_ascii_char c) eqn:Hc.
  { rewrite !is_space3_low; auto 6 using cased_as_low. }
  by rewrite (proj1 (cased_as_high p a Ha)), (proj1 (cased_as_high q b Hb)),
    (proj1 (cased_as_high r c Hc)).
Qed.

End ascii_facts.

Section string_facts.
Import PyStr Rowwise.

Lemma append_cons a (s t : string) : String a s +:+ t = String a (s +:+ t).
Proof. done. Qed.

Local Ltac head_cases s fin :=
  let a := fresh "a" in
  let b := fresh "b" in
  let c := fresh "c" in
  destruct s as [|a s]; [done|];
  rewrite ?append_cons; cbn [after_space blank lstrip];
  destruct (is_space a); [fin|];
  destruct s as [|b s]; [done|];
  rewrite ?append_cons;
  destruct (is_space2 a b); [fin|];
  destruct s as [|c s]; [done|];
  rewrite ?append_cons;
  destruct (is_space3 a b c); [fin|done].

Lemma after_space_length s s' :
  after_space s = Some s' → String.length s' < String.length s.
Proof. head_cases s ltac:(intros [= <-]; cbn [String.length]; lia). Qed.

Lemma blank_after s s' : after_space s = Some s' → blank s = blank s'.
Proof. head_cases s ltac:(by intros [= <-]). Qed.

Lemma blank_none s : after_space s = None → s ≠ EmptyString → blank s = false.
Proof. head_cases s ltac:(done). Qed.

Lemma lstrip_after s s' : after_space s = Some s' → lstrip s = lstrip s'.
Proof. head_cases s ltac:(by intros [= <-]). Qed.

Lemma lstrip_none s : after_space s = None → lstrip s = s.
Proof. head_cases s ltac:(done). Qed.

Lemma after_space_app s s' t :
  after_space s = Some s' → after_space (s +:+ t) = Some (s' +:+ t).
Proof. head_cases s ltac:(by intros [= <-]). Qed.

(** Induction along the white space a text begins with. *)
Lemma space_ind (P : string → Prop) :
  P EmptyString →
  (∀ s s', after_space s = Some s' → P s' → P s) →
  (∀ s, s ≠ EmptyString → after_space s = None → P s) →
  ∀ s, P s.
Proof.
  intros H0 Hs Hn s.
  remember (String.length s) as n eqn:Hlen.
  revert s Hlen. induction (lt_wf n) as [n _ IH]. intros s ->.
  destruct (after_space s) as [s'|] eqn:E.
  - apply (Hs s s' E). apply (IH (String.length s')); [|done].
    by apply after_space_length.
  - destruct s; [done|]. by apply Hn.
Qed.

(** White space at the head is white space whatever case the text is
    put in. *)
Lemma after_space_title_from p s :
  after_space (title_from p s)
  = title_from false <$> after_space s.
Proof.
  destruct s as [|a s]; [done|]. cbn [title_from].
  change (if p then lower a else upper a) with (cased_as p a).
  cbn [after_space]. rewrite is_space_cased_as.
  destruct (is_space a) eqn:Ha.
  { simpl. by rewrite (is_space_uncased a Ha). }
  destruct s as [|b s]; [done|]. cbn [title_from].
  change (if is_cased a then lower b else upper b) with (cased_as (is_cased a) b).
  rewrite is_space2_cased_as.
  destruct (is_space2 a b) eqn:Hab.
  { simpl. apply is_space2_high in Hab as [_ Hb].
    by rewrite (proj1 (proj2 (cased_as_high false b Hb))). }
  destruct s as [|c s]; [done|]. cbn [title_from].
  change (if is_cased b then lower c else upper c) with (cased_as (is_cased b) c).
  rewrite is_space3_cased_as.
  destruct (is_space3 a b c) eqn:Habc; [|done].
  simpl. apply is_space3_high in Habc as (_ & _ & Hc).
  by rewrite (proj1 (proj2 (cased_as_high false c Hc))).
Qed.

Lemma title_from_nonempty p s :
  s ≠ EmptyString → title_from p s ≠ EmptyString.
Proof. by destruct s. Qed.

Lemma blank_both s t : blank s = true → blank t = true → blank (s +:+ t) = true.
Proof.
  intros Hs Ht. induction s as [|s s' E IH|s Hne E] using space_ind.
  - done.
  - rewrite (blank_after _ _ (after_space_app _ _ t E)). apply IH.
    by rewrite <-(blank_after _ _ E).
  - by rewrite blank_none in Hs.
Qed.

Lemma blank_lstrip s : blank (lstrip s) = blank s.
Proof.
  induction s as [|s s' E IH|s Hne E] using space_ind.
  - done.
  - by rewrite (lstrip_after _ _ E), (blank_after _ _ E).
  - by rewrite lstrip_none.
Qed.

Lemma rstrip_empty s : rstrip s = EmptyString → blank s = true.
Proof.
  destruct s as [|a s]; [done|]. cbn [rstrip].
  by destruct (blank (String a s)).
Qed.

Lemma rstrip_blank s : blank s = true → rstrip s = EmptyString.
Proof.
  destruct s as [|a s]; [done|]. cbn [rstrip]. by intros ->.
Qed.

(** What [rstrip] cuts off is white space. *)
Lemma rstrip_tail s : ∃ t, s = rstrip s +:+ t ∧ blank t = true.
Proof.
  induction s as [|a s (t & IH & Ht)]; [by exists EmptyString|].
  cbn [rstrip]. destruct (blank (String a s)) eqn:E.
  - by exists (String a s).
  - exists t. split; [|done]. rewrite append_cons. by rewrite <-IH.
Qed.

Lemma blank_rstrip s : blank (rstrip s) = blank s.
Proof.
  destruct (blank s) eqn:Hs; [by rewrite rstrip_blank|].
  destruct (blank (rstrip s)) eqn:Hr; [|done].
  destruct (rstrip_tail s) as (t & E & Ht).
  rewrite <-Hs, E. symmetry. by apply blank_both.
Qed.

Lemma blank_strip s : blank (strip s) = blank s.
Proof. unfold strip. by rewrite blank_rstrip, blank_lstrip. Qed.

Lemma blank_title_from b s : blank (title_from b s) = blank s.
Proof.
  revert b. induction s as [|s s' E IH|s Hne E] using space_ind; intros b.
  - done.
  - assert (after_space (title_from b s) = Some (title_from false s')) as E'
      by by rewrite after_space_title_from, E.
    by rewrite (blank_after _ _ E'), (blank_after _ _ E).
  - rewrite (blank_none s E Hne). apply blank_none.
    + by rewrite after_space_title_from, E.
    + by apply title_from_nonempty.
Qed.

Lemma starts_clean_lstrip s : starts_clean (lstrip s) = true.
Proof.
  induction s as [|s s' E IH|s Hne E] using space_ind.
  - done.
  - by rewrite (lstrip_after _ _ E).
  - rewrite lstrip_none by done. unfold starts_clean. by rewrite E.
Qed.

Lemma lstrip_clean s : starts_clean s = true → lstrip s = s.
Proof.
  unfold starts_clean. destruct (after_space s) eqn:E; [done|].
  intros _. by apply lstrip_none.
Qed.

Lemma starts_clean_rstrip s : starts_clean s = true → starts_clean (rstrip s) = true.
Proof.
  unfold starts_clean. destruct (after_space (rstrip s)) as [u|] eqn:E; [|done].
  destruct (rstrip_tail s) as (t & Hs & _).
  apply (after_space_app _ _ t) in E. rewrite <-Hs in E. by rewrite E.
Qed.

Lemma starts_clean_title_from b s : starts_clean (title_from b s) = starts_clean s.
Proof.
  unfold starts_clean. rewrite after_space_title_from.
  by destruct (after_space s).
Qed.

Lemma rstrip_rstrip s : rstrip (rstrip s) = rstrip s.
Proof.
  induction s as [|a s IH]; [done|].
  pose proof (blank_rstrip (String a s)) as Hb. cbn [rstrip] in Hb |- *.
  destruct (blank (String a s)) eqn:E; [done|].
  cbn [rstrip]. by rewrite Hb, IH.
Qed.

Lemma rstrip_title_from b s : rstrip (title_from b s) = title_from b (rstrip s).
Proof.
  revert b. induction s as [|a s IH]; intros b; [done|].
  pose proof (blank_title_from b (String a s)) as Hb.
  cbn [title_from rstrip] in Hb |- *. rewrite Hb.
  destruct (blank (String a s)); [done|]. cbn [title_from]. by rewrite IH.
Qed.

Lemma strip_fixed s :
  starts_clean s = true → rstrip s = s → strip s = s.
Proof. intros Hc Hr. unfold strip. by rewrite lstrip_clean. Qed.

Lemma strip_strip s : strip (strip s) = strip s.
Proof.
  apply strip_fixed.
  - apply starts_clean_rstrip, starts_clean_lstrip.
  - apply rstrip_rstrip.
Qed.

Lemma strip_title_strip s : strip (title (strip s)) = title (strip s).
Proof.
  apply strip_fixed.
  - unfold title. rewrite starts_clean_title_from.
    apply starts_clean_rstrip, starts_clean_lstrip.
  - unfold title, strip. by rewrite rstrip_title_from, rstrip_rstrip.
Qed.

Lemma title_from_idem b s : title_from b (title_from b s) = title_from b s.
Proof.
  revert b. induction s as [|a s IH]; intros b; simpl; [done|].
  destruct b; rewrite ?is_cased_lower, ?is_cased_upper, IH,
    ?lower_lower, ?upper_upper; done.
Qed.

(** Trimming and title-casing a second time changes nothing. *)
Lemma title_strip_idem s :
  title (strip (title (strip s))) = title (strip s).
Proof. rewrite strip_title_strip. apply title_from_idem. Qed.

Lemma blank_title_strip s : blank (title (strip s)) = blank s.
Proof. unfold title. by rewrite blank_title_from, blank_strip. Qed.

(** A text that begins with an ASCII character other than white space
    is not blank, whatever follows. *)
Lemma blank_ascii_head a s :
  is_ascii_char a = true → is_space a = false → blank (String a s) = false.
Proof.
  intros Ha Hs. apply blank_none; [|done]. cbn [after_space]. rewrite Hs.
  destruct s as [|b [|c s]]; [done|..]; rewrite is_space2_low_l by done;
    [done|]. by rewrite is_space3_low by auto.
Qed.

End string_facts.

(* ===================================================================== *)
(** * Facts about cells *)
(* ===================================================================== *)

Section cell_facts.
Import PyStr Pd Cleaning Rowwise.

Lemma blank_starts_plain s : starts_plain s = true → blank s = false.
Proof.
  destruct s as [|a s]; [done|]. cbn [starts_plain].
  intros [Ha Hs%negb_true_iff]%andb_prop. by apply blank_ascii_head.
Qed.

Lemma starts_plain_app s t :
  starts_plain s = true → starts_plain (s +:+ t) = true.
Proof. by destruct s. Qed.

Lemma starts_plain_pretty_N_go x s :
  starts_plain s = true → starts_plain (pretty_N_go x s) = true.
Proof.
  revert s. induction (N.lt_wf_0 x) as [x _ IH]; intros s Hs.
  destruct (decide (x = 0)%N) as [->|Hx]; [done|].
  rewrite pretty_N_go_step by lia. apply IH.
  - apply N.div_lt; lia.
  - unfold pretty_N_char. by repeat case_match.
Qed.

Lemma starts_plain_int_repr z : starts_plain (Num.int_repr z) = true.
Proof.
  assert (∀ p : positive, starts_plain (pretty p) = true) as Hpos.
  { intros p. unfold pretty, pretty_positive, pretty, pretty_N.
    case_decide; [done|].
    rewrite pretty_N_go_step by lia. apply starts_plain_pretty_N_go.
    unfold pretty_N_char. by repeat case_match. }
  unfold Num.int_repr, pretty, pretty_Z. destruct z; [done|apply Hpos|done].
Qed.

Lemma starts_plain_pad0 w s :
  starts_plain s = true → starts_plain (Num.pad0 w s) = true.
Proof.
  intros Hs. unfold Num.pad0. by destruct (w - String.length s).
Qed.

Lemma blank_int_repr z : blank (Num.int_repr z) = false.
Proof. apply blank_starts_plain, starts_plain_int_repr. Qed.

Lemma blank_float_repr f : blank (Num.float_repr f) = false.
Proof.
  apply blank_starts_plain. destruct f as [m [|k]| |]; try done.
  - apply starts_plain_app, starts_plain_int_repr.
  - cbn [Num.float_repr]. destruct (m <? 0)%Z; [done|].
    apply (starts_plain_app (Num.int_repr _)), starts_plain_int_repr.
Qed.

Lemma blank_timestamp_repr ns : blank (Tstamp.timestamp_repr ns) = false.
Proof.
  apply blank_starts_plain.
  unfold Tstamp.timestamp_repr. destruct (Tstamp.civil_from_days _) as [[y m] d].
  apply starts_plain_app, starts_plain_pad0, starts_plain_int_repr.
Qed.

(** Only blank text turns into blank text under [astype(str)]. *)
Lemma is_blank_text_astype c :
  is_blank_text (astype_str_cell c) = is_blank_text c.
Proof.
  destruct c; simpl; auto using blank_int_repr, blank_float_repr,
    blank_timestamp_repr.
Qed.

Lemma replace_blank_cell_idem c :
  replace_blank_cell (replace_blank_cell c) = replace_blank_cell c.
Proof.
  destruct c as [|s| | |]; simpl; try done.
  destruct (blank s) eqn:Hs; simpl; by rewrite ?Hs.
Qed.

Lemma replace_blank_cell_NaN c :
  replace_blank_cell c = NaN → c = NaN ∨ is_blank_text c = true.
Proof.
  destruct c as [|s| | |]; simpl; try done; [by left|].
  destruct (blank s); [by right|done].
Qed.

Lemma replace_blank_cell_text s :
  replace_blank_cell (Str s) = if blank s then NaN else Str s.
Proof. done. Qed.

(** What lines 18 and 19 make of a cell: a gap for blank text, and the
    trimmed, title-cased text of [astype(str)] for anything else. *)
Lemma clean_text_blank c : is_blank_text c = true → clean_text c = NaN.
Proof.
  destruct c as [|s| | |]; simpl; try done.
  unfold clean_text. simpl. by intros ->.
Qed.

Lemma clean_text_text s :
  blank s = false → clean_text (Str s) = Str (title (strip s)).
Proof. unfold clean_text. simpl. by intros ->. Qed.

Lemma clean_text_NaN : clean_text NaN = Str "Nan".
Proof. reflexivity. Qed.

Lemma clean_text_cases c :
  (is_blank_text c = true ∧ clean_text c = NaN) ∨
  (∃ s, astype_str_cell c = Str s ∧ blank s = false ∧
        clean_text c = Str (title (strip s))).
Proof.
  destruct (is_blank_text c) eqn:Hb.
  - left. auto using clean_text_blank.
  - right. rewrite <-is_blank_text_astype in Hb. unfold clean_text.
    destruct c; simpl in *; rewrite ?Hb; eauto.
Qed.

(** A cleaned text cell that is not a gap is left alone by the final
    sweep and by a second cleaning. *)
Lemma clean_text_sweep c :
  replace_blank_cell (clean_text c) = clean_text c.
Proof.
  destruct (clean_text_cases c) as [[_ ->]|(s & _ & Hs & ->)]; [done|].
  simpl. by rewrite blank_title_strip, Hs.
Qed.

Lemma clean_text_again c :
  clean_text c ≠ NaN → clean_text (clean_text c) = clean_text c.
Proof.
  destruct (clean_text_cases c) as [[_ ->]|(s & _ & Hs & ->)]; [done|].
  intros _. rewrite clean_text_text by by rewrite blank_title_strip.
  by rewrite title_strip_idem.
Qed.

Lemma to_numeric_cell_kind c :
  match to_numeric_cell c with
  | NaN | Int _ | Float _ => True
  | _ => False
  end.
Proof. destruct c; simpl; try done. by repeat case_match. Qed.

Lemma to_numeric_cell_idem c :
  to_numeric_cell (to_numeric_cell c) = to_numeric_cell c.
Proof.
  pose proof (to_numeric_cell_kind c).
  by destruct (to_numeric_cell c).
Qed.

Lemma to_numeric_cell_sweep c :
  replace_blank_cell (to_numeric_cell c) = to_numeric_cell c.
Proof.
  pose proof (to_numeric_cell_kind c).
  by destruct (to_numeric_cell c).
Qed.

(** A present cell that [to_numeric] turns into a gap is a string that
    does not read as a number. *)
Lemma to_numeric_cell_NaN c :
  c ≠ NaN → to_numeric_cell c = NaN →
  ∃ s, c = Str s ∧ Num.parse_number s = None.
Proof.
  intros Hc. destruct c as [|s| | |]; simpl; try done.
  destruct (Num.parse_number s) as [[]|] eqn:Hp; try done. eauto.
Qed.

Lemma to_datetime_cell_kind c : is_datetimelike (to_datetime_cell c) = true.
Proof.
  destruct c as [|s|z|f|ns]; simpl; try done.
  - by destruct (Tstamp.parse_datetime s).
  - unfold timestamp_of. by case_match.
  - destruct (Num.float_trunc f); simpl; [|done].
    unfold timestamp_of. by case_match.
Qed.

Lemma to_datetime_cell_idem c :
  to_datetime_cell (to_datetime_cell c) = to_datetime_cell c.
Proof.
  pose proof (to_datetime_cell_kind c).
  by destruct (to_datetime_cell c).
Qed.

Lemma to_datetime_cell_sweep c :
  replace_blank_cell (to_datetime_cell c) = to_datetime_cell c.
Proof.
  pose proof (to_datetime_cell_kind c).
  by destruct (to_datetime_cell c).
Qed.

Lemma year_cell_sweep c : replace_blank_cell (year_cell c) = year_cell c.
Proof. by destruct c. Qed.

End cell_facts.

(* ===================================================================== *)
(** * Facts about columns, masks and duplicates *)
(* ===================================================================== *)

Section column_facts.
Import Pd Rowwise.
Implicit Types (c : string) (cols : list string) (r : list cell).

Lemma col_index_Some c cols i :
  col_index c cols = Some i → cols !! i = Some c.
Proof.
  unfold col_index. intros ([j x] & Hf & ?)%fmap_Some. simpl in *. subst.
  apply list_find_Some in Hf as (? & -> & _). done.
Qed.

Lemma col_index_lt c cols i : col_index c cols = Some i → i < length cols.
Proof. intros ?%col_index_Some. by eapply lookup_lt_Some. Qed.

Lemma col_index_inj c1 c2 cols i :
  col_index c1 cols = Some i → col_index c2 cols = Some i → c1 = c2.
Proof. intros ?%col_index_Some ?%col_index_Some. congruence. Qed.

Lemma col_index_None c cols : col_index c cols = None ↔ c ∉ cols.
Proof.
  unfold col_index. rewrite fmap_None, list_find_None, Forall_forall.
  split; [intros H ?; by eapply H|]. intros H x ? ->. done.
Qed.

Lemma col_index_is_Some c cols : is_Some (col_index c cols) ↔ c ∈ cols.
Proof.
  rewrite <-not_eq_None_Some, col_index_None.
  split; [apply dec_stable|]. auto.
Qed.

Lemma col_index_elem_of c cols : c ∈ cols → ∃ i, col_index c cols = Some i.
Proof. by intros [i ?]%col_index_is_Some; eauto. Qed.

Lemma col_index_app_l c cols l i :
  col_index c cols = Some i → col_index c (cols ++ l) = Some i.
Proof.
  unfold col_index. intros ([j x] & Hf & ?)%fmap_Some. simpl in *. subst.
  by rewrite (list_find_app_l _ _ _ _ _ Hf).
Qed.

Lemma col_index_app_new c cols :
  c ∉ cols → col_index c (cols ++ [c]) = Some (length cols).
Proof.
  intros Hc%col_index_None. unfold col_index in *.
  apply fmap_None in Hc. rewrite list_find_app_r by done.
  simpl. by rewrite decide_True.
Qed.

Lemma col_index_out c cols i :
  col_index c cols = Some i → col_index c (out_columns cols) = Some i.
Proof.
  unfold out_columns. case_bool_decide; [done|]. apply col_index_app_l.
Qed.

Lemma col_index_out_year cols :
  ∃ k, col_index "year_added" (out_columns cols) = Some k ∧
       match col_index "year_added" cols with
       | Some i => k = i
       | None => k = length cols
       end.
Proof.
  unfold out_columns. case_bool_decide as Hy.
  - apply col_index_elem_of in Hy as [i Hi]. exists i. by rewrite Hi.
  - exists (length cols). rewrite col_index_app_new by done.
    apply col_index_None in Hy. by rewrite Hy.
Qed.

Lemma elem_of_out_columns c cols : c ∈ cols → c ∈ out_columns cols.
Proof.
  unfold out_columns. case_bool_decide; [done|]. intros.
  apply elem_of_app. by left.
Qed.

Lemma year_added_out cols : "year_added"%string ∈ out_columns cols.
Proof.
  unfold out_columns. case_bool_decide; [done|].
  apply elem_of_app. right. apply elem_of_cons. by left.
Qed.

Lemma out_columns_idem cols : out_columns (out_columns cols) = out_columns cols.
Proof.
  unfold out_columns at 1. by rewrite bool_decide_true by apply year_added_out.
Qed.

Lemma cell_of_lookup c cols r i x :
  col_index c cols = Some i → r !! i = Some x → cell_of cols c r = x.
Proof. unfold cell_of, cell_at. by intros -> ->. Qed.

(** A cell that is present names a column that exists and a position
    inside the row. *)
Lemma cell_of_notna c cols r :
  cell_of cols c r ≠ NaN →
  ∃ i, col_index c cols = Some i ∧ r !! i = Some (cell_of cols c r).
Proof.
  unfold cell_of, cell_at. destruct (col_index c cols) as [i|]; [|done].
  destruct (r !! i) eqn:Hi; simpl; [|done]. intros _. exists i. by rewrite Hi.
Qed.

End column_facts.

Section mask_facts.
Import Pd Rowwise.
Context {A : Type}.
Implicit Types (l : list A) (m : list bool).

Lemma filter_mask_fmap (f : A → bool) l :
  filter_mask (f <$> l) l = filter (λ x, f x) l.
Proof.
  induction l as [|x l IH]; [done|]. cbn [fmap list_fmap filter_mask].
  rewrite IH, filter_cons. destruct (f x); by simpl.
Qed.

Lemma filter_mask_all m l :
  Forall (λ b, b = true) m → length l ≤ length m → filter_mask m l = l.
Proof.
  intros Hm. revert l. induction Hm as [|b m -> _ IH]; intros [|x l] Hl;
    simpl in *; try done; try lia.
  f_equal. apply IH. lia.
Qed.

Lemma length_filter_mask m l :
  length m ≤ length l →
  length (filter_mask m l) = length (filter (λ b : bool, b) m).
Proof.
  revert l. induction m as [|b m IH]; intros [|x l] Hl; simpl in *;
    try done; try lia.
  rewrite filter_cons. destruct b; simpl; rewrite IH; auto with lia.
Qed.

Lemma length_filter_mask_le m l :
  length (filter_mask m l) ≤ length (filter (λ b : bool, b) m).
Proof.
  revert l. induction m as [|b m IH]; intros [|x l]; simpl; try lia.
  - rewrite filter_cons. destruct b; simpl; specialize (IH l); lia.
Qed.

End mask_facts.

Section duplicate_facts.
Import Pd Rowwise.
Implicit Types (r : list cell) (l seen : list (list cell)).

(** The rows [drop_duplicates] keeps when the rows [seen] came before. *)
Lemma elem_of_kept seen l r :
  r ∈ filter_mask (negb <$> duplicated_from seen l) l ↔ r ∈ l ∧ r ∉ seen.
Proof.
  revert seen. induction l as [|x l IH]; intros seen; simpl.
  - rewrite elem_of_nil. tauto.
  - case_bool_decide as Hx; simpl;
      rewrite ?elem_of_cons, IH, not_elem_of_cons, ?elem_of_cons;
      destruct (decide (r = x)) as [->|]; tauto.
Qed.

Lemma NoDup_kept seen l :
  NoDup (filter_mask (negb <$> duplicated_from seen l) l).
Proof.
  revert seen. induction l as [|x l IH]; intros seen; simpl.
  - constructor.
  - case_bool_decide as Hx; simpl; [apply IH|].
    constructor; [|apply IH]. rewrite elem_of_kept, not_elem_of_cons.
    tauto.
Qed.

Lemma duplicated_NoDup seen l :
  NoDup l → (∀ r, r ∈ l → r ∉ seen) →
  Forall (λ b, b = true) (negb <$> duplicated_from seen l).
Proof.
  intros Hl. revert seen. induction Hl as [|x l Hx _ IH]; intros seen Hs;
    simpl; constructor.
  - rewrite bool_decide_false; [done|]. apply Hs, elem_of_cons. by left.
  - apply IH. intros r Hr. rewrite not_elem_of_cons. split.
    + by intros ->.
    + apply Hs, elem_of_cons. by right.
Qed.

Lemma length_duplicated_from seen l : length (duplicated_from seen l) = length l.
Proof. revert seen. induction l; intros; simpl; auto. Qed.

End duplicate_facts.

(* ===================================================================== *)
(** * The script, row by row *)
(* ===================================================================== *)

Section frame_facts.
Import Pd Cleaning Rowwise.
Implicit Types (df : DataFrame) (c : string) (r : list cell).

Lemma insert_cell_at (f : cell → cell) i r :
  <[i:=f (cell_at i r)]> r = alter f i r.
Proof.
  revert i. induction r as [|x r IH]; intros [|i]; simpl; try done.
  f_equal. apply IH.
Qed.

Lemma cell_at_alter (f : cell → cell) i r :
  cell_at i (alter f i r) = from_option f NaN (r !! i).
Proof.
  unfold cell_at. rewrite list_lookup_alter_eq. by destruct (r !! i).
Qed.

Lemma zip_with_rows {B} (h : list cell → B → list cell) (g : list cell → B)
    (l : list (list cell)) :
  zip_with h l (g <$> l) = (λ r, h r (g r)) <$> l.
Proof. induction l; simpl; by f_equal. Qed.

Lemma map_rows_id df : map_rows (λ r, r) df = df.
Proof.
  destruct df. unfold map_rows. simpl. f_equal. apply list_fmap_id.
Qed.

Lemma map_rows_map_rows g h df :
  map_rows g (map_rows h df) = map_rows (λ r, g (h r)) df.
Proof.
  unfold map_rows. simpl. f_equal. by rewrite <-list_fmap_compose.
Qed.

Lemma map_rows_ext g h df :
  (∀ r, g r = h r) → map_rows g df = map_rows h df.
Proof.
  intros E. unfold map_rows. f_equal. apply list_fmap_ext. auto.
Qed.

Lemma getitem_Ok df c i :
  col_index c (columns df) = Some i → getitem df c = Ok (cell_at i <$> rows df).
Proof. unfold getitem, get_loc. by intros ->. Qed.

Lemma getitem_Raise df c :
  col_index c (columns df) = None → getitem df c = Raise (KeyError c).
Proof. unfold getitem, get_loc. by intros ->. Qed.

(** [df[c] = f(df[c])] for a column that exists. *)
Lemma setitem_on_col df c (f : cell → cell) i :
  col_index c (columns df) = Some i →
  setitem df c (f <$> (cell_at i <$> rows df))
  = map_rows (on_col (columns df) c f) df.
Proof.
  intros Hi. unfold setitem, map_rows, on_col. rewrite Hi. f_equal.
  rewrite <-list_fmap_compose, zip_with_rows.
  apply list_fmap_ext. intros _ r _. apply insert_cell_at.
Qed.

(** [df[c] = g(row)] whether or not the column exists. *)
Lemma setitem_put_col df c (g : list cell → cell) :
  setitem df c (g <$> rows df)
  = {| index := index df;
       columns := if bool_decide (c ∈ columns df) then columns df
                  else columns df ++ [c];
       rows := (λ r, put_col (columns df) c (g r) r) <$> rows df |}.
Proof.
  unfold setitem, put_col. destruct (col_index c (columns df)) as [i|] eqn:Hi.
  - rewrite bool_decide_true by (apply col_index_is_Some; eauto).
    by rewrite zip_with_rows.
  - rewrite bool_decide_false by by apply col_index_None.
    by rewrite zip_with_rows.
Qed.

Lemma on_col_compose cols c (f g : cell → cell) r :
  on_col cols c g (on_col cols c f r) = on_col cols c (λ x, g (f x)) r.
Proof.
  unfold on_col. destruct (col_index c cols); [|done].
  by rewrite list_alter_alter_eq.
Qed.

Lemma on_col_absent cols c f r : c ∉ cols → on_col cols c f r = r.
Proof. intros Hc%col_index_None. unfold on_col. by rewrite Hc. Qed.

(** One turn of the loop over [cat_cols]. *)
Lemma clean_col_spec df c :
  clean_col df c = Ok (map_rows (on_col (columns df) c clean_text) df).
Proof.
  unfold clean_col. case_bool_decide as Hc.
  - apply col_index_elem_of in Hc as [i Hi].
    rewrite (getitem_Ok _ _ _ Hi). cbn [mbind result_bind].
    unfold replace_blank, astype_str.
    rewrite <-(list_fmap_compose astype_str_cell replace_blank_cell).
    rewrite (setitem_on_col _ _ _ _ Hi).
    rewrite (getitem_Ok (map_rows _ df) c i Hi). cbn [mbind result_bind].
    unfold apply. rewrite (setitem_on_col (map_rows _ df) c _ i Hi).
    rewrite map_rows_map_rows. f_equal. apply map_rows_ext. intros r.
    simpl. by rewrite on_col_compose.
  - f_equal. rewrite <-(map_rows_id df) at 1. apply map_rows_ext.
    intros r. by rewrite on_col_absent.
Qed.

Lemma clean_cols_spec l df :
  clean_cols l df
  = Ok (map_rows (λ r, foldl (λ r c, on_col (columns df) c clean_text r) r l) df).
Proof.
  revert df. induction l as [|c l IH]; intros df; simpl.
  - by rewrite map_rows_id.
  - rewrite clean_col_spec. cbn [mbind result_bind].
    rewrite IH. by rewrite map_rows_map_rows.
Qed.

Lemma forallb_datetimelike i (g : list cell → list cell) (l : list (list cell)) :
  forallb is_datetimelike
    (cell_at i <$> ((λ r, alter to_datetime_cell i (g r)) <$> l)) = true.
Proof.
  induction l as [|r l IH]; [done|].
  rewrite !fmap_cons. cbn [forallb].
  rewrite IH, cell_at_alter, andb_true_r.
  destruct (g r !! i); simpl; [apply to_datetime_cell_kind|done].
Qed.

Lemma has_required_index df :
  has_required df = true →
  ∃ i1 i2 i3 i4,
    col_index "title" (columns df) = Some i1 ∧
    col_index "type" (columns df) = Some i2 ∧
    col_index "release_year" (columns df) = Some i3 ∧
    col_index "date_added" (columns df) = Some i4.
Proof.
  unfold has_required, required. cbn [forallb].
  rewrite !andb_true_iff, !bool_decide_eq_true.
  intros ([i1 ?]%col_index_elem_of & [i2 ?]%col_index_elem_of &
          [i3 ?]%col_index_elem_of & [i4 ?]%col_index_elem_of & _).
  eauto 10.
Qed.

Lemma dropna_spec df i1 i2 i3 :
  col_index "title" (columns df) = Some i1 →
  col_index "type" (columns df) = Some i2 →
  col_index "release_year" (columns df) = Some i3 →
  dropna ["title"; "type"; "release_year"]%string df
  = Ok (select df (complete (columns df) <$> rows df)).
Proof.
  intros H1 H2 H3. unfold dropna. cbn [mapM]. unfold get_loc.
  rewrite H1, H2, H3. cbn [mbind result_bind mret result_ret].
  do 2 f_equal. apply list_fmap_ext. intros _ r _.
  unfold complete, cell_of. rewrite H1, H2, H3. cbn [forallb].
  by rewrite andb_true_r, andb_assoc.
Qed.

(** The rows that survive lines 9 and 12: the first copy of each row
    that has its three essential fields. *)
Lemma survivors_spec df :
  has_required df = true →
  survivors df
  = filter (λ r, complete (columns df) r)
      (filter_mask (negb <$> duplicated df) (rows df)).
Proof.
  intros (i1 & i2 & i3 & i4 & H1 & H2 & H3 & _)%has_required_index.
  unfold survivors.
  rewrite (dropna_spec (drop_duplicates df) i1 i2 i3 H1 H2 H3).
  cbn [rows select drop_duplicates columns]. apply filter_mask_fmap.
Qed.

Lemma elem_of_survivors df r :
  has_required df = true →
  r ∈ survivors df ↔ r ∈ rows df ∧ complete (columns df) r = true.
Proof.
  intros Hreq. rewrite (survivors_spec df Hreq), list_elem_of_filter.
  unfold duplicated. rewrite elem_of_kept, elem_of_nil, Is_true_true. tauto.
Qed.

Lemma NoDup_survivors df : has_required df = true → NoDup (survivors df).
Proof.
  intros Hreq. rewrite (survivors_spec df Hreq).
  apply NoDup_filter, NoDup_kept.
Qed.

(** The script's result on a frame that has the columns it indexes. *)
Lemma normalize_ok df :
  has_required df = true →
  normalize df
  = Ok {| index := kept_index df;
          columns := out_columns (columns df);
          rows := clean_row (columns df) <$> survivors df |}.
Proof.
  intros (i1 & i2 & i3 & i4 & H1 & H2 & H3 & H4)%has_required_index.
  unfold normalize, survivors, kept_index.
  rewrite (dropna_spec (drop_duplicates df) i1 i2 i3 H1 H2 H3).
  set (d := select (drop_duplicates df) _).
  assert (columns d = columns df) as Hd by done.
  cbn [mbind result_bind].
  rewrite clean_cols_spec. cbn [mbind result_bind].
  rewrite Hd.
  set (g1 := λ r, foldl (λ r c, on_col (columns df) c clean_text r) r cat_cols).
  rewrite (getitem_Ok (map_rows g1 d) "release_year" i3)
    by (cbn [columns map_rows]; congruence).
  cbn [mbind result_bind]. unfold to_numeric.
  rewrite (setitem_on_col (map_rows g1 d) _ _ i3)
    by (cbn [columns map_rows]; congruence).
  rewrite map_rows_map_rows. cbn [columns map_rows]. rewrite Hd.
  set (g2 := λ r, on_col (columns df) "release_year" to_numeric_cell (g1 r)).
  rewrite (getitem_Ok (map_rows g2 d) "date_added" i4)
    by (cbn [columns map_rows]; congruence).
  cbn [mbind result_bind]. unfold to_datetime.
  rewrite (setitem_on_col (map_rows g2 d) _ _ i4)
    by (cbn [columns map_rows]; congruence).
  rewrite map_rows_map_rows. cbn [columns map_rows]. rewrite Hd.
  set (g3 := λ r, on_col (columns df) "date_added" to_datetime_cell (g2 r)).
  rewrite (getitem_Ok (map_rows g3 d) "date_added" i4)
    by (cbn [columns map_rows]; congruence).
  cbn [mbind result_bind]. unfold dt_year.
  assert (forallb is_datetimelike (cell_at i4 <$> rows (map_rows g3 d)) = true)
    as ->.
  { cbn [rows map_rows]. unfold g3, on_col. rewrite H4.
    apply forallb_datetimelike. }
  cbn [mbind result_bind].
  rewrite <-(list_fmap_compose (cell_at i4) year_cell).
  rewrite (setitem_put_col (map_rows g3 d) "year_added").
  unfold replace_blank_frame. cbn [index columns rows map_rows]. rewrite Hd.
  f_equal. f_equal.
  rewrite <-!list_fmap_compose. apply list_fmap_ext. intros _ r _.
  unfold clean_row, compose. cbn zeta. fold (g1 r). fold (g2 r). fold (g3 r).
  unfold cell_of. by rewrite H4.
Qed.

(** The script fails on a frame that lacks one of those columns, and
    only then. *)
Lemma normalize_raise df :
  has_required df = false →
  ∃ c, c ∈ required ∧ (c ∉ columns df) ∧ normalize df = Raise (KeyError c).
Proof.
  unfold has_required, required. cbn [forallb]. rewrite andb_true_r.
  intros Hreq. unfold normalize.
  destruct (col_index "title" (columns df)) as [i1|] eqn:H1; cycle 1.
  { exists "title"%string. split_and!; [compute_done|by apply col_index_None|].
    unfold dropna. cbn [mapM]. unfold get_loc.
    cbn [columns drop_duplicates select]. by rewrite H1. }
  destruct (col_index "type" (columns df)) as [i2|] eqn:H2; cycle 1.
  { exists "type"%string. split_and!; [compute_done|by apply col_index_None|].
    unfold dropna. cbn [mapM]. unfold get_loc.
    cbn [columns drop_duplicates select]. by rewrite H1, H2. }
  destruct (col_index "release_year" (columns df)) as [i3|] eqn:H3; cycle 1.
  { exists "release_year"%string.
    split_and!; [compute_done|by apply col_index_None|].
    unfold dropna. cbn [mapM]. unfold get_loc.
    cbn [columns drop_duplicates select]. by rewrite H1, H2, H3. }
  destruct (col_index "date_added" (columns df)) as [i4|] eqn:H4.
  { exfalso. revert Hreq.
    rewrite !bool_decide_true by (apply col_index_is_Some; eauto). done. }
  exists "date_added"%string.
  split_and!; [compute_done|by apply col_index_None|].
  rewrite (dropna_spec (drop_duplicates df) i1 i2 i3 H1 H2 H3).
  set (d := select (drop_duplicates df) _).
  assert (columns d = columns df) as Hd by done.
  cbn [mbind result_bind]. rewrite clean_cols_spec. cbn [mbind result_bind].
  rewrite (getitem_Ok _ "release_year" i3)
    by (cbn [columns map_rows]; congruence).
  cbn [mbind result_bind]. unfold to_numeric.
  rewrite (setitem_on_col _ _ _ i3) by (cbn [columns map_rows]; congruence).
  rewrite (getitem_Raise _ "date_added")
    by (cbn [columns map_rows]; congruence).
  done.
Qed.

Lemma normalize_Ok_required df out :
  normalize df = Ok out → has_required df = true.
Proof.
  intros Hn. destruct (has_required df) eqn:Hreq; [done|].
  destruct (normalize_raise df Hreq) as (c & _ & _ & Hc). congruence.
Qed.

(** The shape of every successful run. *)
Lemma normalize_Ok_inv df out :
  normalize df = Ok out →
  has_required df = true ∧
  index out = kept_index df ∧
  columns out = out_columns (columns df) ∧
  rows out = clean_row (columns df) <$> survivors df.
Proof.
  intros Hn. pose proof (normalize_Ok_required df out Hn) as Hreq.
  rewrite (normalize_ok df Hreq) in Hn. by simplify_eq.
Qed.

End frame_facts.

Section row_facts.
Import Pd Cleaning Rowwise.
Implicit Types (c : string) (cols : list string) (r : list cell).

Lemma col_index_same c c' cols j :
  col_index c cols = Some j → col_index c' cols = Some j ↔ c' = c.
Proof.
  intros Hc. split; [|by intros ->]. intros Hc'. by eapply col_index_inj.
Qed.

Lemma on_col_lookup cols c c' f r j :
  col_index c cols = Some j →
  on_col cols c' f r !! j
  = if bool_decide (c' = c) then f <$> r !! j else r !! j.
Proof.
  intros Hc. unfold on_col. case_bool_decide as Hn.
  - subst. rewrite Hc. apply list_lookup_alter_eq.
  - destruct (col_index c' cols) as [i|] eqn:Hi; [|done].
    apply list_lookup_alter_ne. intros ->. apply Hn.
    by eapply col_index_inj.
Qed.

Lemma on_col_length cols c f r : length (on_col cols c f r) = length r.
Proof. unfold on_col. case_match; [apply length_alter|done]. Qed.

Lemma fold_on_col_length cols f l r :
  length (foldl (λ r c, on_col cols c f r) r l) = length r.
Proof.
  revert r. induction l as [|c l IH]; intros r; simpl; [done|].
  by rewrite IH, on_col_length.
Qed.

Lemma fold_on_col_lookup cols c f l r j :
  NoDup l → col_index c cols = Some j →
  foldl (λ r c', on_col cols c' f r) r l !! j
  = if bool_decide (c ∈ l) then f <$> r !! j else r !! j.
Proof.
  intros Hl Hc. revert r. induction Hl as [|c' l Hc' _ IH]; intros r; simpl.
  - done.
  - rewrite IH, (on_col_lookup cols c c' f r j Hc).
    destruct (decide (c' = c)) as [->|Hn].
    + rewrite (bool_decide_true (c = c)) by done.
      rewrite (bool_decide_false (c ∈ l)) by done.
      by rewrite bool_decide_true by (apply elem_of_cons; by left).
    + rewrite (bool_decide_false (c' = c)) by done.
      rewrite (bool_decide_ext (c ∈ c' :: l) (c ∈ l)); [done|].
      rewrite elem_of_cons. split; [|tauto]. by intros [->|].
Qed.

Lemma NoDup_cat_cols : NoDup cat_cols.
Proof. compute_done. Qed.

Lemma cat_cols_untouched c :
  c ∈ cat_cols →
  c ≠ "release_year"%string ∧ c ≠ "date_added"%string ∧ c ≠ "year_added"%string.
Proof.
  intros Hc. repeat split; intros ->; revert Hc; by compute_done.
Qed.

(** Case analysis on the column tests of a goal, with the impossible
    combinations of names closed. *)
Local Ltac by_column_name :=
  repeat match goal with
    | |- context [bool_decide ?P] =>
        destruct (decide P);
        [rewrite (bool_decide_true P) by done
        |rewrite (bool_decide_false P) by done]
    end;
  try done;
  try match goal with
    | H : _ ∈ cat_cols |- _ =>
        apply cat_cols_untouched in H; destruct H as (? & ? & ?); congruence
    end;
  try congruence.

(** The date cell the year is read from, in terms of the raw row. *)
Lemma date_cell_after cols r :
  let r3 := on_col cols "date_added" to_datetime_cell
              (on_col cols "release_year" to_numeric_cell
                 (foldl (λ r c, on_col cols c clean_text r) r cat_cols)) in
  year_cell (cell_of cols "date_added" r3) = year_of_row cols r.
Proof.
  intros r3. unfold year_of_row, cell_of, cell_at.
  destruct (col_index "date_added" cols) as [j|] eqn:Hj; [|done].
  unfold r3.
  rewrite (on_col_lookup cols "date_added" "date_added" _ _ j Hj).
  rewrite (on_col_lookup cols "date_added" "release_year" _ _ j Hj).
  rewrite (fold_on_col_lookup cols "date_added" _ _ _ j NoDup_cat_cols Hj).
  rewrite bool_decide_true by done.
  rewrite (bool_decide_false ("release_year"%string = _)) by done.
  rewrite (bool_decide_false (_ ∈ cat_cols))
    by (by intros (_ & ? & _)%cat_cols_untouched).
  by destruct (r !! j).
Qed.

(** The cell the script leaves under a column the input has. *)
Lemma clean_row_lookup cols r c j x :
  col_index c cols = Some j → r !! j = Some x →
  clean_row cols r !! j = Some (out_cell cols r c x).
Proof.
  intros Hc Hx. unfold clean_row, replace_blank. cbn zeta.
  rewrite date_cell_after, list_lookup_fmap.
  set (r1 := foldl _ r cat_cols).
  set (r2 := on_col cols "release_year" _ r1).
  set (r3 := on_col cols "date_added" _ r2).
  assert (length r3 = length r) as Hlen.
  { unfold r3, r2, r1. by rewrite !on_col_length, fold_on_col_length. }
  assert (j < length r) as Hj by by eapply lookup_lt_Some.
  assert (r3 !! j = Some
    (if bool_decide (c ∈ cat_cols) then clean_text x
     else if bool_decide (c = "release_year"%string) then to_numeric_cell x
     else if bool_decide (c = "date_added"%string) then to_datetime_cell x
     else x)) as H3.
  { unfold r3, r2, r1.
    rewrite (on_col_lookup cols c "date_added" _ _ j Hc).
    rewrite (on_col_lookup cols c "release_year" _ _ j Hc).
    rewrite (fold_on_col_lookup cols c _ _ _ j NoDup_cat_cols Hc), Hx.
    rewrite (bool_decide_ext ("date_added"%string = c) (c = "date_added"%string))
      by done.
    rewrite (bool_decide_ext ("release_year"%string = c) (c = "release_year"%string))
      by done.
    by_column_name. }
  unfold out_cell, put_col.
  destruct (col_index "year_added" cols) as [k|] eqn:Hk.
  - rewrite list_lookup_insert.
    destruct (decide (k = j ∧ k < length r3)) as [[-> _]|Hkj].
    + assert (c = "year_added"%string) as -> by by eapply col_index_inj.
      simpl. by f_equal.
    + rewrite H3. simpl. do 2 f_equal. by_column_name.
      destruct Hkj. subst. split; [congruence|]. rewrite Hlen.
      assert (k = j) as -> by congruence. done.
  - rewrite lookup_app_l by lia. rewrite H3. simpl. do 2 f_equal.
    by_column_name.
Qed.

Lemma length_clean_row cols r :
  length (clean_row cols r)
  = if bool_decide ("year_added"%string ∈ cols) then length r else S (length r).
Proof.
  unfold clean_row, replace_blank, put_col. cbn zeta.
  rewrite length_fmap.
  destruct (col_index "year_added" cols) as [k|] eqn:Hk.
  - rewrite bool_decide_true by (apply col_index_is_Some; eauto).
    by rewrite length_insert, !on_col_length, fold_on_col_length.
  - rewrite bool_decide_false by by apply col_index_None.
    rewrite length_app, !on_col_length, fold_on_col_length. simpl. lia.
Qed.

(** The year cell of a cleaned row, whether the column was there before
    or is the one appended. *)
Lemma clean_row_year cols r :
  length r = length cols →
  cell_of (out_columns cols) "year_added" (clean_row cols r)
  = year_of_row cols r.
Proof.
  intros Hlen. unfold cell_of, cell_at.
  destruct (col_index_out_year cols) as (k & -> & Hk).
  destruct (col_index "year_added" cols) as [i|] eqn:Hi.
  - subst k. pose proof (col_index_lt _ _ _ Hi) as Hlt.
    destruct (lookup_lt_is_Some_2 r i) as [x Hx]; [lia|].
    rewrite (clean_row_lookup cols r _ i x Hi Hx). simpl.
    unfold out_cell. simpl. apply year_cell_sweep.
  - subst k. unfold clean_row, replace_blank, put_col. cbn zeta.
    rewrite date_cell_after, Hi, list_lookup_fmap.
    rewrite lookup_app_r
      by (rewrite !on_col_length, fold_on_col_length; lia).
    rewrite !on_col_length, fold_on_col_length, Hlen, Nat.sub_diag. simpl.
    apply year_cell_sweep.
Qed.

(** The cell under a column of the input, read by name in the output. *)
Lemma clean_row_cell cols r c :
  cell_of cols c r ≠ NaN →
  cell_of (out_columns cols) c (clean_row cols r)
  = out_cell cols r c (cell_of cols c r).
Proof.
  intros (j & Hj & Hx)%cell_of_notna.
  unfold cell_of at 1. rewrite (col_index_out _ _ _ Hj). unfold cell_at.
  by rewrite (clean_row_lookup cols r c j _ Hj Hx).
Qed.

End row_facts.

(* ===================================================================== *)
(** * Facts about the calendar *)
(* ===================================================================== *)

Section calendar_facts.
Import Tstamp Props.
Local Open Scope Z_scope.

Lemma yoe_of_mono a b : 0 ≤ a ≤ b → b ≤ 146096 → yoe_of a ≤ yoe_of b.
Proof.
  intros H1 H2. unfold yoe_of. apply Z.div_le_mono; [lia|].
  Z.div_mod_to_equations; lia.
Qed.

Lemma year_ends_table : forallb year_ends_agree (seqZ 0 400) = true.
Proof. vm_compute. reflexivity. Qed.

Lemma is_leap_shift yoe era : is_leap (era * 400 + yoe) = is_leap yoe.
Proof.
  unfold is_leap.
  replace ((era * 400 + yoe) mod 4) with (yoe mod 4)
    by (Z.div_mod_to_equations; lia).
  replace ((era * 400 + yoe) mod 100) with (yoe mod 100)
    by (Z.div_mod_to_equations; lia).
  replace ((era * 400 + yoe) mod 400) with (yoe mod 400)
    by (Z.div_mod_to_equations; lia).
  reflexivity.
Qed.

Lemma year_len_399 : year_len 399 = 366.
Proof. reflexivity. Qed.

Lemma era_start_bounds yoe doy :
  0 ≤ yoe < 400 → 0 ≤ doy < year_len yoe →
  0 ≤ era_start yoe ∧ era_start yoe + doy ≤ 146096.
Proof.
  intros Hy Hd. unfold era_start, year_len in *.
  destruct (is_leap (yoe + 1)) eqn:E.
  - Z.div_mod_to_equations; lia.
  - assert (yoe ≠ 399)
      by (intros Heq; rewrite Heq in E; vm_compute in E; discriminate).
    Z.div_mod_to_equations; lia.
Qed.

(** Every day of the year [yoe] of an era is found to be in that year. *)
Lemma yoe_of_day yoe doy :
  0 ≤ yoe < 400 → 0 ≤ doy < year_len yoe →
  yoe_of (era_start yoe + doy) = yoe.
Proof.
  intros Hy Hd.
  pose proof year_ends_table as T. rewrite forallb_forall in T.
  assert (In yoe (seqZ 0 400)) as Hin
    by (apply list_elem_of_In, elem_of_seqZ; lia).
  apply T in Hin. unfold year_ends_agree in Hin.
  apply andb_prop in Hin as [T1%Z.eqb_eq T2%Z.eqb_eq].
  destruct (era_start_bounds yoe doy Hy Hd) as [H0 H1].
  destruct (era_start_bounds yoe (year_len yoe - 1) Hy) as [_ H2]; [lia|].
  apply Z.le_antisymm.
  - rewrite <-T2 at 2. apply yoe_of_mono; lia.
  - rewrite <-T1 at 1. apply yoe_of_mono; lia.
Qed.

Lemma days_in_month_facts y m :
  days_in_month y m ≤ 31 ∧
  (m = 2 → days_in_month y m = if is_leap y then 29 else 28) ∧
  (m = 4 ∨ m = 6 ∨ m = 9 ∨ m = 11 → days_in_month y m = 30).
Proof.
  unfold days_in_month.
  destruct (Z.eqb_spec m 2), (Z.eqb_spec m 4), (Z.eqb_spec m 6),
    (Z.eqb_spec m 9), (Z.eqb_spec m 11), (is_leap y); simpl; lia.
Qed.

(** The year of the day count of a date is the year of the date. *)
Lemma civil_year y m d :
  1 ≤ m ≤ 12 → 1 ≤ d ≤ days_in_month y m →
  fst (fst (civil_from_days (days_from_civil y m d))) = y.
Proof.
  intros Hm Hd.
  pose proof (days_in_month_facts y m) as (Hd31 & Hfeb & H30).
  unfold days_from_civil, civil_from_days. cbv zeta.
  set (y' := if m <=? 2 then y - 1 else y).
  set (mp := if 2 <? m then m - 3 else m + 9).
  set (era := y' / 400).
  set (yoe := y' - era * 400).
  set (doy := (153 * mp + 2) / 5 + d - 1).
  assert ((2 < m ∧ mp = m - 3 ∧ y' = y) ∨ (m ≤ 2 ∧ mp = m + 9 ∧ y' = y - 1))
    as Hcase.
  { unfold mp, y'. destruct (Z.ltb_spec 2 m), (Z.leb_spec m 2); lia. }
  assert (0 ≤ yoe < 400) as Hyoe
    by (unfold yoe, era; Z.div_mod_to_equations; lia).
  assert (m ≤ 2 → is_leap (yoe + 1) = is_leap y) as Hleap.
  { intros Hle. rewrite <-(is_leap_shift (yoe + 1) era). f_equal.
    unfold yoe. lia. }
  assert (0 ≤ doy < year_len yoe ∧
          (2 < m → (5 * doy + 2) / 153 < 10) ∧
          (m ≤ 2 → 10 ≤ (5 * doy + 2) / 153 ≤ 11)) as (Hdoy & Hlate & Hearly).
  { unfold year_len, doy.
    assert (m = 1 ∨ m = 2 ∨ m = 3 ∨ m = 4 ∨ m = 5 ∨ m = 6 ∨ m = 7 ∨
            m = 8 ∨ m = 9 ∨ m = 10 ∨ m = 11 ∨ m = 12) as Hc by lia.
    destruct (Z.eq_dec m 2) as [->|Hne].
    - rewrite Hleap by lia. rewrite Hfeb in Hd by done.
      destruct Hcase as [(? & -> & ?)|(? & -> & ?)]; [lia|].
      destruct (is_leap y); Z.div_mod_to_equations; lia.
    - destruct (is_leap (yoe + 1));
        destruct Hc as [->|[->|[->|[->|[->|[->|[->|[->|[->|[->|[->| ->]]]]]]]]]]];
        destruct Hcase as [(? & -> & ?)|(? & -> & ?)]; try lia;
        Z.div_mod_to_equations; lia. }
  destruct (era_start_bounds yoe doy Hyoe Hdoy) as [Hs0 Hs1].
  assert (0 ≤ era_start yoe + doy < 146097) as Hdoe by lia.
  replace (era * 146097 + (era_start yoe + doy) - 719468 + 719468)
    with (era_start yoe + doy + era * 146097) by lia.
  rewrite Z.div_add by lia. rewrite (Z.div_small _ _ Hdoe), Z.add_0_l.
  replace (era_start yoe + doy + era * 146097 - era * 146097)
    with (era_start yoe + doy) by lia.
  rewrite (yoe_of_day yoe doy Hyoe Hdoy).
  replace (era_start yoe + doy - era_start yoe) with doy by lia.
  cbn [fst].
  assert (0 ≤ (5 * doy + 2) / 153) by (apply Z.div_pos; lia).
  destruct (Z.ltb_spec ((5 * doy + 2) / 153) 10) as [Hlt|Hge];
    match goal with |- context [?a <=? ?b] => destruct (Z.leb_spec a b) end;
    unfold yoe; lia.
Qed.

(** A timestamp made from a date and a time of day falls in the year of
    the date. *)
Lemma year_of_make y m d hh mm ss ns :
  0 ≤ hh → 0 ≤ mm → 0 ≤ ss →
  make y m d hh mm ss = Some ns → year_of ns = y.
Proof.
  intros Hh Hmi Hs. unfold make.
  destruct (_ && _) eqn:Hv; [|done].
  repeat (apply andb_prop in Hv as [Hv ?]).
  destruct (in_bounds _); [|done]. intros [= <-].
  unfold year_of, ns_per_day.
  replace ((days_from_civil y m d * (86400 * 1000000000)
            + ((hh * 60 + mm) * 60 + ss) * 1000000000) / (86400 * 1000000000))
    with (days_from_civil y m d) by (Z.div_mod_to_equations; lia).
  pose proof (civil_year y m d ltac:(lia) ltac:(lia)) as Hy.
  by destruct (civil_from_days _) as [[??]?].
Qed.

End calendar_facts.

(* ===================================================================== *)
(** * The specification's statements about the cleaning script *)
(* ===================================================================== *)

Section essential_fields.
Import Pd Cleaning Rowwise.

(** Every output row is the cleaned form of a complete input row. *)
Lemma elem_of_rows_out df out r' :
  normalize df = Ok out → r' ∈ rows out →
  ∃ r, r ∈ rows df ∧ complete (columns df) r = true ∧
       r' = clean_row (columns df) r.
Proof.
  intros (Hreq & _ & _ & Hrows)%normalize_Ok_inv. rewrite Hrows.
  intros (r & -> & Hr)%list_elem_of_fmap.
  apply (elem_of_survivors df r Hreq) in Hr as [??]. eauto.
Qed.

Lemma complete_cells cols r :
  complete cols r = true →
  cell_of cols "title" r ≠ NaN ∧ cell_of cols "type" r ≠ NaN ∧
  cell_of cols "release_year" r ≠ NaN.
Proof.
  unfold complete, notna. rewrite !andb_true_iff, !negb_true_iff.
  intros [[H1 H2] H3]. repeat split; intros E; by rewrite E in *.
Qed.

(** C1, counterexample: the one entry of [Samples.bad_year] is kept, and
    its release_year is missing in the output. *)
Lemma essentials_not_all_present :
  ∃ out, normalize Samples.bad_year = Ok out ∧
         ¬ (∀ r, r ∈ rows out → complete (columns out) r = true).
Proof.
  eexists. split; [vm_compute; reflexivity|].
  intros H. specialize (H _ (list_elem_of_here _ _)). by vm_compute in H.
Qed.

(** C1, as amended: every row of the output comes from an input row
    whose title, type and release_year are all present in the raw table.
    Its title is the raw one, missing in the output only if the raw cell
    is blank text; its type is missing only if the raw cell is blank
    text; and its release_year is missing only if the raw cell is text
    (which [to_numeric] did not take for a number). *)
Theorem essentials_of_output df out r' :
  normalize df = Ok out → r' ∈ rows out →
  ∃ r, r ∈ rows df ∧
       complete (columns df) r = true ∧
       cell_of (columns out) "title" r'
       = replace_blank_cell (cell_of (columns df) "title" r) ∧
       (cell_of (columns out) "title" r' = NaN →
          is_blank_text (cell_of (columns df) "title" r) = true) ∧
       (cell_of (columns out) "type" r' = NaN →
          is_blank_text (cell_of (columns df) "type" r) = true) ∧
       (cell_of (columns out) "release_year" r' = NaN →
          ∃ s, cell_of (columns df) "release_year" r = Str s).
Proof.
  intros Hn Hr'. destruct (elem_of_rows_out df out r' Hn Hr') as (r & Hr & Hc & ->).
  apply normalize_Ok_inv in Hn as (_ & _ & -> & _).
  destruct (complete_cells _ _ Hc) as (Ht & Hy & Hry).
  exists r. split_and!; [done..| | | |].
  - by rewrite (clean_row_cell _ _ _ Ht).
  - rewrite (clean_row_cell _ _ _ Ht). unfold out_cell. simpl.
    intros [?|?]%replace_blank_cell_NaN; done.
  - rewrite (clean_row_cell _ _ _ Hy). unfold out_cell. simpl.
    rewrite clean_text_sweep.
    destruct (clean_text_cases (cell_of (columns df) "type" r))
      as [[? _]|(s & _ & _ & ->)]; done.
  - rewrite (clean_row_cell _ _ _ Hry). unfold out_cell. simpl.
    rewrite to_numeric_cell_sweep. intros Hnan.
    destruct (to_numeric_cell_NaN _ Hry Hnan) as (s & ? & _). eauto.
Qed.

Lemma essentials_of_output_witness :
  ∃ r, r ∈ rows Samples.bad_year ∧
       complete (columns Samples.bad_year) r = true ∧
       ∃ s, cell_of (columns Samples.bad_year) "release_year" r = Str s.
Proof.
  destruct (essentials_of_output Samples.bad_year
              {| index := [0];
                 columns := Samples.header4 ++ ["year_added"%string];
                 rows := [[Str "Dark"; Str "Tv Show"; NaN;
                           Timestamp 1615766400000000000; Int 2021]] |}
              [Str "Dark"; Str "Tv Show"; NaN;
               Timestamp 1615766400000000000; Int 2021])
    as (r & Hr & Hc & _ & _ & _ & Hy).
  - vm_compute. reflexivity.
  - apply list_elem_of_here.
  - exists r. split_and!; [done..|]. apply Hy. vm_compute. reflexivity.
Defined.

End essential_fields.

Section year_coercion.
Import Pd Cleaning Rowwise.

(** C2: an input row whose title and type are present and
    whose release_year is a string that does not read as a number
    survives the row-dropping lines and is in the output, cleaned, with a
    missing release_year; an input row whose release_year is missing does
    not survive them; and the output holds the cleaned survivors, nothing
    else. *)
Theorem release_year_coerced_not_dropped df out :
  normalize df = Ok out →
  (∀ r s, r ∈ rows df →
      cell_of (columns df) "release_year" r = Str s →
      Num.parse_number s = None →
      cell_of (columns df) "title" r ≠ NaN →
      cell_of (columns df) "type" r ≠ NaN →
      r ∈ survivors df ∧
      clean_row (columns df) r ∈ rows out ∧
      cell_of (columns out) "release_year" (clean_row (columns df) r) = NaN) ∧
  (∀ r, cell_of (columns df) "release_year" r = NaN → r ∉ survivors df) ∧
  rows out = clean_row (columns df) <$> survivors df.
Proof.
  intros (Hreq & _ & Hcols & Hrows)%normalize_Ok_inv. split_and!; [| |done].
  - intros r s Hr Hy Hs Ht Hty.
    assert (r ∈ survivors df) as Hsurv.
    { apply (elem_of_survivors df r Hreq). split; [done|].
      unfold complete, notna. rewrite Hy. simpl.
      by destruct (cell_of _ "title" r), (cell_of _ "type" r). }
    split_and!; [done| |].
    + rewrite Hrows. apply list_elem_of_fmap. eauto.
    + rewrite Hcols, clean_row_cell by by rewrite Hy.
      rewrite Hy. unfold out_cell. simpl. by rewrite Hs.
  - intros r Hy (_ & Hc)%(elem_of_survivors df r Hreq).
    apply complete_cells in Hc as (_ & _ & ?). done.
Qed.

Lemma release_year_coerced_not_dropped_witness :
  clean_row Samples.header4 [Str "Dark"; Str "TV Show"; Str "abc"; Str "2021-03-15"]
  ∈ [[Str "Dark"; Str "Tv Show"; NaN; Timestamp 1615766400000000000; Int 2021]].
Proof.
  refine (proj1 (proj2 (proj1
    (release_year_coerced_not_dropped Samples.bad_year
       {| index := [0];
          columns := Samples.header4 ++ ["year_added"%string];
          rows := [[Str "Dark"; Str "Tv Show"; NaN;
                    Timestamp 1615766400000000000; Int 2021]] |} _)
    [Str "Dark"; Str "TV Show"; Str "abc"; Str "2021-03-15"] "abc" _ _ _ _ _))).
  - vm_compute. reflexivity.
  - apply list_elem_of_here.
  - vm_compute. reflexivity.
  - vm_compute. reflexivity.
  - vm_compute. discriminate.
  - vm_compute. discriminate.
Defined.

End year_coercion.

Section idempotence.
Import Pd Cleaning Rowwise Props.
Implicit Types (c : string) (cols : list string) (r : list cell).

Lemma alter_fixed {A} (f : A → A) i (l : list A) :
  (∀ x, l !! i = Some x → f x = x) → alter f i l = l.
Proof.
  intros Hf. apply list_eq. intros j. rewrite list_lookup_alter.
  case_decide; [subst|done]. destruct (l !! j) eqn:E; simpl; [|done].
  by rewrite Hf.
Qed.

Lemma foldl_fixed {A B} (F : A → B → A) (a : A) (l : list B) :
  (∀ b, b ∈ l → F a b = a) → foldl F a l = a.
Proof.
  induction l as [|b l IH]; simpl; [done|]. intros H.
  rewrite H by (apply elem_of_cons; by left).
  apply IH. intros. apply H, elem_of_cons. by right.
Qed.

Lemma filter_all {A} (P : A → Prop) `{∀ x, Decision (P x)} (l : list A) :
  Forall P l → filter P l = l.
Proof.
  induction 1 as [|x l Hx _ IH]; [done|].
  by rewrite filter_cons_True, IH.
Qed.

Lemma replace_blank_idem r : replace_blank (replace_blank r) = replace_blank r.
Proof.
  unfold replace_blank. rewrite <-list_fmap_compose.
  apply list_fmap_ext. intros. apply replace_blank_cell_idem.
Qed.

(** The cell a cleaned row holds under a column of the input. *)
Lemma clean_row_lookup' cols r c j :
  length r = length cols → col_index c cols = Some j →
  ∃ x, r !! j = Some x ∧
       clean_row cols r !! j = Some (out_cell cols r c x) ∧
       cell_of cols c r = x.
Proof.
  intros Hlen Hj. pose proof (col_index_lt _ _ _ Hj).
  destruct (lookup_lt_is_Some_2 r j) as [x Hx]; [lia|].
  exists x. split_and!; [done| |].
  - by apply clean_row_lookup.
  - by eapply cell_of_lookup.
Qed.

(** A column of the output other than year_added stands where it stood in
    the input. *)
Lemma col_index_out_inv c cols j :
  c ≠ "year_added"%string →
  col_index c (out_columns cols) = Some j → col_index c cols = Some j.
Proof.
  intros Hc Hj. unfold out_columns in Hj. case_bool_decide; [done|].
  destruct (col_index c cols) as [i|] eqn:Hi.
  - by rewrite (col_index_app_l _ _ _ _ Hi) in Hj.
  - apply col_index_Some in Hj.
    apply lookup_app_Some in Hj as [Hj|[_ Hj]].
    + apply list_elem_of_lookup_2, col_index_elem_of in Hj as [? ?]. congruence.
    + apply list_elem_of_lookup_2, list_elem_of_singleton in Hj. done.
Qed.

(** The cell an output row holds under a column of the input, read by
    name. *)
Lemma cell_of_clean_row cols r c j :
  length r = length cols → col_index c cols = Some j →
  cell_of (out_columns cols) c (clean_row cols r)
  = out_cell cols r c (cell_of cols c r).
Proof.
  intros Hlen Hj.
  destruct (clean_row_lookup' cols r c j Hlen Hj) as (x & _ & Hl & ->).
  by rewrite (cell_of_lookup c _ _ j _ (col_index_out _ _ _ Hj) Hl).
Qed.

(** Cleaning a cleaned row again leaves it as it is, provided it has no
    gap under a categorical column. *)
Lemma clean_row_fixed cols r :
  length r = length cols →
  (∀ c, c ∈ cat_cols → c ∈ cols →
        cell_of (out_columns cols) c (clean_row cols r) ≠ NaN) →
  clean_row (out_columns cols) (clean_row cols r) = clean_row cols r.
Proof.
  intros Hlen Hcat. set (r' := clean_row cols r) in *.
  set (cols' := out_columns cols) in *.
  assert (∀ c j, c ≠ "year_added"%string →
            col_index c cols' = Some j → col_index c cols = Some j) as Hback.
  { intros c j Hc Hj. unfold cols', out_columns in Hj.
    case_bool_decide; [done|].
    destruct (col_index c cols) as [i|] eqn:Hi.
    - by rewrite (col_index_app_l _ _ _ _ Hi) in Hj.
    - apply col_index_Some in Hj.
      apply lookup_app_Some in Hj as [Hj|[_ Hj]].
      + apply list_elem_of_lookup_2, col_index_elem_of in Hj as [? ?].
        congruence.
      + apply list_elem_of_lookup_2, list_elem_of_singleton in Hj. done. }
  assert (foldl (λ r c, on_col cols' c clean_text r) r' cat_cols = r') as E1.
  { apply foldl_fixed. intros c Hc. unfold on_col.
    destruct (col_index c cols') as [j|] eqn:Hj; [|done].
    apply alter_fixed. intros x' Hx'.
    pose proof (cat_cols_untouched c Hc) as (_ & _ & Hny).
    pose proof (Hback c j Hny Hj) as Hj0.
    destruct (clean_row_lookup' cols r c j Hlen Hj0) as (x & _ & Hl & _).
    fold r' in Hl. rewrite Hl in Hx'. injection Hx' as <-.
    assert (cell_of cols' c r' = out_cell cols r c x) as Hcell
      by by eapply cell_of_lookup.
    specialize (Hcat c Hc (proj1 (col_index_is_Some _ _) (mk_is_Some _ _ Hj0))).
    rewrite Hcell in Hcat. revert Hcat. unfold out_cell.
    rewrite bool_decide_true by done. rewrite clean_text_sweep.
    apply clean_text_again. }
  assert (on_col cols' "release_year" to_numeric_cell r' = r') as E2.
  { unfold on_col. destruct (col_index _ cols') as [j|] eqn:Hj; [|done].
    apply alter_fixed. intros x' Hx'.
    pose proof (Hback "release_year"%string j ltac:(done) Hj) as Hj0.
    destruct (clean_row_lookup' cols r _ j Hlen Hj0) as (x & _ & Hl & _).
    fold r' in Hl. rewrite Hl in Hx'. injection Hx' as <-.
    unfold out_cell. simpl.
    by rewrite to_numeric_cell_sweep, to_numeric_cell_idem. }
  assert (on_col cols' "date_added" to_datetime_cell r' = r') as E3.
  { unfold on_col. destruct (col_index _ cols') as [j|] eqn:Hj; [|done].
    apply alter_fixed. intros x' Hx'.
    pose proof (Hback "date_added"%string j ltac:(done) Hj) as Hj0.
    destruct (clean_row_lookup' cols r _ j Hlen Hj0) as (x & _ & Hl & _).
    fold r' in Hl. rewrite Hl in Hx'. injection Hx' as <-.
    unfold out_cell. simpl.
    by rewrite to_datetime_cell_sweep, to_datetime_cell_idem. }
  assert (year_cell (cell_of cols' "date_added" r') = year_of_row cols r) as E4.
  { unfold year_of_row, cell_of at 1.
    destruct (col_index "date_added" cols') as [j|] eqn:Hj.
    - pose proof (Hback "date_added"%string j ltac:(done) Hj) as Hj0.
      destruct (clean_row_lookup' cols r _ j Hlen Hj0) as (x & _ & Hl & <-).
      fold r' in Hl. unfold cell_at. rewrite Hl. simpl.
      unfold out_cell. simpl. by rewrite to_datetime_cell_sweep.
    - assert (col_index "date_added" cols = None) as Hn.
      { destruct (col_index "date_added" cols) eqn:E; [|done].
        apply (col_index_out _ _ _) in E. fold cols' in E. congruence. }
      unfold cell_of. by rewrite Hn. }
  assert (put_col cols' "year_added" (year_of_row cols r) r' = r') as E5.
  { unfold put_col.
    pose proof (clean_row_year cols r Hlen) as Hy. fold r' cols' in Hy.
    destruct (col_index_out_year cols) as (k & Hk & Hk'). fold cols' in Hk.
    rewrite Hk. apply list_insert_id.
    unfold cell_of, cell_at in Hy. rewrite Hk in Hy.
    assert (k < length r') as Hlt.
    { unfold r'. rewrite length_clean_row.
      destruct (col_index "year_added" cols) as [i|] eqn:Hi.
      - subst k. rewrite bool_decide_true by (apply col_index_is_Some; eauto).
        apply col_index_lt in Hi. lia.
      - subst k. rewrite bool_decide_false by by apply col_index_None. lia. }
    destruct (lookup_lt_is_Some_2 r' k Hlt) as [y Hy']. rewrite Hy' in Hy |- *.
    simpl in Hy. by subst. }
  unfold clean_row at 1. cbn zeta. fold r'. rewrite E1, E2, E3, E4, E5.
  unfold r', clean_row. cbn zeta. apply replace_blank_idem.
Qed.

Lemma length_kept_index df :
  has_required df = true → length (kept_index df) ≤ length (survivors df).
Proof.
  intros (i1 & i2 & i3 & i4 & H1 & H2 & H3 & _)%has_required_index.
  unfold kept_index, survivors.
  rewrite (dropna_spec (drop_duplicates df) i1 i2 i3 H1 H2 H3).
  cbn [index rows select]. etrans; [apply length_filter_mask_le|].
  by rewrite length_filter_mask by by rewrite length_fmap.
Qed.

Lemma settled_complete d r :
  has_required d = true → settled d = true → r ∈ rows d →
  complete (columns d) r = true ∧
  ∀ c, c ∈ cat_cols → c ∈ columns d → cell_of (columns d) c r ≠ NaN.
Proof.
  intros Hreq [_ Hall]%andb_prop Hr.
  rewrite forallb_forall in Hall. apply list_elem_of_In, Hall in Hr.
  unfold no_gap_in in Hr. rewrite forallb_forall in Hr.
  assert (∀ c, c ∈ ("title" :: "release_year" :: cat_cols)%string →
               c ∈ columns d → notna (cell_of (columns d) c r) = true) as Hc.
  { intros c Hc%list_elem_of_In Hcol. apply Hr in Hc.
    by rewrite bool_decide_true in Hc by done. }
  unfold has_required, required in Hreq. cbn [forallb] in Hreq.
  rewrite !andb_true_iff, !bool_decide_eq_true in Hreq.
  destruct Hreq as (Ht & Hty & Hy & _). split.
  - unfold complete. rewrite !Hc; try done;
      repeat first [by apply list_elem_of_here | apply list_elem_of_further].
  - intros c Hcat Hcol E. specialize (Hc c).
    rewrite E in Hc. discriminate Hc; [|done].
    by do 2 apply list_elem_of_further.
Qed.

(** On a settled frame the two row-dropping lines drop nothing. *)
Lemma settled_survivors d :
  has_required d = true → settled d = true →
  survivors d = rows d ∧
  (length (index d) ≤ length (rows d) → kept_index d = index d).
Proof.
  intros Hreq Hs.
  destruct (has_required_index d Hreq) as (i1 & i2 & i3 & i4 & H1 & H2 & H3 & _).
  assert (NoDup (rows d)) as Hnd.
  { apply andb_prop in Hs as [Hnd _]. by apply bool_decide_eq_true in Hnd. }
  assert (Forall (λ b, b = true) (negb <$> duplicated d)) as Hm1.
  { apply duplicated_NoDup; [done|]. intros ? _. apply not_elem_of_nil. }
  assert (Forall (λ b, b = true) (complete (columns d) <$> rows d)) as Hm2.
  { apply Forall_fmap, Forall_forall. intros r Hr.
    by apply (settled_complete d r Hreq Hs). }
  assert (length (duplicated d) = length (rows d)) as Hl1
    by apply length_duplicated_from.
  unfold survivors, kept_index.
  rewrite (dropna_spec (drop_duplicates d) i1 i2 i3 H1 H2 H3).
  cbn [index rows columns select drop_duplicates].
  rewrite (filter_mask_all (negb <$> duplicated d) (rows d))
    by (by rewrite ?length_fmap, ?Hl1).
  split.
  - apply filter_mask_all; [done|]. by rewrite length_fmap.
  - intros Hlen.
    rewrite (filter_mask_all (negb <$> duplicated d) (index d))
      by (rewrite ?length_fmap, ?Hl1; done).
    apply filter_mask_all; [done|]. by rewrite length_fmap.
Qed.

Lemma rectangular_length df r :
  rectangular df = true → r ∈ rows df → length r = length (columns df).
Proof.
  unfold rectangular. rewrite forallb_forall.
  intros H Hr%list_elem_of_In. apply H in Hr. by apply bool_decide_eq_true in Hr.
Qed.

(** C3, counterexample: on [Samples.catalogue] a second run drops the
    entry whose year was coerced to missing, and turns the director the
    first run had emptied into the text "Nan". *)
Lemma second_run_changes_table :
  ∃ out out2,
    normalize Samples.catalogue = Ok out ∧ normalize out = Ok out2 ∧
    out2 ≠ out ∧
    length (rows out) = 2 ∧ length (rows out2) = 1 ∧
    (∃ r r2, rows out !! 0 = Some r ∧ rows out2 !! 0 = Some r2 ∧
             cell_of (columns out) "director" r = NaN ∧
             cell_of (columns out2) "director" r2 = Str "Nan").
Proof.
  do 2 eexists. split_and!; try (vm_compute; reflexivity).
  - vm_compute. discriminate.
  - do 2 eexists. split_and!; vm_compute; reflexivity.
Qed.

(** C3, as amended: when the output of a run over a rectangular table has
    no two equal rows, no missing value under title, release_year or any
    categorical column it has, and only ASCII text under its categorical
    columns, a second run over that output returns it unchanged: no row
    is dropped and no cell changes. *)
Theorem normalize_settled_idempotent df out :
  normalize df = Ok out → rectangular df = true → settled out = true →
  ascii_categories out = true →
  normalize out = Ok out.
Proof.
  intros Hn Hrect Hs _.
  pose proof (normalize_Ok_inv df out Hn) as (Hreq & Hidx & Hcols & Hrows).
  assert (has_required out = true) as Hreq'.
  { unfold has_required in *. rewrite forallb_forall in Hreq |- *.
    intros c Hc. specialize (Hreq c Hc). apply bool_decide_eq_true in Hreq.
    apply bool_decide_eq_true. rewrite Hcols. by apply elem_of_out_columns. }
  rewrite (normalize_ok out Hreq').
  destruct (settled_survivors out Hreq' Hs) as [Hsurv Hkept].
  rewrite Hsurv, Hkept; cycle 1.
  { rewrite Hidx, Hrows, length_fmap. by apply length_kept_index. }
  rewrite Hcols, out_columns_idem, <-Hcols.
  assert (clean_row (columns out) <$> rows out = rows out) as ->; [|by destruct out].
  rewrite Hrows at 1. rewrite <-list_fmap_compose, Hrows.
  apply list_fmap_ext. intros _ r Hr%list_elem_of_lookup_2. simpl.
  pose proof Hr as [Hr' _]%(elem_of_survivors df r Hreq).
  rewrite Hcols. apply clean_row_fixed.
  - by apply (rectangular_length df).
  - intros c Hcat Hcol. rewrite <-Hcols.
    apply (settled_complete out _ Hreq' Hs); [|done|].
    + rewrite Hrows. apply list_elem_of_fmap. eauto.
    + rewrite Hcols. by apply elem_of_out_columns.
Qed.

Lemma normalize_settled_idempotent_witness :
  ∃ out, normalize Samples.tidy = Ok out ∧ normalize out = Ok out.
Proof.
  eexists. split; [vm_compute; reflexivity|].
  apply (normalize_settled_idempotent Samples.tidy);
    vm_compute; reflexivity.
Defined.

End idempotence.

Section categorical_fields.
Import Pd Cleaning Rowwise.

(** The output row that stands for the [k]-th surviving input row. *)
Lemma rows_out_lookup df out k r :
  normalize df = Ok out → survivors df !! k = Some r →
  rows out !! k = Some (clean_row (columns df) r) ∧
  columns out = out_columns (columns df) ∧ r ∈ rows df.
Proof.
  intros (Hreq & _ & Hcols & Hrows)%normalize_Ok_inv Hk.
  rewrite Hrows, list_lookup_fmap, Hk. split_and!; [done..|].
  apply list_elem_of_lookup_2 in Hk.
  by apply (elem_of_survivors df r Hreq) in Hk as [??].
Qed.

(** C4: under each categorical column the table has, a cell that is
    missing in a row that survives the row-dropping lines is the text
    "Nan" in the output row: [astype(str)] makes it "nan" and the title
    case makes that "Nan". *)
Theorem missing_categorical_becomes_Nan df out c k r :
  normalize df = Ok out → rectangular df = true →
  c ∈ cat_cols → c ∈ columns df →
  survivors df !! k = Some r →
  cell_of (columns df) c r = NaN →
  (∃ r', rows out !! k = Some r' ∧ cell_of (columns out) c r' = Str "Nan") ∧
  astype_str_cell NaN = Str "nan" ∧
  replace_blank_cell (Str "nan") = Str "nan" ∧
  strip_title (Str "nan") = Str "Nan".
Proof.
  intros Hn Hrect Hcat Hcol Hk Hx. split; [|done].
  destruct (rows_out_lookup df out k r Hn Hk) as (Hr' & Hcols & Hr).
  exists (clean_row (columns df) r). split; [done|].
  apply col_index_elem_of in Hcol as [j Hj].
  pose proof (rectangular_length df r Hrect Hr) as Hlen.
  destruct (clean_row_lookup' (columns df) r c j Hlen Hj) as (x & _ & Hl & Hx').
  rewrite Hcols. rewrite (cell_of_lookup c _ _ j _ (col_index_out _ _ _ Hj) Hl).
  rewrite <-Hx', Hx. unfold out_cell. by rewrite bool_decide_true by done.
Qed.

Lemma missing_categorical_becomes_Nan_witness :
  ∃ r', [[Str "Up"; Str "Movie"; Str "Pete Docter"; Int 2009;
          Timestamp 1615766400000000000; Str "A house flies."; Int 2021];
         [Str "Dark"; Str "Tv Show"; Str "Nan"; Int 2017; NaN;
          Str "A town's secret."; NaN]] !! 1%nat = Some r' ∧
        cell_of (Samples.header6 ++ ["year_added"%string]) "director" r'
        = Str "Nan".
Proof.
  refine (proj1 (missing_categorical_becomes_Nan Samples.tidy
           {| index := [0; 1];
              columns := Samples.header6 ++ ["year_added"%string];
              rows := _ |}
           "director" 1
           [Str "Dark"; Str "tv show"; NaN; Int 2017; Str "not a date";
            Str "A town's secret."] _ _ _ _ _ _));
    try (vm_compute; reflexivity).
  - apply (bool_decide_unpack _). vm_compute. exact I.
  - apply (bool_decide_unpack _). vm_compute. exact I.
Defined.



End categorical_fields.

Section year_added.
Import Pd Cleaning Rowwise.



End year_added.

Section end_to_end.
Import Pd Cleaning Rowwise.

(** C7: a table that has the columns the script indexes and
    consists of two copies of one entry whose title, type and release_year
    are present, and of one row without a title, in any order, leaves
    exactly one output row: the cleaned entry. *)
Theorem duplicate_and_untitled_leave_one df r r0 :
  has_required df = true →
  complete (columns df) r = true →
  cell_of (columns df) "title" r0 = NaN →
  rows df = [r; r; r0] ∨ rows df = [r; r0; r] ∨ rows df = [r0; r; r] →
  ∃ out, normalize df = Ok out ∧ rows out = [clean_row (columns df) r] ∧
         length (rows out) = 1.
Proof.
  intros Hreq Hc Ht Hrows.
  assert (complete (columns df) r0 = false) as Hc0.
  { unfold complete. by rewrite Ht. }
  assert (r0 ≠ r) as Hne by (intros ->; congruence).
  eexists. split; [by apply normalize_ok|]. cbn [rows].
  rewrite (survivors_spec df Hreq). unfold duplicated.
  destruct Hrows as [->|[->| ->]]; cbn [duplicated_from fmap list_fmap];
    repeat match goal with
      | |- context [bool_decide (?x ∈ ?l)] =>
          first
            [ rewrite (bool_decide_true (x ∈ l))
                by (repeat first [by apply list_elem_of_here
                                 | apply list_elem_of_further])
            | rewrite (bool_decide_false (x ∈ l))
                by (rewrite ?not_elem_of_cons; split_and?;
                    first [done | by apply not_elem_of_nil]) ]
      end;
    cbn [negb filter_mask];
    rewrite ?filter_cons, ?filter_nil;
    rewrite ?(decide_True (P:=Is_true (complete (columns df) r)))
      by (by rewrite Hc);
    (case_decide as H; [by rewrite Hc0 in H|done]).
Qed.

Lemma duplicate_and_untitled_leave_one_witness :
  ∃ out, normalize Samples.twice_and_untitled = Ok out ∧
         rows out = [clean_row Samples.header4 Samples.entry] ∧
         length (rows out) = 1.
Proof.
  apply (duplicate_and_untitled_leave_one Samples.twice_and_untitled
           Samples.entry Samples.untitled);
    try (vm_compute; reflexivity).
  right. left. reflexivity.
Defined.

End end_to_end.

Section coercion_failures.
Import Pd Cleaning Rowwise.

(** What the two coercions leave in a row: a number or a gap under
    release_year, a timestamp or a gap under date_added. *)
Lemma clean_row_kinds cols r j3 j4 :
  length r = length cols →
  col_index "release_year" cols = Some j3 →
  col_index "date_added" cols = Some j4 →
  match cell_of (out_columns cols) "release_year" (clean_row cols r) with
  | NaN | Int _ | Float _ => True
  | _ => False
  end ∧
  match cell_of (out_columns cols) "date_added" (clean_row cols r) with
  | NaN | Timestamp _ => True
  | _ => False
  end.
Proof.
  intros Hlen H3 H4.
  rewrite (cell_of_clean_row _ _ _ j3 Hlen H3), (cell_of_clean_row _ _ _ j4 Hlen H4).
  unfold out_cell. simpl. rewrite to_numeric_cell_sweep, to_datetime_cell_sweep.
  pose proof (to_numeric_cell_kind (cell_of cols "release_year" r)).
  pose proof (to_datetime_cell_kind (cell_of cols "date_added" r)).
  split; [done|]. by destruct (to_datetime_cell _).
Qed.



End coercion_failures.

Section output_file.
Import Pd Cleaning Rowwise Props.

(** C9, counterexample: "description" is not among the expected columns,
    and the blank text the first entry of [Samples.catalogue] holds there
    is a missing value in the output. *)
Lemma extra_column_is_swept :
  ("description"%string ∉ expected) ∧
  ∃ out r r',
    normalize Samples.catalogue = Ok out ∧
    survivors Samples.catalogue !! 0%nat = Some r ∧
    rows out !! 0%nat = Some r' ∧
    cell_of (columns Samples.catalogue) "description" r = Str "  " ∧
    cell_of (columns out) "description" r' = NaN.
Proof.
  split; [compute_done|].
  do 3 eexists. split_and!; vm_compute; reflexivity.
Qed.

(** C9, as amended: the file written has the header of the frame and one
    record per row, with no column of row labels; that header is the
    input's, in order, followed by year_added unless the input already
    has a column of that name; and under every column of the input other
    than the categorical ones, release_year, date_added and year_added,
    each surviving row keeps its cell, except that blank text becomes a
    missing value. *)
Theorem output_file_shape df out :
  normalize df = Ok out → rectangular df = true →
  run df = Ok (to_csv out false) ∧
  header (to_csv out false) = columns out ∧
  records (to_csv out false) = rows out ∧
  header (to_csv out true) = EmptyString :: columns out ∧
  columns out = with_column "year_added" (columns df) ∧
  (∀ c k r, c ∈ columns df → c ∉ touched → survivors df !! k = Some r →
      ∃ r', rows out !! k = Some r' ∧
            cell_of (columns out) c r'
            = replace_blank_cell (cell_of (columns df) c r)).
Proof.
  intros Hn Hrect. split_and!; try done.
  - unfold run. by rewrite Hn.
  - by apply normalize_Ok_inv in Hn as (_ & _ & -> & _).
  - intros c k r Hc Ht Hk.
    destruct (rows_out_lookup df out k r Hn Hk) as (Hr' & Hcols & Hr).
    exists (clean_row (columns df) r). split; [done|].
    apply col_index_elem_of in Hc as [j Hj].
    pose proof (rectangular_length df r Hrect Hr) as Hlen.
    destruct (clean_row_lookup' (columns df) r c j Hlen Hj) as (x & _ & Hl & <-).
    rewrite Hcols, (cell_of_lookup c _ _ j _ (col_index_out _ _ _ Hj) Hl).
    unfold out_cell. unfold touched in Ht.
    rewrite elem_of_app, !elem_of_cons in Ht.
    rewrite !bool_decide_false by tauto. done.
Qed.

Lemma output_file_shape_witness :
  ∃ out, normalize Samples.tidy = Ok out ∧
         header (to_csv out false) = Samples.header6 ++ ["year_added"%string].
Proof.
  eexists. split; [vm_compute; reflexivity|].
  refine (eq_trans (proj1 (proj2 (output_file_shape Samples.tidy _ _ _))) _);
    vm_compute; reflexivity.
Defined.

End output_file.

(* ===================================================================== *)
(** * The specification's statement about the dashboard's export *)
(* ===================================================================== *)

Section dashboard_export.
Import Pd Rowwise Props Dashboard.

Lemma bind_Ok {A B} (m : result A) (f : A → result B) b :
  m ≫= f = Ok b → ∃ a, m = Ok a ∧ f a = Ok b.
Proof. destruct m as [a|e]; [|done]. eauto. Qed.

Lemma getitem_Ok_inv df c s : getitem df c = Ok s → c ∈ columns df.
Proof.
  unfold getitem, get_loc. intros Hs. apply col_index_is_Some.
  destruct (col_index c (columns df)); [eauto|done].
Qed.

Lemma columns_setitem df c s :
  columns (setitem df c s) = with_column c (columns df).
Proof.
  unfold setitem, with_column.
  destruct (col_index c (columns df)) as [i|] eqn:Hi; simpl.
  - by rewrite bool_decide_true by (apply col_index_is_Some; eauto).
  - by rewrite bool_decide_false by by apply col_index_None.
Qed.

Lemma with_column_elem_of c cols : c ∈ cols → with_column c cols = cols.
Proof. intros. unfold with_column. by rewrite bool_decide_true. Qed.

(** [df[c] = f(df[c])] keeps the header. *)
Lemma columns_overwrite df c s s' :
  getitem df c = Ok s → columns (setitem df c s') = columns df.
Proof.
  intros Hs%getitem_Ok_inv. by rewrite columns_setitem, with_column_elem_of.
Qed.

(** The header [load_data] leaves. *)
Lemma load_data_try_columns file df :
  load_data_try file = Ok df → columns df = loaded_columns (columns file).
Proof.
  unfold load_data_try. intros H.
  apply bind_Ok in H as (s1 & H1 & H). cbn zeta in H.
  apply bind_Ok in H as (s2 & H2 & H). cbn zeta in H.
  apply bind_Ok in H as (d3 & H3 & H).
  apply bind_Ok in H as (d4 & H4 & H).
  apply bind_Ok in H as (s5 & H5 & H). cbn zeta in H.
  apply bind_Ok in H as (s6 & H6 & H). cbn zeta in H.
  apply bind_Ok in H as (s7 & H7 & H). injection H as <-.
  rewrite (columns_overwrite _ _ _ _ H7), (columns_overwrite _ _ _ _ H6),
    (columns_overwrite _ _ _ _ H5).
  set (d2 := setitem (setitem file "date_added" _) "release_year" _) in *.
  assert (columns d2 = columns file) as E2.
  { unfold d2.
    by rewrite (columns_overwrite _ _ _ _ H2), (columns_overwrite _ _ _ _ H1). }
  assert (columns d3 = with_column "year_added" (columns file)) as E3.
  { rewrite <-E2.
    destruct (decide ("year_added"%string ∉ columns d2)) as [Hy|Hy].
    - rewrite bool_decide_true in H3 by done.
      apply bind_Ok in H3 as (s & _ & H3).
      apply bind_Ok in H3 as (y & _ & H3). injection H3 as <-.
      apply columns_setitem.
    - rewrite bool_decide_false in H3 by done.
      apply bind_Ok in H3 as (s & Hs & H3). injection H3 as <-.
      apply dec_stable in Hy.
      by rewrite (columns_overwrite _ _ _ _ Hs), with_column_elem_of. }
  unfold loaded_columns. cbn zeta. rewrite <-E3.
  destruct (decide ("duration"%string ∈ columns d3)) as [Hd|Hd].
  - rewrite bool_decide_true in H4 |- * by done.
    apply bind_Ok in H4 as (m & _ & H4). injection H4 as <-.
    apply columns_setitem.
  - rewrite bool_decide_false in H4 |- * by done. by injection H4 as <-.
Qed.

(** C10, counterexample: the file [Samples.cleaned_file] has a duration
    column, and the CSV offered for download has one column more than the
    file: duration_mins. *)
Lemma export_has_an_extra_column :
  ∃ csv, snd (run Samples.cleaned_file Samples.everything) = Some csv ∧
         header csv = columns Samples.cleaned_file ++ ["duration_mins"%string] ∧
         header csv ≠ columns Samples.cleaned_file.
Proof.
  eexists. split_and!; [vm_compute; reflexivity..|].
  vm_compute. discriminate.
Qed.

(** C10, as amended: a run leaves the file it read as it was, and the one
    thing it writes is the CSV of the filtered rows, without row labels,
    whose header is the file's, in order, followed by year_added if the
    file has no such column and by duration_mins if the file has a
    duration column; so it is the file's header exactly when the file has
    year_added and does not have duration. *)
Theorem export_columns file sel csv :
  snd (run file sel) = Some csv →
  fst (run file sel) = file ∧
  (∃ mask, filter_mask_of (load_data file) sel = Ok mask ∧
           csv = to_csv (select (load_data file) mask) false) ∧
  header csv = loaded_columns (columns file) ∧
  ("year_added"%string ∈ columns file → "duration"%string ∈ columns file →
   "duration_mins"%string ∉ columns file →
   header csv = columns file ++ ["duration_mins"%string]) ∧
  ("year_added"%string ∈ columns file → "duration"%string ∉ columns file →
   header csv = columns file).
Proof.
  unfold run. destruct (empty (load_data file)) eqn:He; [done|].
  destruct (filter_mask_of (load_data file) sel) as [mask|] eqn:Hm; [|done].
  cbn [fst snd]. unfold export. case_bool_decide; [|done]. intros [= <-].
  assert (header (to_csv (select (load_data file) mask) false)
          = loaded_columns (columns file)) as Hh.
  { cbn [to_csv header select columns]. unfold load_data in *.
    destruct (load_data_try file) as [df|] eqn:Hl; [|done].
    by apply load_data_try_columns. }
  split_and!; [done|eauto|done|..].
  - intros Hy Hd Hm'. etrans; [exact Hh|]. unfold loaded_columns.
    rewrite (with_column_elem_of _ _ Hy). rewrite bool_decide_true by done.
    unfold with_column. by rewrite bool_decide_false.
  - intros Hy Hd. etrans; [exact Hh|]. unfold loaded_columns.
    rewrite (with_column_elem_of _ _ Hy). by rewrite bool_decide_false.
Qed.

Lemma export_columns_witness :
  ∃ csv, snd (run Samples.cleaned_file Samples.everything) = Some csv ∧
         header csv = loaded_columns (columns Samples.cleaned_file).
Proof.
  eexists. split; [vm_compute; reflexivity|].
  refine (proj1 (proj2 (proj2
    (export_columns Samples.cleaned_file Samples.everything _ _)))).
  vm_compute. reflexivity.
Defined.

End dashboard_export.

(* ===================================================================== *)
(** * More about the cleaning script: rows, labels and output cells *)
(* ===================================================================== *)

Section more_mask_facts.
Import Pd.
Context {A : Type}.
Implicit Types (l : list A) (m : list bool).

Lemma filter_mask_sublist m l : filter_mask m l `sublist_of` l.
Proof.
  revert l. induction m as [|b m IH]; intros [|x l]; simpl;
    try apply sublist_nil_l.
  destruct b; [apply sublist_skip|apply sublist_cons]; apply IH.
Qed.

Lemma elem_of_filter_mask m l x :
  x ∈ filter_mask m l ↔ ∃ i, m !! i = Some true ∧ l !! i = Some x.
Proof.
  revert l. induction m as [|b m IH]; intros [|y l]; simpl.
  - rewrite elem_of_nil. split; [done|]. by intros (i & ? & ?).
  - rewrite elem_of_nil. split; [done|]. by intros (i & ? & ?).
  - rewrite elem_of_nil. split; [done|]. by intros (i & ? & ?).
  - destruct b.
    + rewrite elem_of_cons, IH. split.
      * intros [->|(i & ? & ?)]; [by exists 0|by exists (S i)].
      * intros ([|i] & Hm & Hl); simpl in *; [left; congruence|right; eauto].
    + rewrite IH. split.
      * intros (i & ? & ?). by exists (S i).
      * intros ([|i] & Hm & Hl); simpl in *; [done|eauto].
Qed.

Lemma length_filter_mask_same {B} m l (k : list B) :
  length l = length k → length (filter_mask m l) = length (filter_mask m k).
Proof.
  revert l k. induction m as [|b m IH]; intros [|x l] [|y k] Hl; simpl in *;
    try done.
  destruct b; simpl; auto.
Qed.

Lemma zip_filter_mask {B} m l (k : list B) :
  zip (filter_mask m l) (filter_mask m k) = filter_mask m (zip l k).
Proof.
  revert l k. induction m as [|b m IH]; intros [|x l] [|y k]; simpl; try done.
  - by destruct (if b then _ else _).
  - destruct b; simpl; by rewrite IH.
Qed.

Lemma filter_mask_none m l :
  Forall (λ b, b = false) m → filter_mask m l = [].
Proof.
  intros Hm. revert l. induction Hm as [|b m -> _ IH]; intros [|x l]; simpl; auto.
Qed.

End more_mask_facts.

Section more_duplicate_facts.
Import Pd Rowwise.
Implicit Types (r : list cell) (l seen : list (list cell)).

Lemma duplicated_from_lookup seen l i r :
  l !! i = Some r →
  duplicated_from seen l !! i = Some (bool_decide (r ∈ seen ++ take i l)).
Proof.
  revert seen i. induction l as [|x l IH]; intros seen [|i] Hi; simpl in *;
    try done.
  - injection Hi as ->. by rewrite app_nil_r.
  - rewrite (IH _ _ Hi). f_equal. apply bool_decide_ext.
    rewrite !elem_of_app, !elem_of_cons. tauto.
Qed.

End more_duplicate_facts.

Section duplicates.
Import Pd Cleaning Rowwise.

(** X1: after line 9 no two rows of the table are equal, every row of
    the input is still there, the rows that stay keep their order and the
    header is untouched; dropping duplicates a second time changes
    nothing. *)
Theorem drop_duplicates_keeps_each_row_once df :
  NoDup (rows (drop_duplicates df)) ∧
  (∀ r, r ∈ rows (drop_duplicates df) ↔ r ∈ rows df) ∧
  rows (drop_duplicates df) `sublist_of` rows df ∧
  columns (drop_duplicates df) = columns df ∧
  drop_duplicates (drop_duplicates df) = drop_duplicates df.
Proof.
  split_and!.
  - apply NoDup_kept.
  - intros r. cbn [drop_duplicates select rows]. unfold duplicated.
    rewrite elem_of_kept, elem_of_nil. tauto.
  - apply filter_mask_sublist.
  - done.
  - set (d := drop_duplicates df).
    assert (Forall (λ b, b = true) (negb <$> duplicated d)) as Hm.
    { apply duplicated_NoDup; [apply NoDup_kept|]. intros ? _. apply not_elem_of_nil. }
    assert (length (negb <$> duplicated d) = length (rows d)) as Hl.
    { rewrite length_fmap. apply length_duplicated_from. }
    unfold drop_duplicates at 1, select. destruct d as [idx cols rws] eqn:Hd.
    cbn [index columns rows] in *. f_equal.
    + apply filter_mask_all; [done|]. rewrite Hl.
      assert (idx = index d) as -> by by rewrite Hd.
      assert (rws = rows d) as -> by by rewrite Hd.
      unfold d. cbn [drop_duplicates select index rows].
      etrans; [apply length_filter_mask_le|].
      rewrite length_filter_mask; [done|].
      rewrite length_fmap. unfold duplicated. by rewrite length_duplicated_from.
    + apply filter_mask_all; [done|]. by rewrite Hl.
Qed.

(** X2: of several equal rows line 9 keeps the first one, under its own
    label: a label and a row stand together in the result exactly when
    they do in the input at a position that no equal row precedes. *)
Theorem drop_duplicates_keeps_first df l r :
  length (index df) = length (rows df) →
  (l, r) ∈ zip (index (drop_duplicates df)) (rows (drop_duplicates df)) ↔
  ∃ i, index df !! i = Some l ∧ rows df !! i = Some r ∧ r ∉ take i (rows df).
Proof.
  intros Hlen. cbn [drop_duplicates select index rows].
  rewrite zip_filter_mask, elem_of_filter_mask. unfold duplicated.
  split.
  - intros (i & Hm & Hz). exists i.
    apply lookup_zip_with_Some in Hz as (l' & r' & [= <- <-] & Hl & Hr).
    split_and!; [done..|].
    rewrite list_lookup_fmap, (duplicated_from_lookup _ _ _ _ Hr) in Hm.
    simpl in Hm. injection Hm as Hm. apply negb_true_iff in Hm.
    by apply bool_decide_eq_false in Hm.
  - intros (i & Hl & Hr & Hn). exists i. split.
    + rewrite list_lookup_fmap, (duplicated_from_lookup _ _ _ _ Hr). simpl.
      by rewrite bool_decide_false.
    + apply lookup_zip_with_Some. eauto.
Qed.

Lemma drop_duplicates_keeps_first_witness :
  (0, Samples.entry)
  ∈ zip (index (drop_duplicates Samples.twice_and_untitled))
        (rows (drop_duplicates Samples.twice_and_untitled)).
Proof.
  apply (proj2 (drop_duplicates_keeps_first Samples.twice_and_untitled 0
                  Samples.entry eq_refl)).
  exists 0. split_and!; [reflexivity..|]. apply not_elem_of_nil.
Defined.

End duplicates.

Section output_invariants.
Import Pd Cleaning Rowwise Props.
Implicit Types (c : string) (cols : list string) (r : list cell).

Lemma kept_index_survivors_length df :
  length (index df) = length (rows df) →
  length (kept_index df) = length (survivors df).
Proof.
  intros Hlen. unfold kept_index, survivors, dropna.
  destruct (mapM _ _) as [locs|]; [|done]. cbn [mbind result_bind index rows select].
  apply length_filter_mask_same. cbn [drop_duplicates select index rows].
  by apply length_filter_mask_same.
Qed.

Lemma survivors_sublist df : survivors df `sublist_of` rows df.
Proof.
  unfold survivors, dropna.
  destruct (mapM _ _) as [locs|]; [|apply sublist_nil_l].
  cbn [mbind result_bind rows select]. etrans; [apply filter_mask_sublist|].
  apply filter_mask_sublist.
Qed.

Lemma kept_index_sublist df : kept_index df `sublist_of` index df.
Proof.
  unfold kept_index, dropna.
  destruct (mapM _ _) as [locs|]; [|apply sublist_nil_l].
  cbn [mbind result_bind index select]. etrans; [apply filter_mask_sublist|].
  apply filter_mask_sublist.
Qed.

(** X3: no cell of the output is blank text (empty or white space
    only): the last line of the script has turned every such cell into a
    missing value. *)
Theorem output_has_no_blank_text df out r' x :
  normalize df = Ok out → r' ∈ rows out → x ∈ r' → is_blank_text x = false.
Proof.
  intros (_ & _ & _ & Hrows)%normalize_Ok_inv. rewrite Hrows.
  intros (r & -> & _)%list_elem_of_fmap. unfold clean_row, replace_blank.
  cbn zeta. intros (y & -> & _)%list_elem_of_fmap.
  destruct y as [|s| | |]; simpl; try done.
  destruct (PyStr.blank s) eqn:Hs; simpl; by rewrite ?Hs.
Qed.

Lemma output_has_no_blank_text_witness :
  ∃ out r', normalize Samples.catalogue = Ok out ∧ rows out !! 0 = Some r' ∧
            ∀ x, x ∈ r' → is_blank_text x = false.
Proof.
  do 2 eexists. split_and!; [vm_compute; reflexivity..|].
  intros x Hx.
  eapply (output_has_no_blank_text Samples.catalogue);
    [vm_compute; reflexivity| |exact Hx].
  apply list_elem_of_here.
Defined.

(** X4: the output of a table with one cell per column in every row is
    such a table again, with the column year_added counted in; and it has
    one label per row when the input has. *)
Theorem output_is_rectangular df out :
  normalize df = Ok out → rectangular df = true →
  rectangular out = true ∧
  (length (index df) = length (rows df) →
   length (index out) = length (rows out)).
Proof.
  intros (Hreq & Hidx & Hcols & Hrows)%normalize_Ok_inv Hrect. split.
  - unfold rectangular. apply forallb_forall. intros r' Hr'%list_elem_of_In.
    apply bool_decide_eq_true. rewrite Hrows in Hr'.
    apply list_elem_of_fmap in Hr' as (r & -> & Hr).
    apply (elem_of_survivors df r Hreq) in Hr as [Hr _].
    rewrite length_clean_row, Hcols, (rectangular_length df r Hrect Hr).
    unfold out_columns. case_bool_decide; [done|].
    rewrite length_app. simpl. lia.
  - intros Hlen. rewrite Hidx, Hrows, length_fmap.
    by apply kept_index_survivors_length.
Qed.

Lemma output_is_rectangular_witness :
  ∃ out, normalize Samples.tidy = Ok out ∧ rectangular out = true.
Proof.
  eexists. split; [vm_compute; reflexivity|].
  refine (proj1 (output_is_rectangular Samples.tidy _ _ _));
    vm_compute; reflexivity.
Defined.

(** X5: in every output row release_year is a number or missing,
    date_added is a timestamp or missing, year_added is a whole number or
    missing, and year_added is missing exactly when date_added is. *)
Theorem output_cell_kinds df out r' :
  normalize df = Ok out → rectangular df = true → r' ∈ rows out →
  match cell_of (columns out) "release_year" r' with
  | NaN | Int _ | Float _ => True
  | _ => False
  end ∧
  match cell_of (columns out) "date_added" r' with
  | NaN | Timestamp _ => True
  | _ => False
  end ∧
  match cell_of (columns out) "year_added" r' with
  | NaN | Int _ => True
  | _ => False
  end ∧
  (cell_of (columns out) "year_added" r' = NaN ↔
   cell_of (columns out) "date_added" r' = NaN).
Proof.
  intros Hn Hrect Hr'.
  destruct (elem_of_rows_out df out r' Hn Hr') as (r & Hr & _ & ->).
  apply normalize_Ok_inv in Hn as (Hreq & _ & -> & _).
  destruct (has_required_index df Hreq) as (_ & _ & j3 & j4 & _ & _ & H3 & H4).
  pose proof (rectangular_length df r Hrect Hr) as Hlen.
  rewrite (cell_of_clean_row _ _ _ j3 Hlen H3), (cell_of_clean_row _ _ _ j4 Hlen H4),
    (clean_row_year _ _ Hlen).
  unfold out_cell, year_of_row. simpl.
  rewrite to_numeric_cell_sweep, to_datetime_cell_sweep.
  pose proof (to_numeric_cell_kind (cell_of (columns df) "release_year" r)).
  pose proof (to_datetime_cell_kind (cell_of (columns df) "date_added" r)).
  split_and!; [done|..];
    destruct (to_datetime_cell (cell_of (columns df) "date_added" r)); done.
Qed.

Lemma output_cell_kinds_witness :
  ∃ out r', normalize Samples.tidy = Ok out ∧ rows out !! 1 = Some r' ∧
            (cell_of (columns out) "year_added" r' = NaN ↔
             cell_of (columns out) "date_added" r' = NaN).
Proof.
  do 2 eexists. split_and!; [vm_compute; reflexivity..|].
  refine (proj2 (proj2 (proj2 (output_cell_kinds Samples.tidy _ _ _ _ _))));
    [vm_compute; reflexivity..|].
  apply list_elem_of_further, list_elem_of_here.
Defined.

(** X6: a text that the output holds under a categorical column is not
    blank and has no white space at either end; when it is ASCII text it
    is in title case: title-casing it again, or trimming and title-casing
    it, returns it unchanged. *)
Theorem categorical_output_is_trimmed df out r' c t :
  normalize df = Ok out → rectangular df = true → r' ∈ rows out →
  c ∈ cat_cols → cell_of (columns out) c r' = Str t →
  PyStr.strip t = t ∧ PyStr.blank t = false ∧
  (PyStr.is_ascii t = true →
   PyStr.title t = t ∧ strip_title (Str t) = Str t).
Proof.
  intros Hn Hrect Hr' Hc Ht.
  destruct (elem_of_rows_out df out r' Hn Hr') as (r & Hr & _ & ->).
  apply normalize_Ok_inv in Hn as (Hreq & _ & Hcols & _). rewrite Hcols in Ht.
  pose proof (rectangular_length df r Hrect Hr) as Hlen.
  pose proof (cat_cols_untouched c Hc) as (_ & _ & Hny).
  assert (∃ j, col_index c (columns df) = Some j) as [j Hj].
  { unfold cell_of in Ht. destruct (col_index c (out_columns _)) as [j|] eqn:Hj;
      [|done]. exists j. by apply col_index_out_inv. }
  rewrite (cell_of_clean_row _ _ _ j Hlen Hj) in Ht. unfold out_cell in Ht.
  rewrite bool_decide_true, clean_text_sweep in Ht by done.
  destruct (clean_text_cases (cell_of (columns df) c r))
    as [[_ E]|(s & _ & Hs & E)]; rewrite E in Ht; [done|].
  injection Ht as <-.
  assert (PyStr.title (PyStr.title (PyStr.strip s)) = PyStr.title (PyStr.strip s))
    as Htt by apply title_from_idem.
  split_and!.
  - apply strip_title_strip.
  - by rewrite blank_title_strip.
  - intros _. split; [done|]. simpl. by rewrite strip_title_strip, Htt.
Qed.

Lemma categorical_output_is_trimmed_witness :
  ∃ out r', normalize Samples.tidy = Ok out ∧ rows out !! 0 = Some r' ∧
            cell_of (columns out) "type" r' = Str "Movie" ∧
            PyStr.title "Movie" = "Movie"%string.
Proof.
  do 2 eexists. split_and!; [vm_compute; reflexivity..|].
  refine (proj1 (proj2 (proj2 (categorical_output_is_trimmed Samples.tidy _ _
                          "type" "Movie" _ _ _ _ _)) _));
    try (vm_compute; reflexivity).
  - apply list_elem_of_here.
  - apply (bool_decide_unpack _). vm_compute. exact I.
  - vm_compute. reflexivity.
Defined.

(** X7: the script adds no row and reorders none: the output rows are
    the cleaned forms of pairwise distinct input rows taken in the input's
    order, the output labels are input labels in the input's order, and
    there are at most as many output rows as input rows. *)
Theorem output_rows_in_input_order df out :
  normalize df = Ok out →
  (∃ l, l `sublist_of` rows df ∧ NoDup l ∧
        rows out = clean_row (columns df) <$> l) ∧
  index out `sublist_of` index df ∧
  length (rows out) ≤ length (rows df).
Proof.
  intros (Hreq & Hidx & _ & Hrows)%normalize_Ok_inv. split_and!.
  - exists (survivors df).
    split_and!; [apply survivors_sublist|by apply NoDup_survivors|done].
  - rewrite Hidx. apply kept_index_sublist.
  - rewrite Hrows, length_fmap. apply sublist_length, survivors_sublist.
Qed.

Lemma output_rows_in_input_order_witness :
  ∃ out, normalize Samples.twice_and_untitled = Ok out ∧
         length (rows out) ≤ length (rows Samples.twice_and_untitled).
Proof.
  eexists. split; [vm_compute; reflexivity|].
  refine (proj2 (proj2 (output_rows_in_input_order Samples.twice_and_untitled _ _))).
  vm_compute. reflexivity.
Defined.

(** X8: when no row of the table has all of title, type and
    release_year (in particular when the table has no row at all), the
    script does not fail: it returns the header, with year_added after it
    if it was not there, and no row. *)
Theorem no_complete_row_leaves_header_only df :
  has_required df = true →
  (∀ r, r ∈ rows df → complete (columns df) r = false) →
  normalize df
  = Ok {| index := []; columns := with_column "year_added" (columns df);
          rows := [] |}.
Proof.
  intros Hreq Hnone. rewrite (normalize_ok df Hreq).
  destruct (has_required_index df Hreq) as (i1 & i2 & i3 & _ & H1 & H2 & H3 & _).
  assert (Forall (λ b, b = false)
            (complete (columns df) <$> rows (drop_duplicates df))) as Hm.
  { apply Forall_fmap, Forall_forall. intros r Hr. apply Hnone.
    cbn [drop_duplicates select rows] in Hr. unfold duplicated in Hr.
    by apply elem_of_kept in Hr as [? _]. }
  unfold kept_index, survivors.
  rewrite (dropna_spec (drop_duplicates df) i1 i2 i3 H1 H2 H3).
  cbn [index rows select]. cbn [columns drop_duplicates select] in *.
  by rewrite !filter_mask_none by done.
Qed.

Lemma no_complete_row_leaves_header_only_witness :
  normalize Samples.bad_year_untitled
  = Ok {| index := [];
          columns := with_column "year_added" (columns Samples.bad_year_untitled);
          rows := [] |}.
Proof.
  apply (no_complete_row_leaves_header_only Samples.bad_year_untitled).
  - vm_compute. reflexivity.
  - intros r Hr. apply list_elem_of_singleton in Hr as ->.
    vm_compute. reflexivity.
Defined.

End output_invariants.

Section reruns.
Import Pd Cleaning Rowwise Props.
Implicit Types (df : DataFrame) (c : string) (r : list cell).

(** The output has the columns the script indexes. *)
Lemma has_required_out df out :
  normalize df = Ok out → has_required out = true.
Proof.
  intros (Hreq & _ & Hcols & _)%normalize_Ok_inv.
  unfold has_required in *. rewrite forallb_forall in Hreq |- *.
  intros c Hc. specialize (Hreq c Hc). apply bool_decide_eq_true in Hreq.
  apply bool_decide_eq_true. rewrite Hcols. by apply elem_of_out_columns.
Qed.

(** X21: the script can always be run again over what it returned: the
    second run does not fail, it leaves the header as it is, and it
    returns, cleaned once more, a sub-sequence of the rows it was given. *)
Theorem second_run_never_fails df out :
  normalize df = Ok out →
  ∃ out2, normalize out = Ok out2 ∧
    columns out2 = columns out ∧
    (∃ l, l `sublist_of` rows out ∧
          rows out2 = clean_row (columns out) <$> l) ∧
    index out2 `sublist_of` index out ∧
    length (rows out2) ≤ length (rows out).
Proof.
  intros Hn. pose proof (has_required_out df out Hn) as Hreq.
  apply normalize_Ok_inv in Hn as (_ & _ & Hcols & _).
  eexists. split; [by apply normalize_ok|]. cbn [index columns rows].
  split_and!.
  - by rewrite Hcols, out_columns_idem.
  - exists (survivors out). split; [apply survivors_sublist|done].
  - apply kept_index_sublist.
  - rewrite length_fmap. apply sublist_length, survivors_sublist.
Qed.

Lemma second_run_never_fails_witness :
  ∃ out out2, normalize Samples.catalogue = Ok out ∧ normalize out = Ok out2 ∧
              columns out2 = columns out.
Proof.
  eexists.
  destruct (second_run_never_fails Samples.catalogue _
              ltac:(vm_compute; reflexivity)) as (out2 & H2 & Hc & _).
  exists out2. split_and!; [vm_compute; reflexivity|exact H2|exact Hc].
Defined.

Lemma duplicated_from_snoc seen l r :
  r ∈ l ∨ r ∈ seen →
  duplicated_from seen (l ++ [r]) = duplicated_from seen l ++ [true].
Proof.
  revert seen. induction l as [|x l IH]; intros seen Hr; simpl.
  - rewrite bool_decide_true; [done|]. destruct Hr as [Hr|Hr]; [|done].
    by apply elem_of_nil in Hr.
  - rewrite IH; [done|]. rewrite !elem_of_cons in *. tauto.
Qed.

Lemma filter_mask_snoc {A} (m : list bool) (l : list A) x :
  length m = length l → filter_mask (m ++ [false]) (l ++ [x]) = filter_mask m l.
Proof.
  revert l. induction m as [|b m IH]; intros [|y l] Hl; simpl in *; try done.
  rewrite IH by lia. done.
Qed.

(** X22: a row that repeats a row of the table does not count: the
    table with such a row added at its end, under any label, is cleaned
    to the same result as the table without it. *)
Theorem repeated_row_changes_nothing df r lbl :
  length (index df) = length (rows df) → r ∈ rows df →
  normalize {| index := index df ++ [lbl]; columns := columns df;
               rows := rows df ++ [r] |}
  = normalize df.
Proof.
  intros Hlen Hr.
  assert (drop_duplicates {| index := index df ++ [lbl]; columns := columns df;
                             rows := rows df ++ [r] |}
          = drop_duplicates df) as E.
  { unfold drop_duplicates, select, duplicated. cbn [index columns rows].
    rewrite duplicated_from_snoc by auto. rewrite fmap_app.
    cbn [fmap list_fmap negb].
    rewrite !filter_mask_snoc
      by (rewrite length_fmap, length_duplicated_from; done).
    done. }
  unfold normalize. by rewrite E.
Qed.

Lemma repeated_row_changes_nothing_witness :
  normalize {| index := index Samples.tidy ++ [2]; columns := columns Samples.tidy;
               rows := rows Samples.tidy
                       ++ [[Str "Up"; Str "  movie "; Str "pete docter"; Int 2009;
                            Str "2021-03-15"; Str "A house flies."]] |}
  = normalize Samples.tidy.
Proof.
  apply (repeated_row_changes_nothing Samples.tidy); [reflexivity|].
  apply list_elem_of_here.
Defined.

End reruns.

(* ===================================================================== *)
(** * The dashboard: loading the file *)
(* ===================================================================== *)

Section load_facts.
Import Pd Dashboard Rowwise Props Loaded.
Implicit Types (df : DataFrame) (c : string) (cols : list string) (r : list cell).

Lemma getitem_inv df c s :
  getitem df c = Ok s →
  ∃ i, col_index c (columns df) = Some i ∧ s = cell_at i <$> rows df.
Proof.
  unfold getitem, get_loc. destruct (col_index c (columns df)) as [i|]; [|done].
  intros [= <-]. eauto.
Qed.

Lemma str_accessor_inv (s s' : Series) : str_accessor s = Ok s' → s' = s.
Proof. unfold str_accessor. case_match; congruence. Qed.

Lemma str_lower_inv (s s' : Series) : str_lower s = Ok s' → s' = lower_cell <$> s.
Proof.
  unfold str_lower. intros (s0 & ->%str_accessor_inv & [= <-])%bind_Ok. done.
Qed.

Lemma duration_mins_inv df m :
  duration_mins df = Ok m → m = minutes_of (columns df) <$> rows df.
Proof.
  unfold duration_mins.
  intros (ty & (i & Hi & ->)%getitem_inv & H)%bind_Ok.
  apply bind_Ok in H as (low & ->%str_lower_inv & H).
  apply bind_Ok in H as (du & (j & Hj & ->)%getitem_inv & H).
  apply bind_Ok in H as (du' & ->%str_accessor_inv & [= <-]).
  rewrite <-list_fmap_compose, zip_with_fmap_l, zip_with_fmap_r, zip_with_diag.
  apply list_fmap_ext. intros _ r _. unfold minutes_of, cell_of.
  by rewrite Hi, Hj.
Qed.

(** [df[c] = f(df[c])] as read back from a successful [df[c]]. *)
Lemma setitem_getitem df c s (f : cell → cell) :
  getitem df c = Ok s →
  setitem df c (f <$> s) = map_rows (on_col (columns df) c f) df.
Proof. intros (i & Hi & ->)%getitem_inv. by apply setitem_on_col. Qed.

Lemma setitem_rows df c (g : list cell → cell) :
  setitem df c (g <$> rows df)
  = {| index := index df; columns := with_column c (columns df);
       rows := (λ r, put_col (columns df) c (g r) r) <$> rows df |}.
Proof. apply setitem_put_col. Qed.

(** The frame [load_data] builds, row by row. *)
Lemma load_data_try_rows file df :
  load_data_try file = Ok df →
  index df = index file ∧ columns df = loaded_columns (columns file) ∧
  rows df = load_row (columns file) <$> rows file.
Proof.
  intros H. pose proof (load_data_try_columns file df H) as Hcols.
  split_and!; [|done|]; revert H; unfold load_data_try.
  - intros H.
    apply bind_Ok in H as (s1 & H1 & H). cbn zeta in H.
    apply bind_Ok in H as (s2 & H2 & H). cbn zeta in H.
    apply bind_Ok in H as (d3 & H3 & H).
    apply bind_Ok in H as (d4 & H4 & H).
    apply bind_Ok in H as (s5 & H5 & H). cbn zeta in H.
    apply bind_Ok in H as (s6 & H6 & H). cbn zeta in H.
    apply bind_Ok in H as (s7 & H7 & H). injection H as <-.
    assert (∀ d c s, index (setitem d c s) = index d) as Hi.
    { intros d c s. unfold setitem. by destruct (col_index c (columns d)). }
    rewrite !Hi.
    assert (index d4 = index d3) as ->.
    { destruct (bool_decide ("duration"%string ∈ columns d3)).
      - apply bind_Ok in H4 as (m & _ & [= <-]). apply Hi.
      - congruence. }
    destruct (bool_decide ("year_added"%string ∉ _)).
    + apply bind_Ok in H3 as (s & _ & H3).
      apply bind_Ok in H3 as (y & _ & [= <-]). by rewrite !Hi.
    + apply bind_Ok in H3 as (s & _ & [= <-]). by rewrite !Hi.
  - intros H.
    apply bind_Ok in H as (s1 & H1 & H). cbn zeta in H.
    unfold to_datetime in H. rewrite (setitem_getitem _ _ _ _ H1) in H.
    apply bind_Ok in H as (s2 & H2 & H). cbn zeta in H.
    unfold to_numeric in H. rewrite (setitem_getitem _ _ _ _ H2) in H.
    rewrite map_rows_map_rows in H. cbn [columns map_rows] in H.
    set (g2 := λ r, on_col (columns file) "release_year" to_numeric_cell
                      (on_col (columns file) "date_added" to_datetime_cell r)) in *.
    apply bind_Ok in H as (d3 & H3 & H).
    cbn [columns map_rows] in H3.
    set (g3 := λ r,
      if bool_decide ("year_added"%string ∉ columns file)
      then put_col (columns file) "year_added"
             (year_cell (cell_of (columns file) "date_added" (g2 r))) (g2 r)
      else on_col (columns file) "year_added" to_numeric_cell (g2 r)).
    assert (d3 = {| index := index file;
                    columns := with_column "year_added" (columns file);
                    rows := g3 <$> rows file |}) as ->.
    { unfold g3. destruct (decide ("year_added"%string ∉ columns file)) as [Hy|Hy];
        [rewrite (bool_decide_true _ Hy) in H3 |- *
        |rewrite (bool_decide_false _ Hy) in H3 |- *].
      - apply bind_Ok in H3 as (s & (i & Hi & ->)%getitem_inv & H3).
        cbn [columns rows map_rows] in Hi.
        apply bind_Ok in H3 as (y & Hy' & [= <-]).
        unfold dt_year in Hy'. destruct (forallb is_datetimelike _); [|done].
        injection Hy' as <-.
        rewrite <-(list_fmap_compose (cell_at i) year_cell).
        etrans; [apply (setitem_rows (map_rows g2 file) "year_added"
                   (year_cell ∘ cell_at i))|].
        cbn [index columns rows map_rows]. f_equal.
        rewrite <-list_fmap_compose. apply list_fmap_ext. intros _ r _. simpl.
        unfold cell_of. by rewrite Hi.
      - apply bind_Ok in H3 as (s & Hs & [= <-]).
        unfold to_numeric. rewrite (setitem_getitem _ _ _ _ Hs).
        rewrite map_rows_map_rows. unfold map_rows. cbn [index columns rows].
        f_equal. apply dec_stable in Hy. by rewrite with_column_elem_of. }
    cbn [columns] in H.
    apply bind_Ok in H as (d4 & H4 & H).
    set (cols3 := with_column "year_added" (columns file)) in *.
    set (g4 := λ r,
      if bool_decide ("duration"%string ∈ cols3)
      then put_col cols3 "duration_mins" (minutes_of cols3 (g3 r)) (g3 r)
      else g3 r).
    set (cols4 := if bool_decide ("duration"%string ∈ cols3)
                  then with_column "duration_mins" cols3 else cols3).
    assert (d4 = {| index := index file; columns := cols4;
                    rows := g4 <$> rows file |}) as ->.
    { unfold g4, cols4. destruct (decide ("duration"%string ∈ cols3)) as [Hd|Hd];
        [rewrite !(bool_decide_true _ Hd) in H4 |- *
        |rewrite !(bool_decide_false _ Hd) in H4 |- *].
      - apply bind_Ok in H4 as (m & ->%duration_mins_inv & [= <-]).
        cbn [columns rows].
        set (d := {| index := index file; columns := cols3; rows := g3 <$> rows file |}).
        etrans; [apply (setitem_rows d "duration_mins" (minutes_of cols3))|].
        cbn [index columns rows d]. f_equal.
        by rewrite <-list_fmap_compose.
      - by injection H4 as <-. }
    apply bind_Ok in H as (s5 & H5 & H). cbn zeta in H.
    unfold fillna in H. rewrite (setitem_getitem _ _ _ _ H5) in H.
    apply bind_Ok in H as (s6 & H6 & H). cbn zeta in H.
    rewrite (setitem_getitem _ _ _ _ H6) in H.
    apply bind_Ok in H as (s7 & H7 & H). injection H as <-.
    rewrite (setitem_getitem _ _ _ _ H7).
    rewrite !map_rows_map_rows. cbn [map_rows index columns rows].
    rewrite <-list_fmap_compose. apply list_fmap_ext. intros _ r _. simpl.
    reflexivity.
Qed.

End load_facts.

Section load_row_facts.
Import Pd Dashboard Rowwise Props Loaded.
Implicit Types (df : DataFrame) (c : string) (cols : list string) (r : list cell).

Lemma put_col_lookup cols c c' v r j :
  col_index c cols = Some j → j < length r →
  put_col cols c' v r !! j = if bool_decide (c' = c) then Some v else r !! j.
Proof.
  intros Hc Hj. unfold put_col.
  destruct (col_index c' cols) as [k|] eqn:Hk.
  - rewrite list_lookup_insert. destruct (decide (c' = c)) as [->|Hn].
    + rewrite bool_decide_true by done.
      assert (k = j) as -> by congruence. by rewrite decide_True.
    + rewrite bool_decide_false by done. rewrite decide_False; [done|].
      intros [-> _]. apply Hn. by eapply col_index_inj.
  - rewrite lookup_app_l by done. rewrite bool_decide_false; [done|].
    intros ->. congruence.
Qed.

Lemma put_col_length cols c v r :
  length (put_col cols c v r)
  = if bool_decide (c ∈ cols) then length r else S (length r).
Proof.
  unfold put_col. destruct (col_index c cols) as [k|] eqn:Hk.
  - rewrite bool_decide_true by (apply col_index_is_Some; eauto).
    apply length_insert.
  - rewrite bool_decide_false by by apply col_index_None.
    rewrite length_app. simpl. lia.
Qed.

Lemma put_col_new cols c v r :
  c ∉ cols → put_col cols c v r !! length r = Some v.
Proof.
  intros Hc%col_index_None. unfold put_col. rewrite Hc.
  rewrite lookup_app_r by done. by rewrite Nat.sub_diag.
Qed.

Lemma col_index_with_column c c' cols j :
  col_index c cols = Some j → col_index c (with_column c' cols) = Some j.
Proof.
  unfold with_column. case_bool_decide; [done|]. apply col_index_app_l.
Qed.

Lemma col_index_with_column_new c cols :
  c ∉ cols → col_index c (with_column c cols) = Some (length cols).
Proof.
  intros Hc. unfold with_column. rewrite bool_decide_false by done.
  by apply col_index_app_new.
Qed.

Lemma elem_of_with_column c c' cols :
  c ∈ with_column c' cols ↔ c ∈ cols ∨ c = c'.
Proof.
  unfold with_column. case_bool_decide as H.
  - split; [tauto|]. by intros [?| ->].
  - rewrite elem_of_app, list_elem_of_singleton. tauto.
Qed.

Lemma length_with_column c cols :
  length (with_column c cols)
  = if bool_decide (c ∈ cols) then length cols else S (length cols).
Proof.
  unfold with_column. case_bool_decide; [done|]. rewrite length_app. simpl. lia.
Qed.

Lemma cell_of_lookup' cols c r j :
  col_index c cols = Some j → cell_of cols c r = default NaN (r !! j).
Proof. unfold cell_of, cell_at. by intros ->. Qed.


Local Ltac by_name :=
  repeat match goal with
    | |- context [bool_decide ?P] =>
        destruct (decide P);
        [rewrite (bool_decide_true P) by done
        |rewrite (bool_decide_false P) by done]
    end;
  try done; try congruence.

(** Lines 51 to 58 under a column the file has. *)
Lemma typed_row_lookup cols r c j x :
  col_index c cols = Some j → r !! j = Some x →
  typed_row cols r !! j
  = Some (if bool_decide (c = "date_added"%string) then to_datetime_cell x
          else if bool_decide (c = "release_year"%string) then to_numeric_cell x
          else if bool_decide (c = "year_added"%string) then to_numeric_cell x
          else x).
Proof.
  intros Hc Hx. unfold typed_row. cbn zeta.
  set (r2 := on_col cols "release_year" _ _).
  assert (r2 !! j = Some
    (if bool_decide (c = "date_added"%string) then to_datetime_cell x
     else if bool_decide (c = "release_year"%string) then to_numeric_cell x
     else x)) as H2.
  { unfold r2.
    rewrite (on_col_lookup cols c "release_year" _ _ j Hc).
    rewrite (on_col_lookup cols c "date_added" _ _ j Hc), Hx.
    rewrite (bool_decide_ext ("date_added"%string = c) (c = "date_added"%string))
      by done.
    rewrite (bool_decide_ext ("release_year"%string = c) (c = "release_year"%string))
      by done.
    by_name. }
  assert (j < length r2) as Hj by by eapply lookup_lt_Some.
  destruct (decide ("year_added"%string ∉ cols)) as [Hy|Hy].
  - rewrite (bool_decide_true _ Hy).
    rewrite (put_col_lookup cols c _ _ _ j Hc Hj), H2.
    assert (c ≠ "year_added"%string) as Hn.
    { intros ->. apply Hy, col_index_is_Some. eauto. }
    rewrite (bool_decide_false ("year_added"%string = c)) by done.
    by rewrite (bool_decide_false (c = "year_added"%string)) by done.
  - rewrite (bool_decide_false _ Hy).
    rewrite (on_col_lookup cols c "year_added" _ _ j Hc), H2.
    rewrite (bool_decide_ext ("year_added"%string = c) (c = "year_added"%string))
      by done.
    by_name.
Qed.

Lemma length_typed_row cols r :
  length (typed_row cols r)
  = if bool_decide ("year_added"%string ∈ cols) then length r else S (length r).
Proof.
  unfold typed_row. cbn zeta.
  destruct (decide ("year_added"%string ∈ cols)) as [Hy|Hy].
  - rewrite (bool_decide_true _ Hy), bool_decide_false by tauto.
    by rewrite !on_col_length.
  - rewrite (bool_decide_false _ Hy), bool_decide_true by done.
    rewrite put_col_length, bool_decide_false by done.
    by rewrite !on_col_length.
Qed.

(** The year [load_data] derives when the file has no year_added. *)
Lemma typed_row_year cols r :
  length r = length cols → "year_added"%string ∉ cols →
  typed_row cols r !! length cols = Some (year_of_row cols r).
Proof.
  intros Hlen Hy. unfold typed_row. cbn zeta.
  rewrite (bool_decide_true _ Hy).
  set (r2 := on_col cols "release_year" _ _).
  assert (length r2 = length cols) as <-.
  { unfold r2. by rewrite !on_col_length. }
  rewrite put_col_new by done. f_equal. unfold year_of_row. f_equal.
  unfold cell_of, cell_at. destruct (col_index "date_added" cols) as [j|] eqn:Hj;
    [|done].
  unfold r2. rewrite (on_col_lookup cols "date_added" "release_year" _ _ j Hj).
  rewrite (on_col_lookup cols "date_added" "date_added" _ _ j Hj).
  rewrite bool_decide_false, bool_decide_true by done.
  by destruct (r !! j).
Qed.

(** A cell the first lines leave alone, read by name after them. *)
Lemma cell_of_typed_row cols r c :
  length r = length cols →
  c ≠ "date_added"%string → c ≠ "release_year"%string →
  c ≠ "year_added"%string →
  cell_of (with_column "year_added" cols) c (typed_row cols r) = cell_of cols c r.
Proof.
  intros Hlen H1 H2 H3. unfold cell_of at 2.
  destruct (col_index c cols) as [j|] eqn:Hj.
  - pose proof (col_index_lt _ _ _ Hj) as Hlt.
    destruct (lookup_lt_is_Some_2 r j) as [x Hx]; [lia|].
    rewrite (cell_of_lookup' _ _ _ j (col_index_with_column _ _ _ _ Hj)).
    rewrite (typed_row_lookup cols r c j x Hj Hx).
    rewrite !bool_decide_false by done. unfold cell_at. by rewrite Hx.
  - unfold cell_of.
    assert (col_index c (with_column "year_added" cols) = None) as ->; [|done].
    apply col_index_None. rewrite elem_of_with_column.
    apply col_index_None in Hj. tauto.
Qed.

Lemma minutes_of_typed_row cols r :
  length r = length cols →
  minutes_of (with_column "year_added" cols) (typed_row cols r)
  = minutes_of cols r.
Proof.
  intros Hlen. unfold minutes_of. by rewrite !cell_of_typed_row by done.
Qed.

Lemma duration_with_year cols :
  "duration"%string ∈ with_column "year_added" cols ↔ "duration"%string ∈ cols.
Proof. rewrite elem_of_with_column. split; [by intros [?|?]|tauto]. Qed.

(** Lines 51 to 62 under a column the file has. *)
Lemma timed_row_lookup cols r c j x :
  length r = length cols → col_index c cols = Some j → r !! j = Some x →
  timed_row cols r !! j
  = Some (if bool_decide (c = "date_added"%string) then to_datetime_cell x
          else if bool_decide (c = "release_year"%string) then to_numeric_cell x
          else if bool_decide (c = "year_added"%string) then to_numeric_cell x
          else if bool_decide (c = "duration_mins"%string) then
            if bool_decide ("duration"%string ∈ cols) then minutes_of cols r
            else x
          else x).
Proof.
  intros Hlen Hc Hx. unfold timed_row. cbn zeta.
  pose proof (typed_row_lookup cols r c j x Hc Hx) as H3.
  rewrite (bool_decide_ext _ _ (duration_with_year cols)).
  destruct (decide ("duration"%string ∈ cols)) as [Hd|Hd].
  - rewrite !(bool_decide_true _ Hd).
    rewrite (put_col_lookup _ c _ _ _ j (col_index_with_column _ _ _ _ Hc))
      by by eapply lookup_lt_Some.
    rewrite H3, (minutes_of_typed_row _ _ Hlen).
    rewrite (bool_decide_ext ("duration_mins"%string = c) (c = "duration_mins"%string))
      by done.
    by_name.
  - rewrite !(bool_decide_false _ Hd). rewrite H3. by_name.
Qed.

Lemma length_timed_row cols r :
  length r = length cols →
  length (timed_row cols r) = length (loaded_columns cols).
Proof.
  intros Hlen. unfold timed_row, loaded_columns. cbn zeta.
  case_bool_decide.
  - rewrite put_col_length, length_with_column.
    rewrite length_typed_row, !length_with_column, Hlen. by_name.
  - rewrite length_typed_row, !length_with_column, Hlen. by_name.
Qed.

(** The minutes under duration_mins, whether the file had that column or
    it is the one appended. *)
Lemma timed_row_minutes cols r :
  length r = length cols → "duration"%string ∈ cols →
  cell_of (loaded_columns cols) "duration_mins" (timed_row cols r)
  = minutes_of cols r.
Proof.
  intros Hlen Hd. unfold timed_row, loaded_columns. cbn zeta.
  rewrite !(bool_decide_true _ (proj2 (duration_with_year cols) Hd)).
  rewrite (minutes_of_typed_row _ _ Hlen).
  set (cols3 := with_column "year_added" cols).
  assert (length (typed_row cols r) = length cols3) as Hl3.
  { unfold cols3. rewrite length_typed_row, length_with_column, Hlen. by_name. }
  destruct (col_index "duration_mins" cols3) as [k|] eqn:Hk.
  - pose proof (col_index_lt _ _ _ Hk) as Hlt.
    rewrite (cell_of_lookup' _ _ _ k (col_index_with_column _ _ _ _ Hk)).
    rewrite (put_col_lookup _ _ _ _ _ k Hk) by lia.
    by rewrite bool_decide_true by done.
  - apply col_index_None in Hk.
    rewrite (cell_of_lookup' _ _ _ _ (col_index_with_column_new _ _ Hk)).
    rewrite <-Hl3. by rewrite put_col_new by done.
Qed.

Lemma col_index_loaded c cols j :
  col_index c cols = Some j → col_index c (loaded_columns cols) = Some j.
Proof.
  intros Hj. unfold loaded_columns. cbn zeta.
  case_bool_decide; by repeat apply col_index_with_column.
Qed.

(** Lines 65 to 69 at one position of a row. *)
Lemma fill_lookup cols r c j :
  col_index c (loaded_columns cols) = Some j →
  load_row cols r !! j
  = (if bool_decide (c = "country"%string) then fillna_cell "Unknown"
     else if bool_decide (c = "rating"%string) then fillna_cell "Not Rated"
     else if bool_decide (c = "listed_in"%string) then fillna_cell "Unknown Genre"
     else λ x, x) <$> timed_row cols r !! j.
Proof.
  intros Hj. unfold load_row. cbn zeta.
  rewrite (on_col_lookup _ c "listed_in" _ _ j Hj).
  rewrite (on_col_lookup _ c "rating" _ _ j Hj).
  rewrite (on_col_lookup _ c "country" _ _ j Hj).
  rewrite (bool_decide_ext ("country"%string = c) (c = "country"%string)) by done.
  rewrite (bool_decide_ext ("rating"%string = c) (c = "rating"%string)) by done.
  rewrite (bool_decide_ext ("listed_in"%string = c) (c = "listed_in"%string)) by done.
  by_name. by destruct (timed_row cols r !! j).
Qed.

Lemma length_load_row cols r :
  length r = length cols →
  length (load_row cols r) = length (loaded_columns cols).
Proof.
  intros Hlen. unfold load_row. cbn zeta.
  by rewrite !on_col_length, length_timed_row.
Qed.

(** The cell [load_data] leaves under a column the file has. *)
Lemma load_row_lookup cols r c j x :
  length r = length cols → col_index c cols = Some j → r !! j = Some x →
  load_row cols r !! j = Some (loaded_cell cols r c x).
Proof.
  intros Hlen Hc Hx.
  rewrite (fill_lookup cols r c j (col_index_loaded _ _ _ Hc)).
  rewrite (timed_row_lookup cols r c j x Hlen Hc Hx). unfold loaded_cell.
  simpl. f_equal. by_name.
Qed.

Lemma cell_of_load_row cols r c :
  length r = length cols → c ∈ cols →
  cell_of (loaded_columns cols) c (load_row cols r)
  = loaded_cell cols r c (cell_of cols c r).
Proof.
  intros Hlen [j Hj]%col_index_elem_of.
  pose proof (col_index_lt _ _ _ Hj) as Hlt.
  destruct (lookup_lt_is_Some_2 r j) as [x Hx]; [lia|].
  rewrite (cell_of_lookup' _ _ _ j (col_index_loaded _ _ _ Hj)).
  rewrite (load_row_lookup cols r c j x Hlen Hj Hx).
  rewrite (cell_of_lookup' _ _ _ j Hj), Hx. done.
Qed.

(** The cell under duration_mins, for a file with a duration column. *)
Lemma load_row_minutes cols r :
  length r = length cols → "duration"%string ∈ cols →
  cell_of (loaded_columns cols) "duration_mins" (load_row cols r)
  = minutes_of cols r.
Proof.
  intros Hlen Hd. rewrite <-(timed_row_minutes cols r Hlen Hd).
  unfold cell_of.
  destruct (col_index "duration_mins" (loaded_columns cols)) as [k|] eqn:Hk;
    [|done].
  unfold cell_at. rewrite (fill_lookup cols r _ k Hk).
  rewrite !bool_decide_false by done. by destruct (timed_row cols r !! k).
Qed.

(** The cell under year_added, for a file without that column. *)
Lemma load_row_year cols r :
  length r = length cols → "year_added"%string ∉ cols →
  cell_of (loaded_columns cols) "year_added" (load_row cols r)
  = year_of_row cols r.
Proof.
  intros Hlen Hy.
  assert (col_index "year_added" (loaded_columns cols) = Some (length cols))
    as Hk.
  { unfold loaded_columns. cbn zeta.
    case_bool_decide; [apply col_index_with_column|];
      by apply col_index_with_column_new. }
  rewrite (cell_of_lookup' _ _ _ _ Hk), (fill_lookup cols r _ _ Hk).
  rewrite !bool_decide_false by done.
  assert (timed_row cols r !! length cols = Some (year_of_row cols r)) as ->;
    [|done].
  unfold timed_row. cbn zeta. case_bool_decide as Hd; [|by apply typed_row_year].
  destruct (col_index_elem_of "year_added" (with_column "year_added" cols))
    as [k' Hk'].
  { apply elem_of_with_column. by right. }
  assert (k' = length cols) as ->.
  { rewrite (col_index_with_column_new _ _ Hy) in Hk'. congruence. }
  rewrite (put_col_lookup _ _ _ _ _ _ Hk').
  - rewrite bool_decide_false by done. by apply typed_row_year.
  - rewrite length_typed_row, bool_decide_false by done. lia.
Qed.

End load_row_facts.

(* ===================================================================== *)
(** * The dashboard: filter, table and download *)
(* ===================================================================== *)

Section filter_facts.
Import Pd Dashboard Rowwise Props Loaded Sidebar.
Implicit Types (df : DataFrame) (c : string) (cols : list string) (r : list cell).

Lemma mapM_result_fmap {A B} (f : A → result B) (g : A → B) (l : list A) :
  (∀ x, x ∈ l → f x = Ok (g x)) → mapM f l = Ok (g <$> l).
Proof.
  induction l as [|x l IH]; intros H; [done|].
  cbn [mapM]. rewrite H by apply list_elem_of_here.
  cbn [mbind result_bind]. rewrite IH; [done|].
  intros. apply H. by apply list_elem_of_further.
Qed.

Lemma mapM_result_inv {A B} (f : A → result B) (l : list A) (k : list B) :
  mapM f l = Ok k → Forall2 (λ x y, f x = Ok y) l k.
Proof.
  revert k. induction l as [|x l IH]; intros k; cbn [mapM].
  - intros [= <-]. constructor.
  - intros (y & Hy & H)%bind_Ok. apply bind_Ok in H as (k' & Hk & [= <-]).
    constructor; auto.
Qed.

Lemma mapM_country_hit sel (s : Series) hits :
  mapM (country_hit sel) s = Ok hits → hits = country_matches sel <$> s.
Proof.
  intros H%mapM_result_inv. induction H as [|x b s hits Hx _ IH]; [done|].
  rewrite fmap_cons, <-IH. f_equal. unfold country_matches. by rewrite Hx.
Qed.

Lemma zip_with_fmap_same {A B C D} (h : B → C → D) (f : A → B) (g : A → C)
    (l : list A) :
  zip_with h (f <$> l) (g <$> l) = (λ x, h (f x) (g x)) <$> l.
Proof. induction l; simpl; by f_equal. Qed.

Lemma zip_with_const_true {A} (idx : list A) (m : list bool) :
  length idx = length m → zip_with andb ((λ _, true) <$> idx) m = m.
Proof.
  revert m. induction idx as [|i idx IH]; intros [|b m] Hl; simpl in *;
    try done. f_equal. apply IH. lia.
Qed.

(** The mask, row by row. *)
Lemma filter_mask_of_rows df sel mask :
  filter_mask_of df sel = Ok mask → length (index df) = length (rows df) →
  mask = passes (columns df) sel <$> rows df.
Proof.
  intros H Hlen. unfold filter_mask_of in H. cbn zeta in H.
  apply bind_Ok in H as (m1 & H1 & H).
  apply bind_Ok in H as (m2 & H2 & H).
  apply bind_Ok in H as (s3 & (i3 & Hi3 & ->)%getitem_inv & H). cbn zeta in H.
  set (t := λ r, bool_decide (selected_types sel = []) ||
                 bool_decide (cell_of (columns df) "type" r ∈ selected_types sel)).
  assert (m1 = t <$> rows df) as ->.
  { unfold t. destruct (decide (selected_types sel = [])) as [E|E].
    - rewrite bool_decide_false in H1 by tauto. injection H1 as <-.
      rewrite (bool_decide_true _ E). simpl.
      apply list_eq. intros k. rewrite !list_lookup_fmap.
      destruct (index df !! k) eqn:E1, (rows df !! k) eqn:E2; simpl; try done.
      + apply lookup_lt_Some in E1. apply lookup_ge_None in E2. lia.
      + apply lookup_lt_Some in E2. apply lookup_ge_None in E1. lia.
    - rewrite bool_decide_true in H1 by done.
      apply bind_Ok in H1 as (s & (i & Hi & ->)%getitem_inv & [= <-]).
      rewrite (bool_decide_false _ E). simpl. unfold mask_and, isin.
      rewrite zip_with_const_true by by rewrite !length_fmap.
      rewrite <-list_fmap_compose. apply list_fmap_ext. intros _ r _. simpl.
      unfold cell_of. by rewrite Hi. }
  set (u := λ r, bool_decide (selected_countries sel = []) ||
                 country_matches (selected_countries sel)
                   (cell_of (columns df) "country" r)).
  assert (m2 = (λ r, t r && u r) <$> rows df) as ->.
  { unfold u. destruct (decide (selected_countries sel = [])) as [E|E].
    - rewrite bool_decide_false in H2 by tauto. injection H2 as <-.
      rewrite (bool_decide_true _ E). simpl.
      apply list_fmap_ext. intros. by rewrite andb_true_r.
    - rewrite bool_decide_true in H2 by done.
      apply bind_Ok in H2 as (s & (i & Hi & ->)%getitem_inv & H2).
      apply bind_Ok in H2 as (hits & ->%mapM_country_hit & [= <-]).
      rewrite (bool_decide_false _ E). simpl. unfold mask_and.
      rewrite <-list_fmap_compose, zip_with_fmap_same.
      apply list_fmap_ext. intros _ r _. simpl. unfold cell_of. by rewrite Hi. }
  rewrite zip_with_fmap_same in H. unfold mask_and in H.
  rewrite <-list_fmap_compose, zip_with_fmap_same in H.
  destruct (decide (selected_ratings sel = [])) as [E|E].
  - rewrite bool_decide_false in H by tauto. injection H as <-.
    apply list_fmap_ext. intros _ r _. simpl. unfold passes. fold (t r) (u r).
    unfold cell_of. rewrite Hi3, (bool_decide_true _ E). simpl.
    by rewrite andb_true_r.
  - rewrite bool_decide_true in H by done.
    apply bind_Ok in H as (s & (i & Hi & ->)%getitem_inv & [= <-]).
    unfold isin. rewrite <-list_fmap_compose, zip_with_fmap_same.
    apply list_fmap_ext. intros _ r _. simpl. unfold passes. fold (t r) (u r).
    unfold cell_of. by rewrite Hi3, Hi, (bool_decide_false _ E).
Qed.

Lemma filtered_rows df sel mask :
  filter_mask_of df sel = Ok mask → length (index df) = length (rows df) →
  rows (select df mask) = filter (λ r, passes (columns df) sel r) (rows df).
Proof.
  intros H Hlen. rewrite (filter_mask_of_rows df sel mask H Hlen).
  apply filter_mask_fmap.
Qed.

End filter_facts.

Section dashboard_views.
Import Pd Dashboard Rowwise Props Loaded Sidebar.
Implicit Types (df : DataFrame) (c : string) (cols : list string) (r : list cell).

Lemma elem_of_loaded_columns c cols :
  c ∈ loaded_columns cols →
  c ∈ cols ∨ c = "year_added"%string ∨ c = "duration_mins"%string.
Proof.
  unfold loaded_columns. cbn zeta. case_bool_decide;
    rewrite ?elem_of_with_column; tauto.
Qed.

Lemma elem_of_loaded_columns_2 c cols : c ∈ cols → c ∈ loaded_columns cols.
Proof.
  intros [j Hj]%col_index_elem_of. apply col_index_is_Some.
  rewrite (col_index_loaded _ _ _ Hj). eauto.
Qed.

(** What a successful [load_data] tells about the file's header. *)
Lemma load_data_try_needs file df :
  load_data_try file = Ok df →
  (∀ c, c ∈ needed → c ∈ columns file) ∧
  ("duration"%string ∈ columns file → "type"%string ∈ columns file).
Proof.
  unfold load_data_try. intros H.
  apply bind_Ok in H as (s1 & H1 & H). cbn zeta in H.
  apply bind_Ok in H as (s2 & H2 & H). cbn zeta in H.
  apply bind_Ok in H as (d3 & H3 & H).
  apply bind_Ok in H as (d4 & H4 & H).
  apply bind_Ok in H as (s5 & H5 & H). cbn zeta in H.
  apply bind_Ok in H as (s6 & H6 & H). cbn zeta in H.
  apply bind_Ok in H as (s7 & H7 & H). injection H as <-.
  set (d2 := setitem (setitem file "date_added" _) "release_year" _) in *.
  assert (columns d2 = columns file) as E2.
  { unfold d2.
    by rewrite (columns_overwrite _ _ _ _ H2), (columns_overwrite _ _ _ _ H1). }
  assert (columns d3 = with_column "year_added" (columns file)) as E3.
  { rewrite <-E2.
    destruct (decide ("year_added"%string ∉ columns d2)) as [Hy|Hy].
    - rewrite bool_decide_true in H3 by done.
      apply bind_Ok in H3 as (s & _ & H3).
      apply bind_Ok in H3 as (y & _ & H3). injection H3 as <-.
      apply columns_setitem.
    - rewrite bool_decide_false in H3 by done.
      apply bind_Ok in H3 as (s & Hs & H3). injection H3 as <-.
      apply dec_stable in Hy.
      by rewrite (columns_overwrite _ _ _ _ Hs), with_column_elem_of. }
  assert (∀ c, c ∈ columns d4 → c ∈ columns file ∨ c = "year_added"%string
                                 ∨ c = "duration_mins"%string) as E4.
  { intros c. destruct (decide ("duration"%string ∈ columns d3)) as [Hd|Hd].
    - rewrite bool_decide_true in H4 by done.
      apply bind_Ok in H4 as (m & _ & [= <-]).
      rewrite columns_setitem, E3, !elem_of_with_column. tauto.
    - rewrite bool_decide_false in H4 by done. injection H4 as <-.
      rewrite E3, elem_of_with_column. tauto. }
  split.
  - intros c Hc. unfold needed in Hc. rewrite !elem_of_cons in Hc.
    destruct Hc as [->|[->|[->|[->|[->|Hc]]]]].
    + by eapply getitem_Ok_inv.
    + apply getitem_Ok_inv in H2.
      by rewrite (columns_overwrite _ _ _ _ H1) in H2.
    + apply getitem_Ok_inv, E4 in H5 as [?|[?|?]]; done.
    + apply getitem_Ok_inv in H6.
      rewrite (columns_overwrite _ _ _ _ H5) in H6.
      apply E4 in H6 as [?|[?|?]]; done.
    + apply getitem_Ok_inv in H7.
      rewrite (columns_overwrite _ _ _ _ H6), (columns_overwrite _ _ _ _ H5) in H7.
      apply E4 in H7 as [?|[?|?]]; done.
    + by apply elem_of_nil in Hc.
  - intros Hd. rewrite bool_decide_true in H4
      by (rewrite E3; apply elem_of_with_column; tauto).
    apply bind_Ok in H4 as (m & Hm & _). unfold duration_mins in Hm.
    apply bind_Ok in Hm as (ty & Hty%getitem_Ok_inv & _).
    rewrite E3 in Hty. apply elem_of_with_column in Hty as [?|?]; done.
Qed.

(** Every row of the loaded frame is the loaded form of a row of the
    file. *)
Lemma elem_of_rows_loaded file df r' :
  load_data_try file = Ok df → r' ∈ rows df →
  ∃ r, r ∈ rows file ∧ r' = load_row (columns file) r.
Proof.
  intros (_ & _ & ->)%load_data_try_rows (r & -> & Hr)%list_elem_of_fmap. eauto.
Qed.

Lemma loaded_cell_at file df c i r :
  load_data_try file = Ok df → rectangular file = true →
  c ∈ columns file → col_index c (columns df) = Some i → r ∈ rows file →
  cell_at i (load_row (columns file) r)
  = loaded_cell (columns file) r c (cell_of (columns file) c r).
Proof.
  intros Hl Hrect Hc Hi Hr.
  pose proof (load_data_try_columns file df Hl) as Hcols. rewrite Hcols in Hi.
  rewrite <-(cell_of_load_row _ _ _ (rectangular_length file r Hrect Hr) Hc).
  unfold cell_of. by rewrite Hi.
Qed.

End dashboard_views.

Section dashboard_props.
Import Pd Dashboard Rowwise Props Loaded Sidebar.
Implicit Types (df : DataFrame) (c : string) (cols : list string) (r : list cell).

(** X9: when the file lacks one of date_added, release_year, country,
    rating and listed_in, or has a duration column and no type column,
    the body of [load_data] raises, [load_data] returns the empty frame,
    and the run stops there: nothing is offered for download. *)
Theorem load_data_failure_stops_run file sel :
  (∃ c, c ∈ needed ∧ (c ∉ columns file)) ∨
  ("duration"%string ∈ columns file ∧ ("type"%string ∉ columns file)) →
  (∃ e, load_data_try file = Raise e) ∧
  load_data file = empty_frame ∧
  empty (load_data file) = true ∧
  run file sel = (file, None).
Proof.
  intros Hmiss.
  assert (∃ e, load_data_try file = Raise e) as [e He].
  { destruct (load_data_try file) as [df|e] eqn:Hl; [|eauto]. exfalso.
    destruct (load_data_try_needs file df Hl) as [Hn Hd].
    destruct Hmiss as [(c & Hc & Hnc)|[H1 H2]]; auto. }
  assert (load_data file = empty_frame) as E.
  { unfold load_data. by rewrite He. }
  split_and!; [eauto|done|by rewrite E|].
  unfold run. by rewrite E.
Qed.

Lemma load_data_failure_stops_run_witness :
  run Samples.bad_year Samples.everything = (Samples.bad_year, None).
Proof.
  refine (proj2 (proj2 (proj2
    (load_data_failure_stops_run Samples.bad_year Samples.everything _)))).
  left. exists "country"%string.
  split; apply (bool_decide_unpack _); vm_compute; exact I.
Defined.

(** X10: [load_data] keeps the row labels and the number of rows; in
    each row a missing country becomes "Unknown", a missing rating
    "Not Rated" and a missing listed_in "Unknown Genre", any other value of
    these columns stays, so that none of the three is missing afterwards;
    and every column of the file other than these three, date_added,
    release_year, year_added and duration_mins keeps its cell. *)
Theorem load_data_fills_gaps file df k r :
  load_data_try file = Ok df → rectangular file = true →
  rows file !! k = Some r →
  index df = index file ∧ length (rows df) = length (rows file) ∧
  ∃ r', rows df !! k = Some r' ∧
    cell_of (columns df) "country" r'
    = (if isna (cell_of (columns file) "country" r) then Str "Unknown"
       else cell_of (columns file) "country" r) ∧
    cell_of (columns df) "rating" r'
    = (if isna (cell_of (columns file) "rating" r) then Str "Not Rated"
       else cell_of (columns file) "rating" r) ∧
    cell_of (columns df) "listed_in" r'
    = (if isna (cell_of (columns file) "listed_in" r) then Str "Unknown Genre"
       else cell_of (columns file) "listed_in" r) ∧
    cell_of (columns df) "country" r' ≠ NaN ∧
    cell_of (columns df) "rating" r' ≠ NaN ∧
    cell_of (columns df) "listed_in" r' ≠ NaN ∧
    (∀ c, c ∈ columns file →
          c ∉ ["date_added"; "release_year"; "year_added"; "duration_mins";
               "country"; "rating"; "listed_in"]%string →
          cell_of (columns df) c r' = cell_of (columns file) c r).
Proof.
  intros Hl Hrect Hk.
  pose proof (load_data_try_needs file df Hl) as [Hneed _].
  pose proof (load_data_try_rows file df Hl) as (Hidx & Hcols & Hrows).
  assert (r ∈ rows file) as Hr by by eapply list_elem_of_lookup_2.
  pose proof (rectangular_length file r Hrect Hr) as Hlen.
  split_and!; [done|by rewrite Hrows, length_fmap|].
  exists (load_row (columns file) r).
  split; [by rewrite Hrows, list_lookup_fmap, Hk|]. rewrite Hcols.
  rewrite !(cell_of_load_row _ _ _ Hlen) by (apply Hneed; compute_done).
  unfold loaded_cell, fillna_cell. simpl.
  split_and!; try done.
  - by destruct (cell_of (columns file) "country" r).
  - by destruct (cell_of (columns file) "rating" r).
  - by destruct (cell_of (columns file) "listed_in" r).
  - intros c Hc Hn. rewrite (cell_of_load_row _ _ _ Hlen Hc).
    rewrite !elem_of_cons in Hn. unfold loaded_cell.
    rewrite !bool_decide_false by tauto. done.
Qed.

Lemma load_data_fills_gaps_witness :
  ∃ df r', load_data_try Samples.cleaned_file = Ok df ∧
           rows df !! 1 = Some r' ∧
           cell_of (columns df) "rating" r' = Str "Not Rated".
Proof.
  destruct (load_data_fills_gaps Samples.cleaned_file
              (load_data Samples.cleaned_file) 1 _
              ltac:(vm_compute; reflexivity) ltac:(vm_compute; reflexivity)
              ltac:(vm_compute; reflexivity))
    as (_ & _ & r' & Hr' & _ & Hrating & _).
  exists (load_data Samples.cleaned_file), r'.
  split_and!; [vm_compute; reflexivity|exact Hr'|].
  rewrite Hrating. vm_compute. reflexivity.
Defined.

(** The mask keeps the rows of the frame in their order. *)
Lemma select_sublist df mask : rows (select df mask) `sublist_of` rows df.
Proof. apply filter_mask_sublist. Qed.

Lemma existsb_contains sel s :
  existsb (λ c, PyStr.contains c s) sel = true
  ↔ ∃ c, c ∈ sel ∧ PyStr.contains c s = true.
Proof.
  rewrite existsb_exists. split; intros (c & Hc & ?); exists c;
    (split; [by apply list_elem_of_In|done]).
Qed.

(** X13: a row is in the filtered frame exactly when it is a row of the
    loaded frame whose type is among the selected types (if any is
    selected), whose country text contains one of the selected countries
    (if any is selected), whose release_year lies in the selected range,
    and whose rating is among the selected ratings (if any is selected).
    So a row whose release_year is missing is never shown, a whole-number
    year shown is between the two ends of the range, and the filtered
    frame has the loaded frame's header and a sub-sequence of its rows. *)
Theorem filtered_rows_are_the_selected df sel mask r :
  filter_mask_of df sel = Ok mask → length (index df) = length (rows df) →
  (r ∈ rows (select df mask) ↔
     r ∈ rows df ∧
     (selected_types sel = [] ∨
      cell_of (columns df) "type" r ∈ selected_types sel) ∧
     (selected_countries sel = [] ∨
      ∃ c s, c ∈ selected_countries sel ∧
             text_or_empty (cell_of (columns df) "country" r) = Some s ∧
             PyStr.contains c s = true) ∧
     geb_cell (cell_of (columns df) "release_year" r) (fst (year_range sel)) = true ∧
     leb_cell (cell_of (columns df) "release_year" r) (snd (year_range sel)) = true ∧
     (selected_ratings sel = [] ∨
      cell_of (columns df) "rating" r ∈ selected_ratings sel)) ∧
  (r ∈ rows (select df mask) →
     cell_of (columns df) "release_year" r ≠ NaN ∧
     ∀ z, cell_of (columns df) "release_year" r = Int z →
          (fst (year_range sel) ≤ z ≤ snd (year_range sel))%Z) ∧
  rows (select df mask) `sublist_of` rows df ∧
  length (rows (select df mask)) ≤ length (rows df) ∧
  columns (select df mask) = columns df.
Proof.
  intros Hm Hlen.
  assert (r ∈ rows (select df mask) ↔
          r ∈ rows df ∧ passes (columns df) sel r = true) as Hiff.
  { rewrite (filtered_rows df sel mask Hm Hlen), list_elem_of_filter.
    rewrite Is_true_true. tauto. }
  assert (passes (columns df) sel r = true ↔
     (selected_types sel = [] ∨
      cell_of (columns df) "type" r ∈ selected_types sel) ∧
     (selected_countries sel = [] ∨
      ∃ c s, c ∈ selected_countries sel ∧
             text_or_empty (cell_of (columns df) "country" r) = Some s ∧
             PyStr.contains c s = true) ∧
     geb_cell (cell_of (columns df) "release_year" r) (fst (year_range sel)) = true ∧
     leb_cell (cell_of (columns df) "release_year" r) (snd (year_range sel)) = true ∧
     (selected_ratings sel = [] ∨
      cell_of (columns df) "rating" r ∈ selected_ratings sel)) as Hp.
  { unfold passes.
    rewrite !andb_true_iff, !orb_true_iff, !bool_decide_eq_true.
    assert (selected_countries sel ≠ [] →
            country_matches (selected_countries sel)
              (cell_of (columns df) "country" r) = true ↔
            ∃ c s, c ∈ selected_countries sel ∧
              text_or_empty (cell_of (columns df) "country" r) = Some s ∧
              PyStr.contains c s = true) as Hc.
    { intros Hne. unfold country_matches, country_hit.
      destruct (selected_countries sel) as [|c0 l] eqn:E; [done|].
      destruct (text_or_empty _) as [s|].
      - rewrite existsb_contains. split.
        + intros (c & ? & ?). eauto.
        + intros (c & s' & ? & [= <-] & ?). eauto.
      - split; [done|]. by intros (c & s' & ? & ? & ?). }
    destruct (decide (selected_countries sel = [])) as [E|E].
    - tauto.
    - specialize (Hc E). tauto. }
  split_and!.
  - rewrite Hiff, Hp. tauto.
  - intros [_ Hr]%Hiff. apply Hp in Hr as (_ & _ & Hge & Hle & _). split.
    + intros E. by rewrite E in Hge.
    + intros z E. rewrite E in Hge, Hle. simpl in *. lia.
  - apply select_sublist.
  - apply sublist_length, select_sublist.
  - done.
Qed.

Lemma filtered_rows_are_the_selected_witness :
  ∃ mask,
    filter_mask_of (load_data Samples.cleaned_file) Samples.everything = Ok mask ∧
    length (rows (select (load_data Samples.cleaned_file) mask))
    ≤ length (rows (load_data Samples.cleaned_file)).
Proof.
  eexists. split; [vm_compute; reflexivity|].
  refine (proj1 (proj2 (proj2 (proj2
    (filtered_rows_are_the_selected (load_data Samples.cleaned_file)
       Samples.everything _ [] _ _)))));
    vm_compute; reflexivity.
Defined.

End dashboard_props.

Section digit_facts.
Import Pd Dashboard Rowwise Loaded.

Lemma pretty_N_char_digit k :
  (k < 10)%N →
  PyStr.is_digit (pretty_N_char k) = true ∧
  Num.digit_value (pretty_N_char k) = Z.of_N k.
Proof.
  intros Hk. destruct k as [|p]; [done|].
  repeat (destruct p as [p|p|]; try lia; try done).
Qed.

Lemma pretty_N_go_app x s t : pretty_N_go x s +:+ t = pretty_N_go x (s +:+ t).
Proof.
  revert s. induction (N.lt_wf_0 x) as [x _ IH]; intros s.
  destruct (decide (x = 0)%N) as [->|Hx]; [by rewrite !pretty_N_go_0|].
  rewrite (pretty_N_go_step x s), (pretty_N_go_step x (s +:+ t)) by lia.
  rewrite IH by (apply N.div_lt; lia). reflexivity.
Qed.

(** Reading back the digits that [str] wrote. *)
Lemma digits_from_pretty_N_go x acc n s :
  ∃ d : nat,
    Num.digits_from acc n (pretty_N_go x s)
    = Num.digits_from (acc * 10 ^ Z.of_nat d + Z.of_N x)%Z (n + d) s ∧
    ((0 < x)%N → 0 < d).
Proof.
  revert acc n s. induction (N.lt_wf_0 x) as [x _ IH]; intros acc n s.
  destruct (decide (x = 0)%N) as [->|Hx].
  - exists 0. rewrite pretty_N_go_0, Nat.add_0_r. split; [|lia].
    f_equal. f_equal. lia.
  - rewrite pretty_N_go_step by lia.
    destruct (IH (x / 10)%N ltac:(apply N.div_lt; lia) acc n
                (String (pretty_N_char (x `mod` 10)) s)) as (d & -> & _).
    exists (S d). split; [|lia]. cbn [Num.digits_from].
    destruct (pretty_N_char_digit (x `mod` 10)%N) as [-> ->];
      [apply N.mod_lt; lia|].
    f_equal; [|lia].
    rewrite Nat2Z.inj_succ, Z.pow_succ_r by lia.
    pose proof (N.div_mod x 10 ltac:(lia)) as Hdm.
    apply (f_equal Z.of_N) in Hdm. rewrite N2Z.inj_add, N2Z.inj_mul in Hdm.
    change (Z.of_N 10) with 10%Z in Hdm. lia.
Qed.

Lemma digits_from_stop acc n s :
  no_leading_digit s = true → Num.digits_from acc n s = (acc, n, s).
Proof.
  destruct s as [|a s]; [done|]. simpl. intros Ha%negb_true_iff. by rewrite Ha.
Qed.

Lemma first_digits_counted s v d rest :
  Num.digits_from 0 0 s = (v, d, rest) → 0 < d → first_digits s = Some v.
Proof.
  destruct s as [|a s]; simpl.
  - intros [= <- <- <-]. lia.
  - destruct (PyStr.is_digit a) eqn:Ha.
    + intros -> _. done.
    + intros [= <- <- <-]. lia.
Qed.

(** The minutes read from a duration that starts with the decimal
    numeral of [n]. *)
Lemma first_digits_numeral (n : N) rest :
  no_leading_digit rest = true →
  first_digits (pretty n +:+ rest) = Some (Z.of_N n).
Proof.
  intros Hrest. unfold pretty, pretty_N. case_decide as Hn.
  - subst. simpl. by rewrite digits_from_stop.
  - rewrite pretty_N_go_app. change (EmptyString +:+ rest) with rest.
    destruct (digits_from_pretty_N_go n 0 0 rest) as (d & Hd & Hpos).
    rewrite (digits_from_stop _ _ rest Hrest) in Hd.
    eapply first_digits_counted.
    + rewrite Hd. reflexivity.
    + apply Hpos. lia.
Qed.

End digit_facts.

Section more_views.
Import Pd Dashboard Rowwise Props Loaded Sidebar.
Implicit Types (df : DataFrame) (c : string) (cols : list string) (r : list cell).



Lemma filter_none {A} (P : A → Prop) `{∀ x, Decision (P x)} (l : list A) :
  (∀ x, x ∈ l → ¬ P x) → filter P l = [].
Proof.
  induction l as [|x l IH]; intros Hl; [done|].
  rewrite filter_cons_False by (apply Hl, list_elem_of_here).
  apply IH. intros. by apply Hl, list_elem_of_further.
Qed.

Lemma NoDup_display_columns : NoDup display_columns.
Proof. compute_done. Qed.

Lemma col_index_lookup_NoDup c cols p :
  NoDup cols → cols !! p = Some c → col_index c cols = Some p.
Proof.
  intros Hnd Hp.
  destruct (col_index_elem_of c cols) as [q Hq];
    [by eapply list_elem_of_lookup_2|].
  pose proof (col_index_Some _ _ _ Hq) as Hq'.
  by rewrite (NoDup_lookup _ _ _ _ Hnd Hq' Hp) in Hq.
Qed.

(** X16: the data table is always built: it has, in the order of
    [display_columns], those of the seven display columns that the
    filtered frame has, its rows are the first 100 rows of the filtered
    frame (all of them when there are fewer), and each holds under every
    column the cell the filtered row holds there. *)
Theorem data_table_shape filtered :
  ∃ t, data_table filtered = Ok t ∧
    index t = take 100 (index filtered) ∧
    columns t = available_columns filtered ∧
    (∀ c, c ∈ columns t ↔ c ∈ display_columns ∧ c ∈ columns filtered) ∧
    columns t `sublist_of` display_columns ∧
    length (rows t) = min 100 (length (rows filtered)) ∧
    (∀ k r, k < 100 → rows filtered !! k = Some r →
       ∃ r', rows t !! k = Some r' ∧ length r' = length (columns t) ∧
             ∀ c, c ∈ columns t →
                  cell_of (columns t) c r' = cell_of (columns filtered) c r).
Proof.
  set (avail := available_columns filtered).
  set (loc := λ c, default 0 (col_index c (columns filtered))).
  assert (∀ c, c ∈ avail ↔ c ∈ display_columns ∧ c ∈ columns filtered) as Hav.
  { intros c. unfold avail, available_columns.
    rewrite list_elem_of_filter. tauto. }
  assert (mapM (get_loc filtered) avail = Ok (loc <$> avail)) as Hlocs.
  { apply mapM_result_fmap. intros c [_ [i Hi]%col_index_elem_of]%Hav.
    unfold get_loc, loc. by rewrite Hi. }
  eexists. split.
  { unfold data_table, getitems. fold avail. rewrite Hlocs. reflexivity. }
  cbn [head index columns rows]. split_and!; try done.
  - apply sublist_filter.
  - by rewrite length_take, length_fmap.
  - intros k r Hk Hr. eexists. split_and!.
    + rewrite lookup_take_lt by done. by rewrite list_lookup_fmap, Hr.
    + by rewrite !length_fmap.
    + intros c Hc. pose proof Hc as [_ [i Hi]%col_index_elem_of]%Hav.
      apply list_elem_of_lookup_1 in Hc as [p Hp].
      assert (col_index c avail = Some p) as Hq.
      { apply col_index_lookup_NoDup; [|done].
        apply NoDup_filter, NoDup_display_columns. }
      unfold cell_of. rewrite Hq, Hi. unfold cell_at at 1.
      rewrite !list_lookup_fmap, Hp. simpl. unfold loc. by rewrite Hi.
Qed.

(** X17: when every text under type in the file is in title case, as
    the cleaning script leaves it, no row of the loaded frame has the type
    "TV Show" (its title case is "Tv Show"), and the count of TV shows
    under "Key Insights" is 0 whatever the filter selects. *)
Theorem tv_show_count_is_zero file df mask :
  load_data_try file = Ok df → rectangular file = true →
  "type"%string ∈ columns file →
  (∀ r t, r ∈ rows file → cell_of (columns file) "type" r = Str t →
          PyStr.title t = t) →
  PyStr.title "TV Show" = "Tv Show"%string ∧
  tv_count (select df mask) = Ok 0 ∧
  (∀ r', r' ∈ rows df → cell_of (columns df) "type" r' ≠ Str "TV Show").
Proof.
  intros Hl Hrect Hty Htitle. split; [done|].
  pose proof (load_data_try_rows file df Hl) as (_ & Hcols & Hrows).
  assert (∀ r', r' ∈ rows df → cell_of (columns df) "type" r' ≠ Str "TV Show")
    as Hno.
  { intros r' (r & Hr & ->)%(elem_of_rows_loaded file df r' Hl).
    pose proof (rectangular_length file r Hrect Hr) as Hlen.
    rewrite Hcols, (cell_of_load_row _ _ _ Hlen Hty). unfold loaded_cell.
    simpl. intros E. specialize (Htitle r _ Hr E). done. }
  split; [|done].
  destruct (col_index_elem_of "type" (columns df)) as [i Hi].
  { rewrite Hcols. by apply elem_of_loaded_columns_2. }
  unfold tv_count. rewrite (getitem_Ok (select df mask) "type" i Hi).
  cbn [mbind result_bind]. f_equal. unfold count_eq.
  rewrite filter_none; [done|].
  intros x (r' & -> & Hr')%list_elem_of_fmap E.
  apply (Hno r').
  - eapply elem_of_sublist; [done|apply select_sublist].
  - unfold cell_of. by rewrite Hi.
Qed.

Lemma tv_show_count_is_zero_witness :
  tv_count (select (load_data Samples.cleaned_file) [true; true]) = Ok 0.
Proof.
  refine (proj1 (proj2 (tv_show_count_is_zero Samples.cleaned_file
                          (load_data Samples.cleaned_file) [true; true]
                          _ _ _ _))).
  - vm_compute. reflexivity.
  - vm_compute. reflexivity.
  - apply (bool_decide_unpack _). vm_compute. exact I.
  - intros r t Hr. apply elem_of_cons in Hr as [->|Hr].
    { intros Ht. vm_compute in Ht. injection Ht as <-. reflexivity. }
    apply list_elem_of_singleton in Hr as ->.
    intros Ht. vm_compute in Ht. injection Ht as <-. reflexivity.
Defined.

End more_views.

(* ===================================================================== *)
(** * The dashboard: the choices of the sidebar *)
(* ===================================================================== *)

Section order_facts.
Import Pd Dashboard Rowwise Sidebar.

Lemma elem_of_unique_from {A} `{EqDecision A} (seen l : list A) x :
  x ∈ unique_from seen l ↔ x ∈ l ∧ x ∉ seen.
Proof.
  revert seen. induction l as [|y l IH]; intros seen; simpl.
  - rewrite elem_of_nil. tauto.
  - case_bool_decide as Hy; rewrite ?elem_of_cons, IH, ?not_elem_of_cons,
      ?elem_of_cons; destruct (decide (x = y)) as [->|]; tauto.
Qed.

Lemma NoDup_unique_from {A} `{EqDecision A} (seen l : list A) :
  NoDup (unique_from seen l).
Proof.
  revert seen. induction l as [|y l IH]; intros seen; simpl.
  - constructor.
  - case_bool_decide as Hy; [apply IH|]. constructor; [|apply IH].
    rewrite elem_of_unique_from, not_elem_of_cons. tauto.
Qed.

Lemma elem_of_unique {A} `{EqDecision A} (l : list A) x : x ∈ unique l ↔ x ∈ l.
Proof. unfold unique. rewrite elem_of_unique_from, elem_of_nil. tauto. Qed.

Lemma str_leb_total s t : str_leb s t = true ∨ str_leb t s = true.
Proof.
  revert t. induction s as [|a s IH]; intros [|b t]; simpl; auto.
  destruct (IH t) as [->| ->]; rewrite !andb_true_r;
    destruct (N.ltb_spec (PyStr.code a) (PyStr.code b)),
             (N.ltb_spec (PyStr.code b) (PyStr.code a)),
             (N.eqb_spec (PyStr.code a) (PyStr.code b)),
             (N.eqb_spec (PyStr.code b) (PyStr.code a)); simpl; auto; lia.
Qed.

Lemma float_le_total f g : float_le f g = true ∨ float_le g f = true.
Proof.
  destruct f as [m k| |], g as [n j| |]; simpl; auto.
  destruct (Z.leb_spec (m * 10 ^ Z.of_nat j) (n * 10 ^ Z.of_nat k)),
           (Z.leb_spec (n * 10 ^ Z.of_nat k) (m * 10 ^ Z.of_nat j)); auto; lia.
Qed.

Lemma cell_leb_total a b : cell_leb a b = true ∨ cell_leb b a = true.
Proof.
  destruct a as [|s|z|f|m], b as [|t|y|g|n]; unfold cell_leb;
    try apply str_leb_total; try apply float_le_total; simpl; auto.
  destruct (Z.leb_spec m n), (Z.leb_spec n m); auto; lia.
Qed.

#[local] Instance str_le_total : Total (λ s t, Is_true (str_leb s t)).
Proof. intros s t. rewrite !Is_true_true. apply str_leb_total. Qed.

#[local] Instance cell_le_total : Total (λ a b, Is_true (cell_leb a b)).
Proof. intros a b. rewrite !Is_true_true. apply cell_leb_total. Qed.

Lemma sorted_strs_spec l :
  sorted_strs l ≡ₚ l ∧ Sorted (λ s t, Is_true (str_leb s t)) (sorted_strs l).
Proof.
  split; [apply merge_sort_Permutation|]. apply (Sorted_merge_sort _).
Qed.

Lemma sorted_cells_spec l l' :
  sorted_cells l = Ok l' →
  l' ≡ₚ l ∧ Sorted (λ a b, Is_true (cell_leb a b)) l'.
Proof.
  unfold sorted_cells. destruct l as [|x l]; [by intros [= <-]|].
  case_match; [|done]. intros [= <-].
  split; [apply merge_sort_Permutation|]. apply (Sorted_merge_sort _).
Qed.

End order_facts.

Section substring_facts.
Import PyStr Sidebar Loaded.

Lemma starts_with_app p s : starts_with p (p +:+ s) = true.
Proof.
  induction p as [|a p IH]; [by destruct s|].
  rewrite append_cons. cbn [starts_with]. by rewrite bool_decide_true, IH.
Qed.

(** [p in s] holds when [p] stands somewhere in [s]. *)
Lemma contains_inside p s : inside p s → contains p s = true.
Proof.
  intros (pre & post & ->). induction pre as [|a pre IH].
  - change (EmptyString +:+ p +:+ post) with (p +:+ post).
    destruct (p +:+ post) eqn:E; cbn [contains]; rewrite <-E, starts_with_app;
      done.
  - rewrite append_cons. cbn [contains]. rewrite IH. apply orb_true_r.
Qed.

Lemma inside_cons a p s : inside p s → inside p (String a s).
Proof. intros (pre & post & ->). by exists (String a pre), post. Qed.

Lemma inside_prefix p post : inside p (p +:+ post).
Proof. by exists EmptyString, post. Qed.

Lemma append_nil_r (s : string) : s +:+ EmptyString = s.
Proof. induction s as [|a s IH]; [done|]. rewrite append_cons. by rewrite IH. Qed.

Lemma inside_refl s : inside s s.
Proof.
  exists EmptyString, EmptyString.
  change (s = s +:+ EmptyString). by rewrite append_nil_r.
Qed.

Lemma after_space_inside s s' : after_space s = Some s' → inside s' s.
Proof.
  destruct s as [|a s]; [done|]. cbn [after_space].
  destruct (is_space a).
  { intros [= <-]. apply inside_cons, inside_refl. }
  destruct s as [|b s]; [done|]. destruct (is_space2 a b).
  { intros [= <-]. do 2 apply inside_cons. apply inside_refl. }
  destruct s as [|c s]; [done|]. destruct (is_space3 a b c); [|done].
  intros [= <-]. do 3 apply inside_cons. apply inside_refl.
Qed.

Lemma rstrip_prefix s : ∃ post, s = rstrip s +:+ post.
Proof. destruct (rstrip_tail s) as (t & ? & _). by exists t. Qed.

Lemma inside_trans p q s : inside p q → inside q s → inside p s.
Proof.
  intros (pre & post & ->) (pre' & post' & ->).
  exists (pre' +:+ pre), (post +:+ post').
  clear. induction pre' as [|a pre' IH].
  - change (EmptyString +:+ ?x) with x.
    induction pre as [|b pre IH]; [|rewrite !append_cons; by rewrite IH].
    change (EmptyString +:+ ?x) with x.
    induction p as [|c p IH]; [done|]. rewrite !append_cons. by rewrite IH.
  - rewrite !append_cons. by rewrite IH.
Qed.

Lemma lstrip_inside s : inside (lstrip s) s.
Proof.
  induction s as [|s s' E IH|s Hne E] using space_ind.
  - apply inside_refl.
  - rewrite (lstrip_after _ _ E).
    by apply (inside_trans _ s'), after_space_inside.
  - rewrite lstrip_none by done. apply inside_refl.
Qed.

Lemma strip_inside s : inside (strip s) s.
Proof.
  apply (inside_trans _ (lstrip s)); [|apply lstrip_inside].
  destruct (rstrip_prefix (lstrip s)) as [post Hpost].
  unfold strip. rewrite Hpost at 2. apply inside_prefix.
Qed.

Lemma split_comma_cons a s :
  split_comma (String a s)
  = let plain :=
      match split_comma s with
      | p :: ps => String a p :: ps
      | [] => [String a EmptyString]
      end in
    match s with
    | String b s' =>
        if bool_decide (a = ","%char) && bool_decide (b = " "%char)
        then EmptyString :: split_comma s'
        else plain
    | EmptyString => plain
    end.
Proof. done. Qed.

(** The first piece of a split opens the text, and each further piece
    stands in it. *)
Lemma split_comma_shape n s :
  String.length s ≤ n →
  ∃ q ps, split_comma s = q :: ps ∧ (∃ post, s = q +:+ post) ∧
          ∀ p, p ∈ ps → inside p s.
Proof.
  revert s. induction n as [|n IH]; intros [|a s] Hn; simpl in Hn; try lia.
  - exists EmptyString, []. split_and!; [done|by exists EmptyString|].
    by intros p ?%elem_of_nil.
  - exists EmptyString, []. split_and!; [done|by exists EmptyString|].
    by intros p ?%elem_of_nil.
  - destruct (IH s ltac:(lia)) as (q & ps & Hq & [post Hpost] & Hps).
    assert (∃ q0 ps0,
      match split_comma s with
      | p :: ps => String a p :: ps
      | [] => [String a EmptyString]
      end = q0 :: ps0 ∧ (∃ post, String a s = q0 +:+ post) ∧
      ∀ p, p ∈ ps0 → inside p (String a s)) as Hplain.
    { rewrite Hq. exists (String a q), ps. split_and!; [done| |].
      - exists post. rewrite append_cons. by rewrite <-Hpost.
      - intros p Hp. by apply inside_cons, Hps. }
    rewrite split_comma_cons. cbn zeta.
    destruct s as [|b s']; [exact Hplain|].
    destruct (bool_decide (a = ","%char) && bool_decide (b = " "%char));
      [|exact Hplain].
    simpl in Hn.
    destruct (IH s' ltac:(lia)) as (q' & ps' & Hq' & [post' Hpost'] & Hps').
    exists EmptyString, (split_comma s'). split_and!; [done|by eexists|].
    intros p Hp. do 2 apply inside_cons. rewrite Hq' in Hp.
    apply elem_of_cons in Hp as [->|Hp]; [|by apply Hps'].
    rewrite Hpost'. apply inside_prefix.
Qed.

Lemma split_comma_inside s p : p ∈ split_comma s → inside p s.
Proof.
  destruct (split_comma_shape (String.length s) s) as (q & ps & -> & [post Hq] & Hps);
    [done|].
  intros [->|Hp]%elem_of_cons; [|by apply Hps].
  rewrite Hq. apply inside_prefix.
Qed.

End substring_facts.

Section sidebar_props.
Import Pd Dashboard Rowwise Props Sidebar Loaded.
Implicit Types (df : DataFrame) (c : string) (cols : list string) (r : list cell).

(** X18: the choices offered under "Content Type" and "Content Rating"
    are the values present in the column, each once and in ascending
    order; a missing value is never among them, so that with every choice
    selected (the default for the type) the test [isin] holds exactly on
    the rows where the column is not missing. *)
Theorem offered_options_are_the_present_values df c opts :
  options_of df c = Ok opts →
  all_types df = options_of df "type" ∧
  all_ratings df = options_of df "rating" ∧
  ∃ s, getitem df c = Ok s ∧
    NoDup opts ∧
    Sorted (λ a b, Is_true (cell_leb a b)) opts ∧
    (∀ x, x ∈ opts ↔ x ∈ s ∧ x ≠ NaN) ∧
    isin opts s = (λ x, notna x) <$> s.
Proof.
  intros H. split_and!; [done..|]. unfold options_of in H.
  apply bind_Ok in H as (s & Hs & [Hperm Hsort]%sorted_cells_spec).
  exists s. split_and!; [done| |done| |].
  - rewrite Hperm. apply NoDup_unique_from.
  - intros x. rewrite Hperm, elem_of_unique, list_elem_of_filter.
    unfold notna. destruct x; simpl; split; intros [? ?]; split; done.
  - unfold isin. apply list_fmap_ext. intros _ x Hx%list_elem_of_lookup_2.
    destruct (decide (x = NaN)) as [->|Hn].
    + apply bool_decide_eq_false.
      rewrite Hperm, elem_of_unique, list_elem_of_filter. simpl. tauto.
    + replace (notna x) with true by by destruct x.
      apply bool_decide_eq_true.
      rewrite Hperm, elem_of_unique, list_elem_of_filter.
      split; [by destruct x|done].
Qed.

Lemma offered_options_are_the_present_values_witness :
  ∃ opts s, all_types (load_data Samples.cleaned_file) = Ok opts ∧
            getitem (load_data Samples.cleaned_file) "type" = Ok s ∧
            isin opts s = (λ x, notna x) <$> s.
Proof.
  destruct (offered_options_are_the_present_values
              (load_data Samples.cleaned_file) "type"
              [Str "Movie"; Str "Tv Show"] ltac:(vm_compute; reflexivity))
    as (_ & _ & s & Hs & _ & _ & _ & Hin).
  exists [Str "Movie"; Str "Tv Show"], s.
  split_and!; [vm_compute; reflexivity|exact Hs|exact Hin].
Defined.

Lemma split_all_inv (s : Series) ps p :
  split_all s = Ok ps → p ∈ ps →
  ∃ t, Str t ∈ s ∧ inside p t ∧ PyStr.strip p = p.
Proof.
  unfold split_all. intros (ls & Hls%mapM_result_inv & [= <-])%bind_Ok.
  intros (q & -> & Hq)%list_elem_of_fmap.
  apply list_elem_of_join in Hq as (l & Hq & Hl).
  apply list_elem_of_lookup_1 in Hl as [k Hk].
  destruct (Forall2_lookup_r _ _ _ _ _ Hls Hk) as (x & Hx & Hsplit).
  destruct x as [|t| | |]; try done. injection Hsplit as <-.
  exists t. split_and!.
  - by eapply list_elem_of_lookup_2.
  - apply (inside_trans _ q); [apply strip_inside|by apply split_comma_inside].
  - apply strip_strip.
Qed.

(** X19: the choices offered under "Country" are pairwise distinct and
    in ascending order; each is a trimmed name other than "Unknown" that
    stands in the country text of some row, and selecting it alone makes
    the country test hold on that row. *)
Theorem offered_country_selects_a_row df opts c :
  country_list df = Ok opts → c ∈ opts →
  c ≠ "Unknown"%string ∧ PyStr.strip c = c ∧
  NoDup opts ∧ Sorted (λ s t, Is_true (str_leb s t)) opts ∧
  ∃ r t, r ∈ rows df ∧ cell_of (columns df) "country" r = Str t ∧
         PyStr.contains c t = true ∧
         country_hit [c] (cell_of (columns df) "country" r) = Ok true.
Proof.
  unfold country_list. intros (s & (i & Hi & ->)%getitem_inv & H)%bind_Ok.
  apply bind_Ok in H as (s' & ->%str_accessor_inv & H).
  apply bind_Ok in H as (ps & Hps & [= <-]).
  destruct (sorted_strs_spec
              (unique (filter (λ c, c ≠ "Unknown"%string) ps))) as [Hperm Hsort].
  intros Hc. rewrite Hperm, elem_of_unique, list_elem_of_filter in Hc.
  destruct Hc as [Hne Hc].
  destruct (split_all_inv _ _ _ Hps Hc) as (t & Ht & Hin & Hstrip).
  split_and!; [done|done| |done|].
  - rewrite Hperm. apply NoDup_unique_from.
  - apply list_elem_of_filter in Ht as [_ Ht].
    apply list_elem_of_fmap in Ht as (r & Hr & Hrows).
    exists r, t. unfold cell_of. rewrite Hi, <-Hr.
    pose proof (contains_inside _ _ Hin) as Hcon.
    split_and!; [done..|]. simpl. by rewrite Hcon.
Qed.

Lemma offered_country_selects_a_row_witness :
  ∃ opts, country_list (load_data Samples.cleaned_file) = Ok opts ∧
          ∃ r t, r ∈ rows (load_data Samples.cleaned_file) ∧
                 cell_of (columns (load_data Samples.cleaned_file)) "country" r
                 = Str t ∧
                 PyStr.contains "Germany" t = true.
Proof.
  eexists. split; [vm_compute; reflexivity|].
  destruct (offered_country_selects_a_row (load_data Samples.cleaned_file)
              ["Germany"; "United States"]%string "Germany"
              ltac:(vm_compute; reflexivity) ltac:(apply list_elem_of_here))
    as (_ & _ & _ & _ & r & t & Hr & Ht & Hc & _).
  exists r, t. split_and!; [exact Hr|exact Ht|exact Hc].
Defined.

End sidebar_props.

Section load_and_export.
Import Pd Dashboard Rowwise Props Loaded Sidebar.
Implicit Types (df : DataFrame) (c : string) (cols : list string) (r : list cell).

(** X11: in each row [load_data] leaves date_added a timestamp or
    missing and release_year a number or missing, a whole number that the
    file holds under release_year being kept as it is; year_added is a
    number or missing when the file has that column, and is otherwise the
    calendar year of the loaded date_added, missing when the date is. *)
Theorem load_data_types_dates_and_years file df k r :
  load_data_try file = Ok df → rectangular file = true →
  rows file !! k = Some r →
  ∃ r', rows df !! k = Some r' ∧
    is_datetimelike (cell_of (columns df) "date_added" r') = true ∧
    match cell_of (columns df) "release_year" r' with
    | NaN | Int _ | Float _ => True
    | _ => False
    end ∧
    (∀ z, cell_of (columns file) "release_year" r = Int z →
          cell_of (columns df) "release_year" r' = Int z) ∧
    (if bool_decide ("year_added"%string ∈ columns file)
     then match cell_of (columns df) "year_added" r' with
          | NaN | Int _ | Float _ => True
          | _ => False
          end
     else cell_of (columns df) "year_added" r'
          = year_cell (cell_of (columns df) "date_added" r')).
Proof.
  intros Hl Hrect Hk.
  pose proof (load_data_try_needs file df Hl) as [Hneed _].
  pose proof (load_data_try_rows file df Hl) as (_ & Hcols & Hrows).
  assert (r ∈ rows file) as Hr by by eapply list_elem_of_lookup_2.
  pose proof (rectangular_length file r Hrect Hr) as Hlen.
  exists (load_row (columns file) r).
  split; [by rewrite Hrows, list_lookup_fmap, Hk|]. rewrite Hcols.
  rewrite !(cell_of_load_row _ _ _ Hlen) by (apply Hneed; compute_done).
  unfold loaded_cell at 1 2 3. simpl.
  split_and!.
  - apply to_datetime_cell_kind.
  - apply to_numeric_cell_kind.
  - by intros z ->.
  - case_bool_decide as Hy.
    + rewrite (cell_of_load_row _ _ _ Hlen Hy). unfold loaded_cell. simpl.
      apply to_numeric_cell_kind.
    + by rewrite (load_row_year _ _ Hlen Hy).
Qed.

Lemma load_data_types_dates_and_years_witness :
  ∃ df r', load_data_try Samples.cleaned_file = Ok df ∧
           rows df !! 0 = Some r' ∧
           is_datetimelike (cell_of (columns df) "date_added" r') = true ∧
           cell_of (columns df) "release_year" r' = Int 2009.
Proof.
  destruct (load_data_types_dates_and_years Samples.cleaned_file
              (load_data Samples.cleaned_file) 0 _
              ltac:(vm_compute; reflexivity) ltac:(vm_compute; reflexivity)
              ltac:(vm_compute; reflexivity))
    as (r' & Hr' & Hdate & _ & Hyear & _).
  exists (load_data Samples.cleaned_file), r'.
  split_and!; [vm_compute; reflexivity|exact Hr'|exact Hdate|].
  apply Hyear. vm_compute. reflexivity.
Defined.

(** X15: when a download is offered, [load_data] has succeeded, and the
    CSV holds the header of the loaded frame and exactly the loaded rows
    that pass the filter, in the file's order; it has at least one record,
    so a file without rows never leads to a download. *)
Theorem download_holds_the_selected_rows file sel csv :
  snd (run file sel) = Some csv → length (index file) = length (rows file) →
  ∃ df, load_data_try file = Ok df ∧
    header csv = columns df ∧
    records csv
    = filter (λ r', passes (columns df) sel r')
        (load_row (columns file) <$> rows file) ∧
    records csv ≠ [] ∧ rows file ≠ [].
Proof.
  unfold run, load_data. destruct (load_data_try file) as [df|e] eqn:Hl; [|done].
  destruct (empty df) eqn:He; [done|].
  destruct (filter_mask_of df sel) as [mask|] eqn:Hm; [|done].
  cbn [snd]. unfold export. case_bool_decide as Hne; [|done]. intros [= <-] Hlen.
  pose proof (load_data_try_rows file df Hl) as (Hidx & _ & Hrows).
  exists df. cbn [to_csv header records].
  assert (rows (select df mask)
          = filter (λ r', passes (columns df) sel r')
              (load_row (columns file) <$> rows file)) as E.
  { rewrite <-Hrows. apply (filtered_rows df sel mask Hm).
    by rewrite Hidx, Hrows, length_fmap. }
  split_and!; [done|done|exact E|exact Hne|].
  intros E0. rewrite E, E0 in Hne. done.
Qed.

Lemma download_holds_the_selected_rows_witness :
  ∃ csv, snd (run Samples.cleaned_file Samples.everything) = Some csv ∧
         records csv ≠ [].
Proof.
  eexists. split; [vm_compute; reflexivity|].
  destruct (download_holds_the_selected_rows Samples.cleaned_file
              Samples.everything _ ltac:(vm_compute; reflexivity) eq_refl)
    as (df & _ & _ & _ & Hne & _).
  exact Hne.
Defined.

End load_and_export.

Section never_raising.
Import Pd Dashboard Rowwise Props Loaded Sidebar.
Implicit Types (df : DataFrame) (c : string) (cols : list string) (r : list cell).

Lemma str_accessor_text (s : Series) :
  (∀ x, x ∈ s → ∃ t, x = Str t) → str_accessor s = Ok s.
Proof.
  intros Hs. unfold str_accessor.
  assert (forallb is_text_or_nan s = true) as ->.
  { apply forallb_forall. intros x Hx%list_elem_of_In.
    by destruct (Hs x Hx) as [t ->]. }
  assert (existsb is_text s || bool_decide (s = []) = true) as ->; [|done].
  destruct s as [|x s]; [done|].
  by destruct (Hs x (list_elem_of_here _ _)) as [t ->].
Qed.

(** The pieces of a column of text are always found. *)
Lemma split_all_Ok (s : Series) :
  (∀ x, x ∈ s → ∃ t, x = Str t) → ∃ ps, split_all s = Ok ps.
Proof.
  intros Hs. unfold split_all.
  rewrite (mapM_result_fmap _
             (λ x, match x with Str t => split_comma t | _ => [] end)).
  - cbn [mbind result_bind]. eauto.
  - intros x [t ->]%Hs. done.
Qed.

(** X14: on the frame loaded from a file that has a type column and
    whose country cells are text or missing, the country is a text in
    every row, and neither the list of countries of the sidebar, nor the
    filter, whatever is selected, nor the count of countries of any
    selection of rows raises. *)
Theorem sidebar_and_filter_never_raise file df sel rows_shown :
  load_data_try file = Ok df → rectangular file = true →
  "type"%string ∈ columns file →
  (∀ r, r ∈ rows file →
        is_text_or_nan (cell_of (columns file) "country" r) = true) →
  (∀ r', r' ∈ rows df → ∃ s, cell_of (columns df) "country" r' = Str s) ∧
  (∃ opts, country_list df = Ok opts) ∧
  (∃ mask, filter_mask_of df sel = Ok mask) ∧
  (∃ n, countries_count (select df rows_shown) = Ok n).
Proof.
  intros Hl Hrect Hty Htext.
  pose proof (load_data_try_needs file df Hl) as [Hneed _].
  pose proof (load_data_try_rows file df Hl) as (_ & Hcols & Hrows).
  assert (∀ c, c ∈ columns file → ∃ i, col_index c (columns df) = Some i) as Hin.
  { intros c Hc. apply col_index_elem_of. rewrite Hcols.
    by apply elem_of_loaded_columns_2. }
  assert ("country"%string ∈ columns file) as Hcc by (apply Hneed; compute_done).
  assert (∀ r', r' ∈ rows df →
            ∃ s, cell_of (columns df) "country" r' = Str s) as Hstr.
  { intros r' (r & Hr & ->)%(elem_of_rows_loaded file df r' Hl).
    destruct (Hin _ Hcc) as [i Hi]. unfold cell_of. rewrite Hi.
    rewrite (loaded_cell_at file df _ i r Hl Hrect Hcc Hi Hr).
    unfold loaded_cell. simpl. specialize (Htext r Hr).
    destruct (cell_of (columns file) "country" r); simpl in *; eauto; done. }
  destruct (Hin "type"%string Hty) as [i1 Hi1].
  destruct (Hin "country"%string Hcc) as [i2 Hi2].
  destruct (Hin "release_year"%string) as [i3 Hi3]; [apply Hneed; compute_done|].
  destruct (Hin "rating"%string) as [i4 Hi4]; [apply Hneed; compute_done|].
  assert (∀ l x, l `sublist_of` rows df → x ∈ cell_at i2 <$> l →
                 ∃ t, x = Str t) as Hcol.
  { intros l x Hl' (r' & -> & Hr')%list_elem_of_fmap.
    destruct (Hstr r') as [s Hs]; [by eapply elem_of_sublist|].
    unfold cell_of in Hs. rewrite Hi2 in Hs. eauto. }
  split_and!; [done|..].
  - unfold country_list. rewrite (getitem_Ok df _ _ Hi2).
    cbn [mbind result_bind].
    rewrite str_accessor_text by (intros x Hx; by apply (Hcol (rows df) x)).
    cbn [mbind result_bind].
    destruct (split_all_Ok (filter (λ x, notna x) (cell_at i2 <$> rows df)))
      as [ps ->]; [|cbn [mbind result_bind]; eauto].
    intros x [_ Hx]%list_elem_of_filter. by apply (Hcol (rows df)).
  - unfold filter_mask_of. cbn zeta.
    rewrite (getitem_Ok df _ _ Hi1), (getitem_Ok df _ _ Hi2),
      (getitem_Ok df _ _ Hi3), (getitem_Ok df _ _ Hi4).
    cbn [mbind result_bind].
    rewrite (mapM_result_fmap _ (country_matches (selected_countries sel))).
    + destruct (bool_decide (selected_types sel ≠ [])),
        (bool_decide (selected_countries sel ≠ [])),
        (bool_decide (selected_ratings sel ≠ [])); cbn [mbind result_bind]; eauto.
    + intros x [t ->]%(Hcol (rows df)); [|done].
      unfold country_matches, country_hit. by destruct (selected_countries sel).
  - unfold countries_count.
    rewrite (getitem_Ok (select df rows_shown) "country" i2 Hi2).
    cbn [mbind result_bind rows select].
    assert (∀ x, x ∈ cell_at i2 <$> filter_mask rows_shown (rows df) →
                 ∃ t, x = Str t) as Hshown.
    { intros x Hx. apply (Hcol (filter_mask rows_shown (rows df))); [|done].
      apply filter_mask_sublist. }
    unfold pieces. rewrite str_accessor_text by done.
    cbn [mbind result_bind].
    destruct (split_all_Ok _ Hshown) as [ps ->]. cbn [mbind result_bind]. eauto.
Qed.

Lemma sidebar_and_filter_never_raise_witness :
  (∃ opts, country_list (load_data Samples.cleaned_file) = Ok opts) ∧
  (∃ mask, filter_mask_of (load_data Samples.cleaned_file) Samples.everything
           = Ok mask).
Proof.
  destruct (sidebar_and_filter_never_raise Samples.cleaned_file
              (load_data Samples.cleaned_file) Samples.everything [true; true])
    as (_ & Hopts & Hmask & _).
  - vm_compute. reflexivity.
  - vm_compute. reflexivity.
  - apply (bool_decide_unpack _). vm_compute. exact I.
  - intros r Hr. apply elem_of_cons in Hr as [->|Hr]; [reflexivity|].
    apply list_elem_of_singleton in Hr as ->. reflexivity.
  - split; [exact Hopts|exact Hmask].
Defined.

End never_raising.

(* ===================================================================== *)
(** * The dashboard: the first run *)
(* ===================================================================== *)

Section slider_facts.
Import Pd Dashboard Rowwise Sidebar Slider.

Lemma float_le_refl f : float_le f f = true.
Proof. destruct f; simpl; [|done..]. apply Z.leb_le. lia. Qed.

Lemma float_le_trans f g h :
  float_le f g = true → float_le g h = true → float_le f h = true.
Proof.
  destruct f as [m1 k1| |], g as [m2 k2| |], h as [m3 k3| |]; simpl;
    try done.
  rewrite !Z.leb_le. intros H1 H2.
  assert (0 < 10 ^ Z.of_nat k1)%Z by (apply Z.pow_pos_nonneg; lia).
  assert (0 < 10 ^ Z.of_nat k2)%Z by (apply Z.pow_pos_nonneg; lia).
  assert (0 < 10 ^ Z.of_nat k3)%Z by (apply Z.pow_pos_nonneg; lia).
  set (A := (10 ^ Z.of_nat k1)%Z) in *. set (B := (10 ^ Z.of_nat k2)%Z) in *.
  set (C := (10 ^ Z.of_nat k3)%Z) in *. clearbody A B C.
  apply (Z.mul_le_mono_pos_r _ _ B); [done|].
  assert (m1 * B * C ≤ m2 * A * C)%Z by (apply Z.mul_le_mono_nonneg_r; lia).
  assert (m2 * C * A ≤ m3 * B * A)%Z by (apply Z.mul_le_mono_nonneg_r; lia).
  lia.
Qed.

(** The minimum is a number of the column below every number of it,
    when the column holds a number at all. *)
Lemma series_min_spec (s : Series) :
  match number_of (series_min s) with
  | Some g =>
      series_min s ∈ s ∧
      ∀ x f, x ∈ s → number_of x = Some f → float_le g f = true
  | None => ∀ x, x ∈ s → number_of x = None
  end.
Proof.
  induction s as [|c s IH]; simpl.
  - intros x Hx. by apply elem_of_nil in Hx.
  - fold (series_min s).
    destruct (number_of c) as [f|] eqn:Hc;
      destruct (number_of (series_min s)) as [g|] eqn:Hg.
    + destruct (float_le f g) eqn:Hfg.
      * rewrite Hc. split; [apply list_elem_of_here|].
        intros x f' [->|Hx]%elem_of_cons Hf'.
        -- rewrite Hc in Hf'. injection Hf' as <-. apply float_le_refl.
        -- destruct IH as [_ IH]. eapply float_le_trans; [exact Hfg|].
           by eapply IH.
      * rewrite Hg. destruct IH as [Hin IH].
        split; [by apply list_elem_of_further|].
        intros x f' [->|Hx]%elem_of_cons Hf'; [|by eapply IH].
        rewrite Hc in Hf'. injection Hf' as <-.
        destruct (float_le_total f g) as [E|E]; congruence.
    + rewrite Hc. split; [apply list_elem_of_here|].
      intros x f' [->|Hx]%elem_of_cons Hf'.
      * rewrite Hc in Hf'. injection Hf' as <-. apply float_le_refl.
      * rewrite (IH x Hx) in Hf'. done.
    + rewrite ?Hg. destruct IH as [Hin IH].
      split; [by apply list_elem_of_further|].
      intros x f' [->|Hx]%elem_of_cons Hf'; [congruence|by eapply IH].
    + rewrite ?Hg. intros x [->|Hx]%elem_of_cons; [done|by apply IH].
Qed.

Lemma series_max_spec (s : Series) :
  match number_of (series_max s) with
  | Some g =>
      series_max s ∈ s ∧
      ∀ x f, x ∈ s → number_of x = Some f → float_le f g = true
  | None => ∀ x, x ∈ s → number_of x = None
  end.
Proof.
  induction s as [|c s IH]; simpl.
  - intros x Hx. by apply elem_of_nil in Hx.
  - fold (series_max s).
    destruct (number_of c) as [f|] eqn:Hc;
      destruct (number_of (series_max s)) as [g|] eqn:Hg.
    + destruct (float_le g f) eqn:Hfg.
      * rewrite Hc. split; [apply list_elem_of_here|].
        intros x f' [->|Hx]%elem_of_cons Hf'.
        -- rewrite Hc in Hf'. injection Hf' as <-. apply float_le_refl.
        -- destruct IH as [_ IH]. eapply float_le_trans; [|exact Hfg].
           by eapply IH.
      * rewrite Hg. destruct IH as [Hin IH].
        split; [by apply list_elem_of_further|].
        intros x f' [->|Hx]%elem_of_cons Hf'; [|by eapply IH].
        rewrite Hc in Hf'. injection Hf' as <-.
        destruct (float_le_total f g) as [E|E]; congruence.
    + rewrite Hc. split; [apply list_elem_of_here|].
      intros x f' [->|Hx]%elem_of_cons Hf'.
      * rewrite Hc in Hf'. injection Hf' as <-. apply float_le_refl.
      * rewrite (IH x Hx) in Hf'. done.
    + rewrite ?Hg. destruct IH as [Hin IH].
      split; [by apply list_elem_of_further|].
      intros x f' [->|Hx]%elem_of_cons Hf'; [congruence|by eapply IH].
    + rewrite ?Hg. intros x [->|Hx]%elem_of_cons; [done|by apply IH].
Qed.

Lemma quot_le_upper m p z : (0 < p → m ≤ z * p → m ÷ p ≤ z)%Z.
Proof.
  intros Hp Hm. destruct (Z.le_gt_cases 0 m) as [H0|H0].
  - rewrite Z.quot_div_nonneg by lia. apply Z.div_le_upper_bound; lia.
  - replace m with (- - m)%Z by lia. rewrite Z.quot_opp_l by lia.
    rewrite Z.quot_div_nonneg by lia.
    destruct (Z.le_gt_cases 0 z) as [Hz|Hz].
    + pose proof (Z.div_pos (- m) p ltac:(lia) Hp). lia.
    + assert (- z ≤ - m / p)%Z; [|lia].
      apply Z.div_le_lower_bound; lia.
Qed.

Lemma quot_le_lower m p z : (0 < p → z * p ≤ m → z ≤ m ÷ p)%Z.
Proof.
  intros Hp Hm. pose proof (quot_le_upper (- m) p (- z) Hp ltac:(lia)) as H.
  rewrite Z.quot_opp_l in H by lia. lia.
Qed.

(** A whole number of the column lies between the two ends of the
    slider. *)
Lemma int_of_min (s : Series) lo z :
  int_of_cell (series_min s) = Some lo → Int z ∈ s → (lo ≤ z)%Z.
Proof.
  intros Hlo Hz. pose proof (series_min_spec s) as H.
  destruct (series_min s) as [|t|z0|f|ns]; try done; simpl in *.
  - injection Hlo as <-. destruct H as [_ H].
    specialize (H (Int z) _ Hz eq_refl). simpl in H. apply Z.leb_le in H. lia.
  - destruct H as [_ H]. specialize (H (Int z) _ Hz eq_refl).
    destruct f as [m k| |]; simpl in *; try done. injection Hlo as <-.
    apply Z.leb_le in H. apply quot_le_upper; [|lia].
    apply Z.pow_pos_nonneg; lia.
Qed.

Lemma int_of_max (s : Series) hi z :
  int_of_cell (series_max s) = Some hi → Int z ∈ s → (z ≤ hi)%Z.
Proof.
  intros Hhi Hz. pose proof (series_max_spec s) as H.
  destruct (series_max s) as [|t|z0|f|ns]; try done; simpl in *.
  - injection Hhi as <-. destruct H as [_ H].
    specialize (H (Int z) _ Hz eq_refl). simpl in H. apply Z.leb_le in H. lia.
  - destruct H as [_ H]. specialize (H (Int z) _ Hz eq_refl).
    destruct f as [m k| |]; simpl in *; try done. injection Hhi as <-.
    apply Z.leb_le in H. apply quot_le_lower; [|lia].
    apply Z.pow_pos_nonneg; lia.
Qed.

End slider_facts.

Section first_run.
Import Pd Dashboard Rowwise Props Loaded Sidebar Slider.
Implicit Types (df : DataFrame) (c : string) (cols : list string) (r : list cell).

(** The choices of a column are its present values. *)
Lemma options_of_elem df c opts i x :
  options_of df c = Ok opts → col_index c (columns df) = Some i →
  x ∈ opts ↔ x ∈ cell_at i <$> rows df ∧ x ≠ NaN.
Proof.
  unfold options_of. intros H Hi. rewrite (getitem_Ok df c i Hi) in H.
  cbn [mbind result_bind] in H. apply sorted_cells_spec in H as [Hperm _].
  rewrite Hperm, elem_of_unique, list_elem_of_filter.
  unfold notna. destruct x; simpl; split; intros [? ?]; split; done.
Qed.

(** X20: on a first run over the loaded frame the widgets select every
    type, no country, the whole range of years and no rating; then (the
    slider having two different ends) each whole-number release_year lies
    in the selected range, and a row with such a year is shown exactly
    when its type is present (or when no row has a type at all, in which
    case the type filter is off). *)
Theorem first_run_shows_rows_with_type_and_year file df sel mask :
  load_data_try file = Ok df →
  length (index file) = length (rows file) →
  first_selection df = Ok (Some sel) →
  filter_mask_of df sel = Ok mask →
  (fst (year_range sel) < snd (year_range sel))%Z →
  all_types df = Ok (selected_types sel) ∧
  selected_countries sel = [] ∧ selected_ratings sel = [] ∧
  year_bounds df = Ok (Some (year_range sel)) ∧
  ∀ r z, r ∈ rows df → cell_of (columns df) "release_year" r = Int z →
    (fst (year_range sel) ≤ z ≤ snd (year_range sel))%Z ∧
    (r ∈ rows (select df mask) ↔
     cell_of (columns df) "type" r ≠ NaN ∨ selected_types sel = []).
Proof.
  intros Hl Hlen0 H Hm _.
  assert (length (index df) = length (rows df)) as Hlen.
  { apply load_data_try_rows in Hl as (-> & _ & ->). by rewrite length_fmap. }
  unfold first_selection in H.
  apply bind_Ok in H as (genres & _ & H).
  apply bind_Ok in H as (types & Htypes & H).
  apply bind_Ok in H as (countries & _ & H).
  apply bind_Ok in H as (bounds & Hb & H).
  apply bind_Ok in H as (ratings & _ & H).
  destruct bounds as [[lo hi]|]; [|done]. injection H as <-.
  cbn [selected_types selected_countries selected_ratings year_range fst snd].
  split_and!; [done..|]. intros r z Hr Hz.
  unfold year_bounds in Hb.
  apply bind_Ok in Hb as (s & (i & Hi & ->)%getitem_inv & Hb).
  destruct (int_of_cell (series_min _)) as [lo'|] eqn:Hlo; [|done].
  destruct (int_of_cell (series_max _)) as [hi'|] eqn:Hhi; [|done].
  cbn in Hb. injection Hb as -> ->.
  assert (Int z ∈ cell_at i <$> rows df) as Hin.
  { apply list_elem_of_fmap. exists r. split; [|done].
    unfold cell_of in Hz. by rewrite Hi in Hz. }
  pose proof (int_of_min _ _ _ Hlo Hin) as Hge.
  pose proof (int_of_max _ _ _ Hhi Hin) as Hle.
  split; [done|].
  rewrite (filtered_rows df _ mask Hm Hlen), list_elem_of_filter, Is_true_true.
  unfold passes.
  cbn [selected_types selected_countries selected_ratings year_range fst snd].
  rewrite Hz. cbn [geb_cell leb_cell].
  rewrite (proj2 (Z.leb_le lo z) Hge), (proj2 (Z.leb_le z hi) Hle).
  rewrite !(bool_decide_true ([] = [])) by done.
  cbn [orb andb]. rewrite !andb_true_r.
  rewrite orb_true_iff, !bool_decide_eq_true.
  unfold all_types in Htypes.
  destruct (col_index "type" (columns df)) as [j|] eqn:Hj.
  - rewrite (options_of_elem df _ _ j _ Htypes Hj).
    assert (cell_of (columns df) "type" r ∈ cell_at j <$> rows df) as Hty.
    { apply list_elem_of_fmap. exists r. unfold cell_of. by rewrite Hj. }
    tauto.
  - unfold options_of in Htypes. by rewrite (getitem_Raise df _ Hj) in Htypes.
Qed.

Lemma first_run_shows_rows_with_type_and_year_witness :
  ∃ sel mask,
    first_selection (load_data Samples.cleaned_file) = Ok (Some sel) ∧
    filter_mask_of (load_data Samples.cleaned_file) sel = Ok mask ∧
    year_range sel = (2009, 2017)%Z ∧
    year_bounds (load_data Samples.cleaned_file) = Ok (Some (year_range sel)).
Proof.
  do 2 eexists. split_and!; [vm_compute; reflexivity..|].
  refine (proj1 (proj2 (proj2 (proj2
    (first_run_shows_rows_with_type_and_year Samples.cleaned_file
       (load_data Samples.cleaned_file) _ _ _ _ _ _ _)))));
    vm_compute; reflexivity.
Defined.

End first_run.

(* ===================================================================== *)
(** * The dashboard: when the file loads *)
(* ===================================================================== *)

Section stage_facts.
Import Pd Dashboard Rowwise Props Loaded Stages.
Implicit Types (df : DataFrame) (c : string) (cols : list string) (r : list cell).

Lemma load_data_try_lines file :
  load_data_try file = (d ← first_lines file; d ← middle_lines d; last_lines d).
Proof.
  unfold load_data_try, first_lines, middle_lines, last_lines.
  destruct (getitem file "date_added") as [s1|]; [|done].
  cbn [mbind result_bind]. cbn zeta.
  destruct (getitem _ "release_year") as [s2|]; [|done].
  cbn [mbind result_bind]. cbn zeta. done.
Qed.

(** The frame after lines 51 to 58. *)
Lemma first_lines_Ok file :
  "date_added"%string ∈ columns file → "release_year"%string ∈ columns file →
  first_lines file
  = Ok {| index := index file;
          columns := with_column "year_added" (columns file);
          rows := typed_row (columns file) <$> rows file |}.
Proof.
  intros [i1 H1]%col_index_elem_of [i2 H2]%col_index_elem_of.
  unfold first_lines. rewrite (getitem_Ok file _ _ H1).
  cbn [mbind result_bind]. cbn zeta. unfold to_datetime.
  rewrite (setitem_on_col file _ _ _ H1).
  rewrite (getitem_Ok (map_rows _ file) "release_year" i2 H2).
  cbn [mbind result_bind]. cbn zeta. unfold to_numeric.
  rewrite (setitem_on_col (map_rows _ file) _ _ _ H2).
  rewrite map_rows_map_rows. cbn [columns map_rows].
  set (g2 := λ r, on_col (columns file) "release_year" to_numeric_cell
                    (on_col (columns file) "date_added" to_datetime_cell r)).
  destruct (decide ("year_added"%string ∉ columns file)) as [Hy|Hy].
  - rewrite (bool_decide_true _ Hy).
    rewrite (getitem_Ok (map_rows g2 file) "date_added" i1 H1).
    cbn [mbind result_bind]. unfold dt_year.
    assert (forallb is_datetimelike (cell_at i1 <$> rows (map_rows g2 file)) = true)
      as ->.
    { apply forallb_forall. intros x Hx%list_elem_of_In.
      cbn [rows map_rows] in Hx.
      apply list_elem_of_fmap in Hx as (r' & -> & Hr').
      apply list_elem_of_fmap in Hr' as (r & -> & _).
      unfold cell_at, g2.
      rewrite (on_col_lookup _ "date_added" "release_year" _ _ i1 H1).
      rewrite (on_col_lookup _ "date_added" "date_added" _ _ i1 H1).
      rewrite bool_decide_false, bool_decide_true by done.
      destruct (r !! i1); simpl; [apply to_datetime_cell_kind|done]. }
    cbn [mbind result_bind].
    rewrite <-(list_fmap_compose (cell_at i1) year_cell).
    rewrite (setitem_rows (map_rows g2 file) "year_added" (year_cell ∘ cell_at i1)).
    cbn [index columns rows map_rows]. do 2 f_equal.
    rewrite <-list_fmap_compose. apply list_fmap_ext. intros _ r _. simpl.
    unfold typed_row. cbn zeta. rewrite (bool_decide_true _ Hy).
    fold (g2 r). unfold cell_of. by rewrite H1.
  - rewrite (bool_decide_false _ Hy). apply dec_stable in Hy.
    pose proof Hy as [iy Hiy]%col_index_elem_of.
    rewrite (getitem_Ok (map_rows g2 file) "year_added" iy Hiy).
    cbn [mbind result_bind]. unfold to_numeric.
    rewrite (setitem_on_col (map_rows g2 file) _ _ _ Hiy).
    rewrite map_rows_map_rows. unfold map_rows. cbn [index columns rows].
    rewrite (with_column_elem_of _ _ Hy). do 2 f_equal.
    apply list_fmap_ext. intros _ r _.
    unfold typed_row. cbn zeta.
    rewrite (bool_decide_false ("year_added"%string ∉ _)) by tauto. done.
Qed.

(** A column the first lines leave alone, read after them. *)
Lemma column_after_first_lines file c j :
  rectangular file = true →
  c ≠ "date_added"%string → c ≠ "release_year"%string →
  c ≠ "year_added"%string →
  col_index c (columns file) = Some j →
  cell_at j <$> (typed_row (columns file) <$> rows file)
  = cell_at j <$> rows file.
Proof.
  intros Hrect H1 H2 H3 Hj. rewrite <-list_fmap_compose.
  apply list_fmap_ext. intros _ r Hr%list_elem_of_lookup_2. simpl.
  pose proof (rectangular_length file r Hrect Hr) as Hlen.
  pose proof (cell_of_typed_row (columns file) r c Hlen H1 H2 H3) as E.
  unfold cell_of in E.
  by rewrite (col_index_with_column _ _ _ _ Hj), Hj in E.
Qed.

Lemma text_column_spec df c :
  text_column df c = true ↔
  ∃ i, col_index c (columns df) = Some i ∧
       str_accessor (cell_at i <$> rows df) = Ok (cell_at i <$> rows df).
Proof.
  unfold text_column, getitem, get_loc.
  destruct (col_index c (columns df)) as [i|]; cbn [mbind result_bind].
  - destruct (str_accessor _) as [s|] eqn:E.
    + pose proof (str_accessor_inv _ _ E) as ->. split; eauto.
    + split; [done|]. intros (i' & [= <-] & E'). congruence.
  - split; [done|]. by intros (i & ? & _).
Qed.


Lemma last_lines_Ok df :
  "country"%string ∈ columns df → "rating"%string ∈ columns df →
  "listed_in"%string ∈ columns df →
  ∃ df', last_lines df = Ok df'.
Proof.
  intros [i1 H1]%col_index_elem_of [i2 H2]%col_index_elem_of
         [i3 H3]%col_index_elem_of.
  unfold last_lines. rewrite (getitem_Ok df _ _ H1).
  cbn [mbind result_bind]. cbn zeta.
  set (d1 := setitem df "country" _).
  assert (columns d1 = columns df) as E1.
  { unfold d1. rewrite columns_setitem. apply with_column_elem_of.
    apply col_index_is_Some. eauto. }
  rewrite (getitem_Ok d1 "rating" i2) by by rewrite E1.
  cbn [mbind result_bind]. cbn zeta.
  set (d2 := setitem d1 "rating" _).
  assert (columns d2 = columns df) as E2.
  { unfold d2. rewrite columns_setitem, E1. apply with_column_elem_of.
    apply col_index_is_Some. eauto. }
  rewrite (getitem_Ok d2 "listed_in" i3) by by rewrite E2.
  cbn [mbind result_bind]. eauto.
Qed.

(** Lines 61 and 62 on the frame the first lines leave. *)
Lemma middle_lines_spec file :
  rectangular file = true →
  let d3 := {| index := index file;
               columns := with_column "year_added" (columns file);
               rows := typed_row (columns file) <$> rows file |} in
  (∃ d4, middle_lines d3 = Ok d4) ↔
  ("duration"%string ∈ columns file →
   text_column file "type" = true ∧ text_column file "duration" = true).
Proof.
  intros Hrect d3. unfold middle_lines. cbn [columns d3].
  rewrite (bool_decide_ext _ _ (duration_with_year (columns file))).
  destruct (decide ("duration"%string ∈ columns file)) as [Hd|Hd].
  2:{ rewrite (bool_decide_false _ Hd). split; [tauto|eauto]. }
  rewrite (bool_decide_true _ Hd).
  assert (∀ c j, c ≠ "date_added"%string → c ≠ "release_year"%string →
            c ≠ "year_added"%string →
            col_index c (columns d3) = Some j →
            col_index c (columns file) = Some j ∧
            cell_at j <$> rows d3 = cell_at j <$> rows file) as Hcol.
  { intros c j H1 H2 H3 Hj. cbn [columns rows d3] in *.
    assert (col_index c (columns file) = Some j) as Hj'.
    { destruct (col_index c (columns file)) as [j'|] eqn:E.
      - by rewrite (col_index_with_column _ _ _ _ E) in Hj.
      - apply col_index_None in E.
        assert (c ∈ with_column "year_added" (columns file)) as Hc
          by (apply col_index_is_Some; eauto).
        apply elem_of_with_column in Hc as [?|?]; done. }
    split; [done|]. by apply (column_after_first_lines file c j). }
  rewrite !text_column_spec. split.
  - intros [d4 H] _. apply bind_Ok in H as (m & Hm & _).
    unfold duration_mins in Hm.
    apply bind_Ok in Hm as (ty & (j1 & Hj1 & ->)%getitem_inv & Hm).
    apply bind_Ok in Hm as (low & Hlow & Hm).
    apply bind_Ok in Hm as (du & (j2 & Hj2 & ->)%getitem_inv & Hm).
    apply bind_Ok in Hm as (du' & Hdu & _).
    unfold str_lower in Hlow. apply bind_Ok in Hlow as (ty' & Hty & _).
    destruct (Hcol "type"%string j1) as [Hj1' E1]; [done..|].
    destruct (Hcol "duration"%string j2) as [Hj2' E2]; [done..|].
    rewrite E1 in Hty. rewrite E2 in Hdu.
    pose proof (str_accessor_inv _ _ Hty) as ->.
    pose proof (str_accessor_inv _ _ Hdu) as ->. split; eauto.
  - intros H. destruct (H Hd) as [(j1 & Hj1 & Hty) (j2 & Hj2 & Hdu)].
    assert (col_index "type" (columns d3) = Some j1) as Hj1'
      by by apply (col_index_with_column _ "year_added").
    assert (col_index "duration" (columns d3) = Some j2) as Hj2'
      by by apply (col_index_with_column _ "year_added").
    destruct (Hcol "type"%string j1) as [_ E1]; [done..|].
    destruct (Hcol "duration"%string j2) as [_ E2]; [done..|].
    unfold duration_mins.
    rewrite (getitem_Ok d3 _ _ Hj1'), (getitem_Ok d3 _ _ Hj2').
    cbn [mbind result_bind]. unfold str_lower. rewrite E1, E2, Hty, Hdu.
    cbn [mbind result_bind]. eauto.
Qed.

Lemma middle_lines_columns d3 d4 c :
  middle_lines d3 = Ok d4 → c ∈ columns d3 → c ∈ columns d4.
Proof.
  unfold middle_lines. destruct (bool_decide _).
  - intros (m & _ & [= <-])%bind_Ok Hc.
    rewrite columns_setitem. apply elem_of_with_column. by left.
  - by intros [= <-].
Qed.



End stage_facts.
